(** * epubtrans: the Anthropic translator and the single-segment endpoint

    A shallow embedding of [pkg/translator/anthropic.go] (the translator
    singleton, its result cache, the retry loop and the usage metadata)
    and of the [POST /api/ai-translate] handler of [cmd/serve.go].

    Go strings are byte strings and are modelled by [string] (a list of
    8-bit [ascii]); Go's [int] is a 64-bit two's complement integer carried
    in [Z] with its wrap-around written out; [time.Time] and
    [time.Duration] are nanosecond counts in [Z]. *)

From Stdlib Require Import ZArith QArith String Ascii List Bool Lia.
From stdpp Require Import base option list gmap strings fin_maps.
Import ListNotations.

Local Open Scope string_scope.
Local Open Scope Z_scope.

Set Warnings "-register-all".

(** ** Byte strings *)

Definition LF : string := String (ascii_of_nat 10) EmptyString.

Definition bytes_of_string (s : string) : list Z :=
  map (fun a => Z.of_N (N_of_ascii a)) (list_ascii_of_string s).

(** [len(s)] *)
Definition len (s : string) : Z := Z.of_nat (String.length s).

(** [s[:n]] for [0 <= n <= len(s)] *)
Definition slice_to (s : string) (n : Z) : string :=
  String.substring 0 (Z.to_nat n) s.

(** ** crypto/sha256 and encoding/hex *)

Module SHA256.

Definition mask32 : Z := 4294967295.
Definition add32 (x y : Z) : Z := Z.land (x + y) mask32.
Definition rotr (n x : Z) : Z :=
  Z.lor (Z.shiftr x n) (Z.land (Z.shiftl x (32 - n)) mask32).
Definition not32 (x : Z) : Z := Z.lxor x mask32.

Definition Ch (x y z : Z) : Z := Z.lxor (Z.land x y) (Z.land (not32 x) z).
Definition Maj (x y z : Z) : Z :=
  Z.lxor (Z.lxor (Z.land x y) (Z.land x z)) (Z.land y z).
Definition Sigma0 (x : Z) : Z := Z.lxor (Z.lxor (rotr 2 x) (rotr 13 x)) (rotr 22 x).
Definition Sigma1 (x : Z) : Z := Z.lxor (Z.lxor (rotr 6 x) (rotr 11 x)) (rotr 25 x).
Definition sigma0 (x : Z) : Z := Z.lxor (Z.lxor (rotr 7 x) (rotr 18 x)) (Z.shiftr x 3).
Definition sigma1 (x : Z) : Z := Z.lxor (Z.lxor (rotr 17 x) (rotr 19 x)) (Z.shiftr x 10).

Definition K : list Z :=
 [1116352408; 1899447441; 3049323471; 3921009573; 961987163; 1508970993;
  2453635748; 2870763221; 3624381080; 310598401; 607225278; 1426881987;
  1925078388; 2162078206; 2614888103; 3248222580; 3835390401; 4022224774;
  264347078; 604807628; 770255983; 1249150122; 1555081692; 1996064986;
  2554220882; 2821834349; 2952996808; 3210313671; 3336571891; 3584528711;
  113926993; 338241895; 666307205; 773529912; 1294757372; 1396182291;
  1695183700; 1986661051; 2177026350; 2456956037; 2730485921; 2820302411;
  3259730800; 3345764771; 3516065817; 3600352804; 4094571909; 275423344;
  430227734; 506948616; 659060556; 883997877; 958139571; 1322822218;
  1537002063; 1747873779; 1955562222; 2024104815; 2227730452; 2361852424;
  2428436474; 2756734187; 3204031479; 3329325298].

Definition H0 : list Z :=
 [1779033703; 3144134277; 1013904242; 2773480762;
  1359893119; 2600822924; 528734635; 1541459225].

(** Big-endian encoding of [x] on [n] bytes. *)
Fixpoint be_bytes (n : nat) (x : Z) : list Z :=
  match n with
  | O => []
  | S n' => Z.land (Z.shiftr x (8 * Z.of_nat n')) 255 :: be_bytes n' x
  end.

(** The message, a [0x80] byte, zeros up to 56 modulo 64, and the bit
    length on 8 bytes. *)
Definition pad (msg : list Z) : list Z :=
  let l := Z.of_nat (length msg) in
  let zeros := Z.to_nat ((55 - l) mod 64) in
  msg ++ [128] ++ repeat 0 zeros ++ be_bytes 8 (8 * l).

Fixpoint words (fuel : nat) (bs : list Z) : list Z :=
  match fuel, bs with
  | S fuel', b0 :: b1 :: b2 :: b3 :: rest =>
      (b0 * 16777216 + b1 * 65536 + b2 * 256 + b3) :: words fuel' rest
  | _, _ => []
  end.

(** Message schedule, most recent word first. *)
Fixpoint schedule (n : nat) (w : list Z) : list Z :=
  match n with
  | O => w
  | S n' =>
      let x := add32 (add32 (sigma1 (nth 1 w 0)) (nth 6 w 0))
                     (add32 (sigma0 (nth 14 w 0)) (nth 15 w 0)) in
      schedule n' (x :: w)
  end.

Definition round (st : list Z) (kw : Z * Z) : list Z :=
  match st with
  | [a; b; c; d; e; f; g; h] =>
      let t1 := add32 (add32 (add32 h (Sigma1 e)) (add32 (Ch e f g) (fst kw))) (snd kw) in
      let t2 := add32 (Sigma0 a) (Maj a b c) in
      [add32 t1 t2; a; b; c; add32 d t1; e; f; g]
  | _ => st
  end.

Definition compress (h : list Z) (block : list Z) : list Z :=
  let w := rev (schedule 48 (rev block)) in
  let st := fold_left round (combine K w) h in
  map (fun p => add32 (fst p) (snd p)) (combine h st).

Fixpoint blocks (fuel : nat) (h : list Z) (ws : list Z) : list Z :=
  match fuel with
  | O => h
  | S fuel' =>
      match ws with
      | [] => h
      | _ => blocks fuel' (compress h (take 16 ws)) (drop 16 ws)
      end
  end.

(** [sha256.Sum256]: the 32 bytes of the digest. *)
Definition Sum256 (msg : list Z) : list Z :=
  let p := pad msg in
  let ws := words (length p) p in
  flat_map (be_bytes 4) (blocks (length ws) H0 ws).

End SHA256.

Definition hex_digit (d : Z) : ascii :=
  if d <? 10 then ascii_of_nat (Z.to_nat (48 + d))
  else ascii_of_nat (Z.to_nat (87 + d)).

(** [hex.EncodeToString] *)
Fixpoint hex_EncodeToString (bs : list Z) : string :=
  match bs with
  | [] => EmptyString
  | b :: rest =>
      String (hex_digit (Z.shiftr b 4))
        (String (hex_digit (Z.land b 15)) (hex_EncodeToString rest))
  end.

(** ** fmt.Sprintf on string operands

    The verbs [%s] and [%v], the escape [%%] and explicit argument indexes
    [%[n]s], with Go's diagnostics for a missing operand, a bad index, a
    verb that does not apply to strings and unused operands.  This is
    [fmt] on the formats made of these, which covers every format string
    written in the program and every text without [%].  The other verbs
    [fmt] has for strings ([%q], [%x], [%X]), flags, width and precision
    are not modelled: on them this function gives the diagnostic of a
    wrong verb where [fmt] formats the operand.  Such a format can reach
    [Sprintf] only as translation guidelines taken from the
    configuration or the environment; what is proved of
    [createTranslationSystem] below is stated for guidelines without
    [%]. *)

Inductive fmt_state :=
| SLit
| SVerb (goodArgNum : bool) (afterIndex : bool)
| SIndex (digits : option (option nat)).

Fixpoint has_rbracket (f : string) : bool :=
  match f with
  | EmptyString => false
  | String c f' => if Ascii.eqb c "]" then true else has_rbracket f'
  end.

Definition digit_of (c : ascii) : option nat :=
  let n := nat_of_ascii c in
  if (48 <=? n)%nat && (n <=? 57)%nat then Some (n - 48)%nat else None.

Definition fmt_extra (args : list string) (argNum : nat) (reordered : bool) : string :=
  match drop argNum args with
  | [] => ""
  | rest =>
      if reordered then ""
      else "%!(EXTRA " +:+ String.concat ", " (map (fun a => "string=" +:+ a) rest) +:+ ")"
  end.

Definition fmt_verb (c : ascii) (good : bool) (args : list string) (argNum : nat)
  : string * nat :=
  let v := String c EmptyString in
  if Ascii.eqb c "%" then ("%", argNum)
  else if negb good then ("%!" +:+ v +:+ "(BADINDEX)", argNum)
  else match args !! argNum with
       | None => ("%!" +:+ v +:+ "(MISSING)", argNum)
       | Some a =>
           if Ascii.eqb c "s" || Ascii.eqb c "v" then (a, S argNum)
           else ("%!" +:+ v +:+ "(string=" +:+ a +:+ ")", S argNum)
       end.

Fixpoint doPrintf (f : string) (st : fmt_state) (args : list string)
    (argNum : nat) (reordered : bool) : string :=
  match f with
  | EmptyString =>
      match st with
      | SLit => fmt_extra args argNum reordered
      | _ => "%!(NOVERB)" +:+ fmt_extra args argNum reordered
      end
  | String c f' =>
      match st with
      | SLit =>
          if Ascii.eqb c "%" then doPrintf f' (SVerb true false) args argNum reordered
          else String c (doPrintf f' SLit args argNum reordered)
      | SVerb good after =>
          if Ascii.eqb c "[" && negb after then
            if has_rbracket f' then doPrintf f' (SIndex (Some None)) args argNum true
            else doPrintf f' (SVerb false false) args argNum true
          else
            let '(out, argNum') := fmt_verb c good args argNum in
            out +:+ doPrintf f' SLit args argNum' reordered
      | SIndex digits =>
          if Ascii.eqb c "]" then
            match digits with
            | Some (Some n) =>
                if (1 <=? n)%nat && (n <=? length args)%nat
                then doPrintf f' (SVerb true true) args (n - 1)%nat reordered
                else doPrintf f' (SVerb false true) args argNum reordered
            | _ => doPrintf f' (SVerb false false) args argNum reordered
            end
          else
            let digits' :=
              match digits, digit_of c with
              | Some None, Some d => Some (Some d)
              | Some (Some n), Some d => Some (Some (10 * n + d)%nat)
              | _, _ => None
              end in
            doPrintf f' (SIndex digits') args argNum reordered
      end
  end.

Definition Sprintf (format : string) (args : list string) : string :=
  doPrintf format SLit args 0%nat false.

(** ** Errors *)

(** [anthropic.APIError] *)
Record APIError := {
  api_Type : string;
  api_Message : string;
}.

Definition ErrTypeRateLimit : string := "rate_limit_error".

Definition IsRateLimitErr (e : APIError) : bool :=
  String.eqb (api_Type e) ErrTypeRateLimit.

Inductive CtxErr := Canceled | DeadlineExceeded.

(** Go [error] values met by this program: [errors.New], [fmt.Errorf]
    with a [%w] operand (the formatted message and the wrapped error), the
    client's [*APIError], the two context errors, and an opaque error of
    a library (os, json, net/http) known by its message. *)
Inductive error :=
| errorString (msg : string)
| wrapError (msg : string) (err : error)
| apiError (e : APIError)
| ctxError (e : CtxErr)
| libError (msg : string).

Definition errors_New (msg : string) : error := errorString msg.

Definition Error (e : error) : string :=
  match e with
  | errorString msg => msg
  | wrapError msg _ => msg
  | apiError a =>
      Sprintf "anthropic api error type: %s, message: %s" [api_Type a; api_Message a]
  | ctxError Canceled => "context canceled"
  | ctxError DeadlineExceeded => "context deadline exceeded"
  | libError msg => msg
  end.

(** [fmt.Errorf(format, err)] where [format] has one verb, [%w]. *)
Definition fmt_Errorf_w (prefix : string) (err : option error) : error :=
  match err with
  | Some e => wrapError (prefix +:+ Error e) e
  | None => errorString (prefix +:+ "%!w(<nil>)")
  end.

Definition errors_Unwrap (e : error) : option error :=
  match e with
  | wrapError _ e' => Some e'
  | _ => None
  end.

(** [errors.As(err, &apiErr)] with [apiErr : *anthropic.APIError]. *)
Fixpoint errors_As_APIError (e : error) : option APIError :=
  match e with
  | apiError a => Some a
  | wrapError _ e' => errors_As_APIError e'
  | _ => None
  end.

(** ** Integers and time *)

Definition two63 : Z := 9223372036854775808.
Definition two64 : Z := 18446744073709551616.

(** Go [int] (64 bits, two's complement). *)
Definition wrap_int (x : Z) : Z := (x + two63) mod two64 - two63.

(** Conversion to [uint64]. *)
Definition to_uint64 (x : Z) : Z := x mod two64.

Definition Second : Z := 1000000000.
Definition Minute : Z := 60 * Second.

(** ** The client library: requests and responses *)

Record MessageCacheControl := {
  cc_Type : string;
}.

Definition CacheControlTypeEphemeral : string := "ephemeral".

Record MessageSystemPart := {
  sys_Type : string;
  sys_Text : string;
  sys_CacheControl : option MessageCacheControl;
}.

Record MessageContent := {
  mc_Type : string;
  mc_Text : option string;
}.

Record Message := {
  msg_Role : string;
  msg_Content : list MessageContent;
}.

Definition NewUserTextMessage (text : string) : Message :=
  {| msg_Role := "user";
     msg_Content := [ {| mc_Type := "text"; mc_Text := Some text |} ] |}.

Record MessagesRequest := {
  req_Model : string;
  req_MultiSystem : list MessageSystemPart;
  req_Messages : list Message;
  req_Temperature : option Q;
  req_MaxTokens : Z;
}.

Record MessagesUsage := {
  InputTokens : Z;
  OutputTokens : Z;
}.

Record MessagesResponse := {
  resp_Content : list MessageContent;
  resp_Usage : MessagesUsage;
}.

Definition GetText (m : MessageContent) : string :=
  match mc_Text m with
  | Some t => t
  | None => ""
  end.

Definition GetFirstContentText (m : MessagesResponse) : string :=
  match resp_Content m with
  | [] => ""
  | c :: _ => GetText c
  end.

Definition ModelClaude3Dot5SonnetLatest : string := "claude-3-5-sonnet-latest".

(** ** Config and UsageMetadata *)

Record Config := {
  APIKey : string;
  Model : string;
  Temperature : Q;
  MaxTokens : Z;
  CacheTTL : Z;
  CacheMaxCost : Z;
  TranslationGuidelines : string;
  SystemPrompt : string;
}.

(** [ModelUsage] is a Go map: [None] is the nil map, which reads as empty
    and panics on assignment. *)
Record UsageMetadata := {
  TotalCalls : Z;
  LastUsed : Z;
  ModelUsage : option (gmap string Z);
  PromptExamples : list string;
  TokenUsage : Z;
  TokenUsageList : list MessagesUsage;
}.

(** ** The result cache (ristretto)

    [SetWithTTL] does not put an item into the store: it hands it to a
    buffer that a goroutine of the cache empties in the background, and
    the item is dropped when the buffer is full or the admission policy
    refuses it; what the store holds may be evicted.  A [Get] returns
    what the store holds for the key at that moment, unless it has
    expired.  So the cache is modelled by the items it was given, per
    key and newest first, and a [Get] returns one of them or nothing, as
    the environment decides ([cache_view] below).  Keys are compared as
    strings: collisions of the two 64-bit hashes the cache keeps of a
    key are left out. *)

Record CacheItem := {
  item_value : string;
  item_expiration : option Z;
}.

Abbreviation Cache := (gmap string (list CacheItem)).

Record ristretto_Config := {
  NumCounters : Z;
  rc_MaxCost : Z;
  BufferItems : Z;
}.

Definition ristretto_NewCache (c : ristretto_Config) : Cache + error :=
  if NumCounters c =? 0 then inr (errors_New "NumCounters can't be zero")
  else if rc_MaxCost c =? 0 then inr (errors_New "MaxCost can't be zero")
  else if BufferItems c =? 0 then inr (errors_New "BufferItems can't be zero")
  else inl ∅.

(** The items the cache was given for a key, newest first. *)
Definition cache_entries (c : Cache) (key : string) : list CacheItem :=
  default [] (c !! key).

(** An item is returned until the clock is past its expiration. *)
Definition item_live (now : Z) (it : CacheItem) : bool :=
  match item_expiration it with
  | Some e => negb (e <? now)
  | None => true
  end.

(** [Get] at the instant [now], when the store holds the item [view]
    points to. *)
Definition cache_Get (c : Cache) (view : option nat) (now : Z) (key : string)
  : option string :=
  match view with
  | None => None
  | Some i =>
      match cache_entries c key !! i with
      | Some it => if item_live now it then Some (item_value it) else None
      | None => None
      end
  end.

(** A zero [ttl] gives an item without expiration, a negative one gives
    the cache nothing. *)
Definition cache_SetWithTTL (c : Cache) (now : Z) (key value : string)
    (cost ttl : Z) : Cache :=
  if ttl <? 0 then c
  else <[key := {| item_value := value;
                   item_expiration := if ttl =? 0 then None else Some (now + ttl) |}
                :: cache_entries c key]> c.

(** ** The translator object and the world it runs in *)

Record Client := {
  client_apikey : string;
  client_beta : string;
}.

Definition anthropic_NewClient (apikey beta : string) : Client :=
  {| client_apikey := apikey; client_beta := beta |}.

(** [config] is a pointer: the address of a [Config] in the heap, shared
    with the caller that passed it. *)
Record Anthropic := {
  client : Client;
  cache : Cache;
  config : nat;
  metadata : UsageMetadata;
}.

(** What [CreateMessages] answers, and how long the call took. *)
Record BackendReply := {
  reply_result : MessagesResponse + error;
  reply_latency : N;
}.

Inductive FsOp :=
| OpReadFile (path : string)
| OpMkdirAll (path : string)
| OpWriteFile (path : string).

Inductive Event :=
| EvTranslate (prompt content source target bookName : string)
| EvCreateMessages (req : MessagesRequest)
| EvSleep (d : Z).

(** The process and its environment: the clock, the environment
    variables, the heap of [Config] objects, the files with the failures
    the file system answers, the standard output, the backend (the answer
    to the n-th request), and the two package variables.  [trace] records
    the calls made, for the statements below.

    [fs_written path] says how far a failing [os.WriteFile] to [path]
    got: [None] when the file could not be opened and is untouched,
    [Some n] when it was opened, hence truncated, and [n] bytes were
    written before the failure.

    [cache_view t key] is what the store of the cache holds for [key] at
    the instant [t]: nothing, or one of the items [SetWithTTL] was given
    for [key], counted from the newest.  The cache applies a [Set] in the
    background, may drop it when its buffer is full and may evict what it
    holds, so the program does not decide this. *)
Record World := {
  now : Z;
  environ : gmap string string;
  heap : list Config;
  files : gmap string string;
  fs_fault : FsOp -> option error;
  fs_written : string -> option nat;
  stdout : list string;
  backend : nat -> MessagesRequest -> BackendReply;
  backend_calls : nat;
  trace : list Event;
  anthropicOnce : bool;
  _anthropic : option Anthropic;
  cache_view : Z -> string -> option nat;
}.

Definition with_clock (t : Z) (w : World) : World :=
  {| now := t; environ := environ w; heap := heap w; files := files w;
     fs_fault := fs_fault w; fs_written := fs_written w; stdout := stdout w; backend := backend w;
     backend_calls := backend_calls w; trace := trace w;
     anthropicOnce := anthropicOnce w; _anthropic := _anthropic w;
     cache_view := cache_view w |}.

Definition with_heap (h : list Config) (w : World) : World :=
  {| now := now w; environ := environ w; heap := h; files := files w;
     fs_fault := fs_fault w; fs_written := fs_written w; stdout := stdout w; backend := backend w;
     backend_calls := backend_calls w; trace := trace w;
     anthropicOnce := anthropicOnce w; _anthropic := _anthropic w;
     cache_view := cache_view w |}.

Definition with_files (f : gmap string string) (w : World) : World :=
  {| now := now w; environ := environ w; heap := heap w; files := f;
     fs_fault := fs_fault w; fs_written := fs_written w; stdout := stdout w; backend := backend w;
     backend_calls := backend_calls w; trace := trace w;
     anthropicOnce := anthropicOnce w; _anthropic := _anthropic w;
     cache_view := cache_view w |}.

Definition with_fs_fault (f : FsOp -> option error) (w : World) : World :=
  {| now := now w; environ := environ w; heap := heap w; files := files w;
     fs_fault := f; fs_written := fs_written w; stdout := stdout w; backend := backend w;
     backend_calls := backend_calls w; trace := trace w;
     anthropicOnce := anthropicOnce w; _anthropic := _anthropic w;
     cache_view := cache_view w |}.

Definition with_stdout (o : list string) (w : World) : World :=
  {| now := now w; environ := environ w; heap := heap w; files := files w;
     fs_fault := fs_fault w; fs_written := fs_written w; stdout := o; backend := backend w;
     backend_calls := backend_calls w; trace := trace w;
     anthropicOnce := anthropicOnce w; _anthropic := _anthropic w;
     cache_view := cache_view w |}.

Definition with_backend_calls (n : nat) (w : World) : World :=
  {| now := now w; environ := environ w; heap := heap w; files := files w;
     fs_fault := fs_fault w; fs_written := fs_written w; stdout := stdout w; backend := backend w;
     backend_calls := n; trace := trace w;
     anthropicOnce := anthropicOnce w; _anthropic := _anthropic w;
     cache_view := cache_view w |}.

Definition with_trace (t : list Event) (w : World) : World :=
  {| now := now w; environ := environ w; heap := heap w; files := files w;
     fs_fault := fs_fault w; fs_written := fs_written w; stdout := stdout w; backend := backend w;
     backend_calls := backend_calls w; trace := t;
     anthropicOnce := anthropicOnce w; _anthropic := _anthropic w;
     cache_view := cache_view w |}.

Definition with_once (b : bool) (w : World) : World :=
  {| now := now w; environ := environ w; heap := heap w; files := files w;
     fs_fault := fs_fault w; fs_written := fs_written w; stdout := stdout w; backend := backend w;
     backend_calls := backend_calls w; trace := trace w;
     anthropicOnce := b; _anthropic := _anthropic w;
     cache_view := cache_view w |}.

Definition with_anthropic (a : option Anthropic) (w : World) : World :=
  {| now := now w; environ := environ w; heap := heap w; files := files w;
     fs_fault := fs_fault w; fs_written := fs_written w; stdout := stdout w; backend := backend w;
     backend_calls := backend_calls w; trace := trace w;
     anthropicOnce := anthropicOnce w; _anthropic := a;
     cache_view := cache_view w |}.

Definition with_fs_written (f : string -> option nat) (w : World) : World :=
  {| now := now w; environ := environ w; heap := heap w; files := files w;
     fs_fault := fs_fault w; fs_written := f; stdout := stdout w; backend := backend w;
     backend_calls := backend_calls w; trace := trace w;
     anthropicOnce := anthropicOnce w; _anthropic := _anthropic w;
     cache_view := cache_view w |}.


Definition emit (e : Event) (w : World) : World := with_trace (trace w ++ [e]) w.

(** [fmt.Printf] and [fmt.Println]: the text written to standard output. *)
Definition fmt_Print (s : string) (w : World) : World := with_stdout (stdout w ++ [s]) w.

(** [os.Getenv]: the empty string when the variable is not set. *)
Definition os_Getenv (w : World) (key : string) : string :=
  default "" (environ w !! key).

Definition os_ReadFile (path : string) (w : World) : string + error :=
  match fs_fault w (OpReadFile path) with
  | Some e => inr e
  | None =>
      match files w !! path with
      | Some data => inl data
      | None => inr (libError ("open " +:+ path +:+ ": no such file or directory"))
      end
  end.

Definition os_MkdirAll (path : string) (w : World) : option error :=
  fs_fault w (OpMkdirAll path).

(** [os.WriteFile] opens the file with [O_TRUNC] and writes: a call
    that fails after the open leaves the bytes written so far. *)
Definition os_WriteFile (path data : string) (w : World) : option error * World :=
  match fs_fault w (OpWriteFile path) with
  | Some e =>
      (Some e,
       match fs_written w path with
       | Some n => with_files (<[path := String.substring 0 n data]> (files w)) w
       | None => w
       end)
  | None => (None, with_files (<[path := data]> (files w)) w)
  end.

(** [filepath.Join] of two clean, non-empty elements, and [filepath.Dir]
    of a clean relative path. *)
Definition filepath_Join (a b : string) : string := a +:+ "/" +:+ b.

Fixpoint filepath_Dir_go (p : string) : option string :=
  match p with
  | EmptyString => None
  | String c p' =>
      match filepath_Dir_go p' with
      | Some d => Some (String c d)
      | None => if Ascii.eqb c "/" then Some EmptyString else None
      end
  end.

Definition filepath_Dir (p : string) : string :=
  match filepath_Dir_go p with
  | Some EmptyString => "/"
  | Some d => d
  | None => "."
  end.

(** ** Contexts *)

(** A context is done from some instant on, with an error, or never
    ([context.Background]). *)
Definition Context : Type := option (Z * CtxErr).

Definition context_Background : Context := None.

(** The [select] of the retry loop: [ctx.Done()] against [time.After(d)],
    entered at the current clock.  The context wins when it is done
    before the timer fires; when both are ready at the same instant Go
    takes either, and the timer is taken here. *)
Definition select_Done_After (ctx : Context) (d : Z) (w : World) : option error * World :=
  match ctx with
  | Some (t, e) =>
      if t <? now w + d
      then (Some (ctxError e), with_clock (Z.max (now w) t) w)
      else (None, emit (EvSleep d) (with_clock (now w + d) w))
  | None => (None, emit (EvSleep d) (with_clock (now w + d) w))
  end.

(** ** encoding/json, as used here *)

(** [json.Unmarshal] checks the syntax of the whole input before it
    decodes anything; [json_decode] fills the fields of the metadata from
    a syntactically valid input and may still fail on a value of the
    wrong type. *)
Class JSONCodec := {
  json_checkValid : string -> option error;
  json_decode : string -> UsageMetadata -> UsageMetadata * option error;
  json_MarshalIndent : UsageMetadata -> string -> string -> string + error;
}.

Definition json_Unmarshal `{JSONCodec} (data : string) (m : UsageMetadata)
  : UsageMetadata * option error :=
  match json_checkValid data with
  | Some e => (m, Some e)
  | None => json_decode data m
  end.

(** ** pkg/translator/anthropic.go *)

Inductive outcome (A : Type) :=
| Return (a : A)
| Panicked (msg : string).
Arguments Return {A} a.
Arguments Panicked {A} msg.

Definition nil_dereference : string :=
  "runtime error: invalid memory address or nil pointer dereference".

(** A [*Anthropic]: nil, or the address of the object held by the package
    variable [_anthropic] (the only one the package ever builds). *)
Inductive AnthropicPtr := PtrNil | PtrAnthropic.

Definition anthropic_ptr (w : World) : AnthropicPtr :=
  match _anthropic w with
  | Some _ => PtrAnthropic
  | None => PtrNil
  end.

Definition with_cache (c : Cache) (a : Anthropic) : Anthropic :=
  {| client := client a; cache := c; config := config a; metadata := metadata a |}.

Definition with_metadata (m : UsageMetadata) (a : Anthropic) : Anthropic :=
  {| client := client a; cache := cache a; config := config a; metadata := m |}.

Definition maxRetries : Z := 3.

Definition TAB : string := String (ascii_of_nat 9) EmptyString.

Section Translator.

Context `{JSONCodec}.

(** The embedded prompt files, by name; [prompts/technical.txt] is not
    among the sources. *)
Variable promptLib : gmap string string.

Definition getMetadataFilePath : string :=
  filepath_Join "unpackage" "translator_metadata.json".

Definition loadMetadata (a : Anthropic) (w : World) : Anthropic * World :=
  match os_ReadFile getMetadataFilePath w with
  | inr _ => (a, w)
  | inl data =>
      let '(m, err) := json_Unmarshal data (metadata a) in
      match err with
      | Some e =>
          (with_metadata m a,
           fmt_Print (Sprintf ("Error unmarshaling metadata: %v" +:+ LF) [Error e]) w)
      | None => (with_metadata m a, w)
      end
  end.

Definition saveMetadata (a : Anthropic) (w : World) : World :=
  match json_MarshalIndent (metadata a) "" "  " with
  | inr e => fmt_Print (Sprintf ("Error marshaling metadata: %v" +:+ LF) [Error e]) w
  | inl data =>
      match os_MkdirAll (filepath_Dir getMetadataFilePath) w with
      | Some e => fmt_Print (Sprintf ("Error creating directory: %v" +:+ LF) [Error e]) w
      | None =>
          match os_WriteFile getMetadataFilePath data w with
          | (Some e, w') =>
              fmt_Print (Sprintf ("Error writing metadata file: %v" +:+ LF) [Error e]) w'
          | (None, w') => w'
          end
      end
  end.

Definition createTranslationSystem (source target guidelines bookName : string) : string :=
  let guidelines :=
    if String.eqb guidelines "" then default "" (promptLib !! "technical")
    else guidelines in
  Sprintf guidelines [source; target; bookName].

Definition generateCacheKey (content source target : string) : string :=
  hex_EncodeToString
    (SHA256.Sum256 (bytes_of_string (Sprintf "%s:%s:%s" [content; source; target]))).

(** [a.client.CreateMessages]: the next answer of the backend, which
    covers what the backend and the HTTP client do with the context; the
    call takes the time the backend says. *)
Definition client_CreateMessages (req : MessagesRequest) (w : World)
  : (MessagesResponse + error) * World :=
  let r := backend w (backend_calls w) req in
  (reply_result r,
   with_clock (now w + Z.of_N (reply_latency r))
     (with_backend_calls (S (backend_calls w)) (emit (EvCreateMessages req) w))).

Definition is_rate_limit (e : error) : bool :=
  match errors_As_APIError e with
  | Some apiErr => IsRateLimitErr apiErr
  | None => false
  end.

(** The loop [for retries := 0; retries < maxRetries; retries++], with
    [n] the iterations left and [err] the error of the last attempt. *)
Fixpoint retry_loop (n : nat) (retries : Z) (err : option error)
    (ctx : Context) (req : MessagesRequest) (w : World)
  : (option MessagesResponse * option error) * World :=
  match n with
  | O => ((None, Some (fmt_Errorf_w "max retries reached: " err)), w)
  | S n' =>
      let '(r, w1) := client_CreateMessages req w in
      match r with
      | inl resp => ((Some resp, None), w1)
      | inr e =>
          if is_rate_limit e then
            match select_Done_After ctx ((retries + 1) * Second) w1 with
            | (Some ctxErr, w2) => ((None, Some ctxErr), w2)
            | (None, w2) =>
                retry_loop n' (retries + 1) (Some e) ctx req
                  (fmt_Print (TAB +:+ TAB +:+ TAB +:+ "retrying after rate limit error" +:+ LF) w2)
            end
          else ((None, Some e), w1)
      end
  end.

Definition createMessageWithRetry (ctx : Context) (req : MessagesRequest) (w : World)
  : (option MessagesResponse * option error) * World :=
  retry_loop (Z.to_nat maxRetries) 0 None ctx req w.

(** [a.metadata.ModelUsage[model]++] *)
Definition ModelUsage_incr (model : string) (m : UsageMetadata) : option UsageMetadata :=
  match ModelUsage m with
  | None => None
  | Some mu =>
      Some {| TotalCalls := TotalCalls m; LastUsed := LastUsed m;
              ModelUsage := Some (<[model := wrap_int (default 0 (mu !! model) + 1)]> mu);
              PromptExamples := PromptExamples m; TokenUsage := TokenUsage m;
              TokenUsageList := TokenUsageList m |}
  end.

(** The first two updates of the metadata: the call count and the time
    of use. *)
Definition record_call (t : Z) (m : UsageMetadata) : UsageMetadata :=
  {| TotalCalls := wrap_int (TotalCalls m + 1); LastUsed := t;
     ModelUsage := ModelUsage m; PromptExamples := PromptExamples m;
     TokenUsage := TokenUsage m; TokenUsageList := TokenUsageList m |}.

(** The updates after the model count: the sample of inputs and the
    token usage. *)
Definition record_usage (content : string) (u : MessagesUsage) (m : UsageMetadata)
  : UsageMetadata :=
  let examples :=
    if Z.of_nat (length (PromptExamples m)) <? 5
    then (PromptExamples m ++ [slice_to content (Z.min 100 (len content))])%list
    else PromptExamples m in
  let totalTokens := to_uint64 (wrap_int (InputTokens u + OutputTokens u)) in
  {| TotalCalls := TotalCalls m; LastUsed := LastUsed m;
     ModelUsage := ModelUsage m; PromptExamples := examples;
     TokenUsage := to_uint64 (TokenUsage m + totalTokens);
     TokenUsageList := TokenUsageList m ++ [u] |}.

Definition system_messages (cfg : Config) (prompt source target bookName : string)
  : list MessageSystemPart :=
  {| sys_Type := "text";
     sys_Text := createTranslationSystem source target (TranslationGuidelines cfg) bookName;
     sys_CacheControl := Some {| cc_Type := CacheControlTypeEphemeral |} |}
  :: (if String.eqb prompt "" then []
      else [ {| sys_Type := "text"; sys_Text := prompt; sys_CacheControl := None |} ]).

Definition translate_request (cfg : Config) (prompt content source target bookName : string)
  : MessagesRequest :=
  {| req_Model := Model cfg;
     req_MultiSystem := system_messages cfg prompt source target bookName;
     req_Messages :=
       [NewUserTextMessage
          ("Translate this and not say anything otherwise the translation: " +:+ content)];
     req_Temperature := Some (Temperature cfg);
     req_MaxTokens := MaxTokens cfg |}.

(** What [Translate] does with a response that has content: store the
    translation, update the metadata, save it, return. *)
Definition Translate_success (a : Anthropic) (cfg : Config) (cacheKey content : string)
    (resp : MessagesResponse) (w : World) : outcome (string * option error) * World :=
  let translation := GetFirstContentText resp in
  let a1 := with_cache
              (cache_SetWithTTL (cache a) (now w) cacheKey translation 0 (CacheTTL cfg)) a in
  let m1 := record_call (now w) (metadata a1) in
  match ModelUsage_incr (Model cfg) m1 with
  | None =>
      (Panicked "assignment to entry in nil map",
       with_anthropic (Some (with_metadata m1 a1)) w)
  | Some m2 =>
      let a2 := with_metadata (record_usage content (resp_Usage resp) m2) a1 in
      (Return (translation, None), saveMetadata a2 (with_anthropic (Some a2) w))
  end.

(** Calls are sequential here, so the mutex [a.mu] is left out. *)
Definition Translate (a : AnthropicPtr) (ctx : Context)
    (prompt content source target bookName : string) (w0 : World)
  : outcome (string * option error) * World :=
  let w := emit (EvTranslate prompt content source target bookName) w0 in
  match a, _anthropic w with
  | PtrAnthropic, Some obj =>
      match heap w !! config obj with
      | None => (Panicked nil_dereference, w)
      | Some cfg =>
          let cacheKey := generateCacheKey (prompt +:+ content) source target in
          match (if String.eqb prompt "" then None
                 else cache_Get (cache obj) (cache_view w (now w) cacheKey)
                        (now w) cacheKey) with
          | Some cachedTranslation => (Return (cachedTranslation, None), w)
          | None =>
              let req := translate_request cfg prompt content source target bookName in
              match createMessageWithRetry ctx req w with
              | ((_, Some err), w1) =>
                  (Return ("", Some (fmt_Errorf_w "createMessageWithRetry: " (Some err))), w1)
              | ((None, None), w1) => (Panicked nil_dereference, w1)
              | ((Some resp, None), w1) =>
                  match resp_Content resp with
                  | [] => (Return ("", Some (errors_New "no translation received")), w1)
                  | _ => Translate_success obj cfg cacheKey content resp w1
                  end
              end
          end
      end
  | _, _ => (Panicked nil_dereference, w)
  end.

Definition default_Config (w : World) : Config :=
  {| APIKey := os_Getenv w "ANTHROPIC_KEY";
     Model := ModelClaude3Dot5SonnetLatest;
     Temperature := 3 # 10;
     MaxTokens := 8192;
     CacheTTL := 0; CacheMaxCost := 0;
     TranslationGuidelines := ""; SystemPrompt := "" |}.

(** The assignments [GetAnthropicTranslator] makes to the caller's
    [Config]. *)
Definition fill_Config (w : World) (c : Config) : Config :=
  {| APIKey := APIKey c; Model := Model c; Temperature := Temperature c;
     MaxTokens := MaxTokens c;
     CacheTTL := 15 * Minute;
     CacheMaxCost := 10000000;
     TranslationGuidelines :=
       if String.eqb (TranslationGuidelines c) "" then os_Getenv w "TRANSLATION_GUIDELINES"
       else TranslationGuidelines c;
     SystemPrompt :=
       if String.eqb (SystemPrompt c) "" then os_Getenv w "SYSTEM_PROMPT"
       else SystemPrompt c |}.

Definition new_metadata : UsageMetadata :=
  {| TotalCalls := 0; LastUsed := 0; ModelUsage := Some ∅;
     PromptExamples := []; TokenUsage := 0; TokenUsageList := [] |}.

(** The function [GetAnthropicTranslator] hands to [anthropicOnce.Do];
    it returns the value left in [err]. *)
Definition init_anthropic (cfg : option nat) (w : World) : outcome (option error) * World :=
  let '(c, w1) :=
    match cfg with
    | None => (length (heap w), with_heap (heap w ++ [default_Config w]) w)
    | Some c => (c, w)
    end in
  match heap w1 !! c with
  | None => (Panicked nil_dereference, w1)
  | Some cf =>
      if String.eqb (APIKey cf) "" then (Return (Some (errors_New "missing ANTHROPIC_KEY")), w1)
      else
        let cf' := fill_Config w1 cf in
        let w2 := with_heap (<[c := cf']> (heap w1)) w1 in
        match ristretto_NewCache {| NumCounters := 10000000;
                                    rc_MaxCost := CacheMaxCost cf';
                                    BufferItems := 64 |} with
        | inr cacheErr =>
            (Return (Some (fmt_Errorf_w "failed to create cache: " (Some cacheErr))), w2)
        | inl c0 =>
            let a := {| client := anthropic_NewClient (APIKey cf') "prompt-caching-2024-07-31";
                        cache := c0; config := c; metadata := new_metadata |} in
            let '(a', w3) := loadMetadata a (with_anthropic (Some a) w2) in
            (Return None, with_anthropic (Some a') w3)
        end
  end.

(** [sync.Once]: the function runs on the first call only, and the
    [Once] is done even when it panics. *)
Definition GetAnthropicTranslator (cfg : option nat) (w : World)
  : outcome (AnthropicPtr * option error) * World :=
  if anthropicOnce w then (Return (anthropic_ptr w, None), w)
  else
    let '(r, w1) := init_anthropic cfg w in
    let w2 := with_once true w1 in
    match r with
    | Panicked msg => (Panicked msg, w2)
    | Return (Some err) => (Return (PtrNil, Some err), w2)
    | Return None => (Return (anthropic_ptr w2, None), w2)
    end.

End Translator.

(** ** cmd/serve.go: the single-segment endpoint *)

(** A parsed HTML document, as the handler sees it through goquery. *)
Inductive Node :=
| TextNode (data : string)
| CommentNode (data : string)
| ElementNode (tag : string) (attrs : list (string * string)) (children : list Node).

Record TranslateAIRequest := {
  FilePath : string;
  TranslationID : string;
  ContentID : string;
  Instructions : string;
}.

(** The libraries of the handler: fiber's [BodyParser], [path.Join],
    goquery's [NewDocumentFromReader] (the top-level nodes of the
    document) and [Selection.Html] (the inner HTML of an element). *)
Class WebLibs := {
  BodyParser : string -> TranslateAIRequest + error;
  path_Join : string -> string -> string;
  NewDocumentFromReader : string -> list Node + error;
  Html : Node -> string + error;
}.

(** [s.Attr(name)] *)
Fixpoint Attr_go (attrs : list (string * string)) (name : string) : option string :=
  match attrs with
  | [] => None
  | (k, v) :: rest => if String.eqb k name then Some v else Attr_go rest name
  end.

Definition Attr (s : Node) (name : string) : option string :=
  match s with
  | ElementNode _ attrs _ => Attr_go attrs name
  | _ => None
  end.

(** [Find("[name]")]: the elements that carry the attribute, in document
    order. *)
Fixpoint find_attr (name : string) (n : Node) : list Node :=
  match n with
  | ElementNode _ attrs children =>
      match Attr_go attrs name with
      | Some _ => [n]
      | None => []
      end ++ flat_map (find_attr name) children
  | _ => []
  end.

Definition Find (doc : list Node) (name : string) : list Node :=
  flat_map (find_attr name) doc.

(** HTTP responses of the handler: a status and a one-entry JSON object. *)
Record Response := {
  status : Z;
  json_key : string;
  json_value : string;
}.

Definition json_response (st : Z) (k v : string) : Response :=
  {| status := st; json_key := k; json_value := v |}.

Section Serve.

Context `{JSONCodec} `{WebLibs}.
Variable promptLib : gmap string string.

(** [x, _ = s.Html()] *)
Definition Html_or_empty (s : Node) : string :=
  match Html s with
  | inl h => h
  | inr _ => ""
  end.

(** The loops [doc.Find("[name]").Each(...)] of the handler: the inner
    HTML of the last element whose attribute equals [id], the empty
    string when there is none. *)
Definition content_by_attr (doc : list Node) (name id : string) : string :=
  fold_left
    (fun acc s =>
       match Attr s name with
       | Some v => if String.eqb v id then Html_or_empty s else acc
       | None => acc
       end)
    (Find doc name) "".

Definition translateWithAI (content instructions bookTitle : string) (w : World)
  : outcome (string * option error) * World :=
  let ctx := context_Background in
  let cfg := length (heap w) in
  let w1 := with_heap (heap w ++ [ {| APIKey := os_Getenv w "ANTHROPIC_KEY";
                                      Model := ModelClaude3Dot5SonnetLatest;
                                      Temperature := 7 # 10;
                                      MaxTokens := 8192;
                                      CacheTTL := 0; CacheMaxCost := 0;
                                      TranslationGuidelines := "";
                                      SystemPrompt := "" |} ]) w in
  match GetAnthropicTranslator (Some cfg) w1 with
  | (Panicked msg, w2) => (Panicked msg, w2)
  | (Return (_, Some err), w2) =>
      (Return ("", Some (errorString (Sprintf "error getting translator: %v" [Error err]))), w2)
  | (Return (anthropicTranslator, None), w2) =>
      match Translate promptLib anthropicTranslator ctx instructions content
              "english" "vietnamese" bookTitle w2 with
      | (Panicked msg, w3) => (Panicked msg, w3)
      | (Return (_, Some err), w3) =>
          (Return ("", Some (errorString (Sprintf "translation error: %v" [Error err]))), w3)
      | (Return (translatedContent, None), w3) => (Return (translatedContent, None), w3)
      end
  end.

(** The instructions the handler hands to the translator. *)
Definition instructment (instructions currentTranslatedContent : string) : string :=
  if 0 <? len currentTranslatedContent
  then Sprintf ("Previous translation:" +:+ LF +:+ LF +:+ "%s" +:+ LF +:+ LF +:+ "%s")
         [currentTranslatedContent; instructions]
  else instructions.

(** [app.Post("/api/ai-translate", ...)], for the content directory and
    the book title of the running server. *)
Definition ai_translate (contentDirPath bookTitle : string) (body : string) (w : World)
  : outcome Response * World :=
  match BodyParser body with
  | inr _ => (Return (json_response 400 "error" "Invalid request"), w)
  | inl req =>
      match os_ReadFile (path_Join contentDirPath (FilePath req)) w with
      | inr _ => (Return (json_response 500 "error" "Failed to read file"), w)
      | inl content =>
          match NewDocumentFromReader content with
          | inr _ => (Return (json_response 500 "error" "Failed to parse HTML"), w)
          | inl doc =>
              let originalContent := content_by_attr doc "data-content-id" (ContentID req) in
              if String.eqb originalContent ""
              then (Return (json_response 404 "error" "Translation ID not found"), w)
              else
                let currentTranslatedContent :=
                  content_by_attr doc "data-translation-id" (TranslationID req) in
                match translateWithAI originalContent
                        (instructment (Instructions req) currentTranslatedContent)
                        bookTitle w with
                | (Panicked msg, w1) => (Panicked msg, w1)
                | (Return (_, Some _), w1) =>
                    (Return (json_response 500 "error" "Translation failed"), w1)
                | (Return (translatedContent, None), w1) =>
                    (Return (json_response 200 "translated_content" translatedContent), w1)
                end
          end
      end
  end.

End Serve.

(** ** Observations used in the statements *)

(** The durations of the backoff sleeps recorded in a trace. *)
Fixpoint sleeps (evs : list Event) : list Z :=
  match evs with
  | [] => []
  | EvSleep d :: rest => d :: sleeps rest
  | _ :: rest => sleeps rest
  end.

Definition is_EvTranslate (e : Event) : bool :=
  match e with
  | EvTranslate _ _ _ _ _ => true
  | _ => false
  end.

(** The context is not done before the instant [t]. *)
Definition ctx_alive (ctx : Context) (t : Z) : Prop :=
  match ctx with
  | Some (done, _) => t <= done
  | None => True
  end.

(** The [n]-th answer of the backend to [req] is a rate-limit error. *)
Definition rate_limited (w : World) (req : MessagesRequest) (n : nat) : Prop :=
  exists e, reply_result (backend w n req) = inr e /\ is_rate_limit e = true.

Definition latency (w : World) (req : MessagesRequest) (n : nat) : Z :=
  Z.of_N (reply_latency (backend w n req)).

(** The key of the cache entry of a translation, from the four inputs
    the specification names. *)
Definition key_of_inputs (sourceText instructions sourceLang targetLang : string) : string :=
  hex_EncodeToString
    (SHA256.Sum256
       (bytes_of_string
          (instructions +:+ sourceText +:+ ":" +:+ sourceLang +:+ ":" +:+ targetLang))).



Definition world_examples (w : World) : list string :=
  match _anthropic w with
  | Some a => PromptExamples (metadata a)
  | None => []
  end.

(** The arguments of one [Translate] call. *)
Record TranslateCall := {
  call_ctx : Context;
  call_prompt : string;
  call_content : string;
  call_source : string;
  call_target : string;
  call_bookName : string;
}.

(** ** Concrete libraries and worlds, to run the model *)

(** A codec that persists no field: it accepts what starts like a JSON
    object and writes the empty object. *)
Definition syntax_error : error :=
  libError "invalid character looking for beginning of value".

Definition null_codec : JSONCodec :=
  {| json_checkValid := fun data =>
       match data with
       | String "{" _ => None
       | _ => Some syntax_error
       end;
     json_decode := fun _ m => (m, None);
     json_MarshalIndent := fun _ _ _ => inl "{}" |}.

(** A backend that answers every request with the same text after two
    seconds, and one that is always rate limited. *)
Definition reply_text (text : string) : BackendReply :=
  {| reply_result :=
       inl {| resp_Content := [ {| mc_Type := "text"; mc_Text := Some text |} ];
              resp_Usage := {| InputTokens := 10; OutputTokens := 5 |} |};
     reply_latency := 2000000000%N |}.

Definition reply_error (e : error) : BackendReply :=
  {| reply_result := inr e; reply_latency := 0%N |}.

Definition rate_limit_error : error :=
  apiError {| api_Type := "rate_limit_error"; api_Message := "slow down" |}.

Definition auth_error : error :=
  apiError {| api_Type := "authentication_error"; api_Message := "invalid x-api-key" |}.

(** A process that has just started, with the API key [key] in its
    environment and no file. *)
Definition fresh_world (key : string) (b : nat -> MessagesRequest -> BackendReply) : World :=
  {| now := 0; environ := {[ "ANTHROPIC_KEY" := key ]}; heap := []; files := ∅;
     fs_fault := fun _ => None; fs_written := fun _ => None; stdout := [];
     backend := b; backend_calls := 0%nat;
     trace := []; anthropicOnce := false; _anthropic := None;
     cache_view := fun _ _ => Some 0%nat |}.

Definition demo_request : MessagesRequest :=
  {| req_Model := ModelClaude3Dot5SonnetLatest; req_MultiSystem := [];
     req_Messages := [NewUserTextMessage "hello"]; req_Temperature := None;
     req_MaxTokens := 8192 |}.

(** The world after one backend attempt, and after the backoff sleep
    that follows the attempt number [retries + 1]. *)
Definition after_attempt (req : MessagesRequest) (w : World) : World :=
  snd (client_CreateMessages req w).

Definition after_backoff (retries : Z) (req : MessagesRequest) (w : World) : World :=
  let w1 := after_attempt req w in
  let d := (retries + 1) * Second in
  fmt_Print (TAB +:+ TAB +:+ TAB +:+ "retrying after rate limit error" +:+ LF)
    (emit (EvSleep d) (with_clock (now w1 + d) w1)).

Definition always_rate_limited : nat -> MessagesRequest -> BackendReply :=
  fun _ _ => reply_error rate_limit_error.

Definition always_refused : nat -> MessagesRequest -> BackendReply :=
  fun _ _ => reply_error auth_error.


(** What the retry loop and the saving of the metadata leave alone. *)
Definition same_process (w w' : World) : Prop :=
  environ w' = environ w /\ heap w' = heap w /\ backend w' = backend w /\
  anthropicOnce w' = anthropicOnce w /\ _anthropic w' = _anthropic w.

Definition no_translate_events (evs : list Event) : Prop :=
  forallb (fun e => negb (is_EvTranslate e)) evs = true.

(** The metadata after a translation obtained from the backend at the
    instant [t]; [None] when the usage map is nil. *)
Definition metadata_after (cfg : Config) (content : string) (resp : MessagesResponse)
    (t : Z) (m : UsageMetadata) : option UsageMetadata :=
  match ModelUsage_incr (Model cfg) (record_call t m) with
  | Some m2 => Some (record_usage content (resp_Usage resp) m2)
  | None => None
  end.

Arguments generateCacheKey : simpl never.
Arguments Sprintf : simpl never.
Arguments translate_request : simpl never.
Arguments saveMetadata : simpl never.
Arguments createMessageWithRetry : simpl never.
Arguments cache_Get : simpl never.
Arguments cache_SetWithTTL : simpl never.

(** A process whose translator has been built from the environment, in
    front of a backend that always answers the same text. *)
Definition demo_backend : nat -> MessagesRequest -> BackendReply :=
  fun _ _ => reply_text "xin chao".

Definition demo_world : World :=
  snd (@GetAnthropicTranslator null_codec None (fresh_world "k" demo_backend)).

Definition demo_Config : Config :=
  {| APIKey := "k"; Model := ModelClaude3Dot5SonnetLatest; Temperature := 3 # 10;
     MaxTokens := 8192; CacheTTL := 15 * Minute; CacheMaxCost := 10000000;
     TranslationGuidelines := ""; SystemPrompt := "" |}.

Definition demo_Anthropic : Anthropic :=
  {| client := anthropic_NewClient "k" "prompt-caching-2024-07-31";
     cache := ∅; config := 0%nat; metadata := new_metadata |}.

(** A first call with instructions, and one without. *)
Definition demo_first : outcome (string * option error) * World :=
  @Translate null_codec ∅ PtrAnthropic context_Background
    "be brief" "hello" "english" "vietnamese" "Book" demo_world.


(** A caller's configuration that asks for a TTL of one minute. *)
Definition one_minute_Config : Config :=
  {| APIKey := "k"; Model := ModelClaude3Dot5SonnetLatest; Temperature := 3 # 10;
     MaxTokens := 8192; CacheTTL := 1 * Minute; CacheMaxCost := 10000000;
     TranslationGuidelines := "%s to %s, %s"; SystemPrompt := "" |}.

Definition one_minute_world : World :=
  snd (@GetAnthropicTranslator null_codec (Some 0%nat)
         (with_heap [one_minute_Config] (fresh_world "k" demo_backend))).

(** The expiration of the newest cache entry of a key, if there is
    one. *)
Definition cache_expiration (w : World) (key : string) : option (option Z) :=
  match _anthropic w with
  | Some a => item_expiration <$> head (cache_entries (cache a) key)
  | None => None
  end.

Definition effective_CacheTTL (w : World) : option Z :=
  match _anthropic w with
  | Some a => CacheTTL <$> (heap w !! config a)
  | None => None
  end.

(** Successive calls of [GetAnthropicTranslator], with their results. *)
Fixpoint GetAnthropicTranslator_calls `{JSONCodec} (cfgs : list (option nat)) (w : World)
  : list (outcome (AnthropicPtr * option error)) * World :=
  match cfgs with
  | [] => ([], w)
  | cfg :: rest =>
      let '(r, w1) := GetAnthropicTranslator cfg w in
      let '(rs, w2) := GetAnthropicTranslator_calls rest w1 in
      (r :: rs, w2)
  end.

(** The line [loadMetadata] prints for an input it cannot decode. *)
Definition unmarshal_error_line (e : error) : string :=
  Sprintf ("Error unmarshaling metadata: %v" +:+ LF) [Error e].

Definition world_metadata (w : World) : option UsageMetadata :=
  metadata <$> _anthropic w.

(** A process that has not built its translator yet, with a caller's
    configuration in the heap and a metadata file that is not JSON. *)
Definition corrupt_world : World :=
  with_files {[ getMetadataFilePath := "not json" ]}
    (with_heap [one_minute_Config] (fresh_world "k" demo_backend)).

(** The call that took [w] to [w'] stored the translation [tr] under
    [key] in the cache, at the TTL of the configuration. *)
Definition stored_under (w w' : World) (key tr : string) : Prop :=
  exists obj cfg obj' t,
    _anthropic w = Some obj /\ heap w !! config obj = Some cfg /\
    _anthropic w' = Some obj' /\
    cache obj' = cache_SetWithTTL (cache obj) t key tr 0 (CacheTTL cfg).

(** The lines [saveMetadata] prints when it fails. *)
Definition marshal_error_line (e : error) : string :=
  Sprintf ("Error marshaling metadata: %v" +:+ LF) [Error e].

Definition mkdir_error_line (e : error) : string :=
  Sprintf ("Error creating directory: %v" +:+ LF) [Error e].

Definition write_error_line (e : error) : string :=
  Sprintf ("Error writing metadata file: %v" +:+ LF) [Error e].

(** What saving the metadata [m] does to the files and the output, from
    a world whose files are [fl] and whose output is [out]. *)
Definition saved `{JSONCodec} (m : UsageMetadata) (w : World)
    (fl : gmap string string) (out : list string) (w' : World) : Prop :=
  match json_MarshalIndent m "" "  " with
  | inr e => files w' = fl /\ stdout w' = (out ++ [marshal_error_line e])%list
  | inl data =>
      match fs_fault w (OpMkdirAll "unpackage") with
      | Some e => files w' = fl /\ stdout w' = (out ++ [mkdir_error_line e])%list
      | None =>
          match fs_fault w (OpWriteFile getMetadataFilePath) with
          | Some e =>
              files w'
              = match fs_written w getMetadataFilePath with
                | Some n => <[getMetadataFilePath := String.substring 0 n data]> fl
                | None => fl
                end /\
              stdout w' = (out ++ [write_error_line e])%list
          | None => files w' = <[getMetadataFilePath := data]> fl /\ stdout w' = out
          end
      end
  end.

(** The same call from the translator built with the caller's
    configuration, for another book. *)
Definition demo_first_other : outcome (string * option error) * World :=
  @Translate null_codec ∅ PtrAnthropic context_Background
    "be brief" "hello" "english" "vietnamese" "Another title" one_minute_world.

(** The translator of [demo_world] on a disk that refuses writes. *)
Definition disk_full : FsOp -> option error :=
  fun op =>
    match op with
    | OpWriteFile _ => Some (libError "no space left on device")
    | _ => None
    end.

Definition full_disk_world : World := with_fs_fault disk_full demo_world.

Definition demo_first_full_disk : outcome (string * option error) * World :=
  @Translate null_codec ∅ PtrAnthropic context_Background
    "be brief" "hello" "english" "vietnamese" "Book" full_disk_world.

(** The call of [demo_first] made again, after the metadata file has
    been removed. *)
Definition demo_second : outcome (string * option error) * World :=
  @Translate null_codec ∅ PtrAnthropic context_Background
    "be brief" "hello" "english" "vietnamese" "Book" (with_files ∅ (snd demo_first)).

(** A sequence of [Translate] calls on the translator of the process. *)
Definition run_calls `{JSONCodec} (promptLib : gmap string string)
    (calls : list TranslateCall) (w : World) : World :=
  fold_left
    (fun w c =>
       snd (Translate promptLib PtrAnthropic (call_ctx c) (call_prompt c) (call_content c)
              (call_source c) (call_target c) (call_bookName c) w))
    calls w.


(** Seven calls on contents of 0, 30, 60, ... bytes. *)
Definition demo_call (n : nat) : TranslateCall :=
  {| call_ctx := context_Background; call_prompt := "";
     call_content := string_of_list_ascii (repeat "a"%char (30 * n));
     call_source := "english"; call_target := "vietnamese"; call_bookName := "Book" |}.

Definition demo_calls : list TranslateCall := map demo_call (seq 0 7).

(** The instructions the specification describes, from the user's
    instructions and the prior translation. *)
Definition revision_instructions (instructions prior : string) : string :=
  if String.eqb prior "" then instructions
  else "Previous translation:" +:+ LF +:+ LF +:+ prior +:+ LF +:+ LF +:+ instructions.

(** The call [Translate] was made with these arguments, right after the
    events of [before], and no other call of [Translate] followed. *)
Definition translate_called (before after : list Event)
    (prompt content source target bookName : string) : Prop :=
  exists evs,
    after = (before ++ EvTranslate prompt content source target bookName :: evs)%list /\
    no_translate_events evs.

(** A document with one segment and its translation, and stand-ins for
    the libraries of the handler: the body of the request is taken for
    the instructions, every file parses to the document, and the inner
    HTML of an element is the text of its text children. *)
Definition demo_doc : list Node :=
  [ElementNode "html" []
     [ElementNode "body" []
        [ElementNode "p" [("data-content-id", "c1")] [TextNode "Hello"];
         ElementNode "p" [("data-translation-id", "t1")] [TextNode "Xin chao"]]]].

Definition text_of (n : Node) : string :=
  match n with
  | ElementNode _ _ children =>
      String.concat ""
        (map (fun c => match c with TextNode t => t | _ => "" end) children)
  | _ => ""
  end.

Definition demo_libs : WebLibs :=
  {| BodyParser := fun body =>
       inl {| FilePath := "ch1.xhtml"; TranslationID := "t1"; ContentID := "c1";
              Instructions := body |};
     path_Join := filepath_Join;
     NewDocumentFromReader := fun _ => inl demo_doc;
     Html := fun n => inl (text_of n) |}.

Definition serving_world : World :=
  with_files {[ "content/ch1.xhtml" := "<html/>" ]} (fresh_world "k" demo_backend).

(** The element has the attribute [name] with the value [id]. *)
Definition has_id (name id : string) (s : Node) : bool :=
  match Attr s name with
  | Some v => String.eqb v id
  | None => false
  end.

Definition demo_request_body : TranslateAIRequest :=
  {| FilePath := "ch1.xhtml"; TranslationID := "t1"; ContentID := "c1";
     Instructions := "be formal" |}.


(** ** More observations of the retry loop and of [Translate] *)

(** The backoff sleeps of [k] consecutive rate-limited attempts, the
    first of them being the attempt number [retries + 1]. *)
Fixpoint backoffs (k : nat) (retries : Z) : list Z :=
  match k with
  | O => []
  | S k' => (retries + 1) * Second :: backoffs k' (retries + 1)
  end.

(** The instant at which the last of these sleeps ends, for a loop that
    starts at [t] with [calls] requests already sent to the backend [b]. *)
Fixpoint backoff_end (b : nat -> MessagesRequest -> BackendReply) (req : MessagesRequest)
    (k : nat) (retries : Z) (calls : nat) (t : Z) : Z :=
  match k with
  | O => t
  | S k' =>
      backoff_end b req k' (retries + 1) (S calls)
        (t + Z.of_N (reply_latency (b calls req)) + (retries + 1) * Second)
  end.

(** The call count is the number of recorded responses, and the usage
    map is not nil. *)
Definition counters_consistent (m : UsageMetadata) : Prop :=
  ModelUsage m <> None /\ TotalCalls m = Z.of_nat (length (TokenUsageList m)).

Definition with_environ (e : gmap string string) (w : World) : World :=
  {| now := now w; environ := e; heap := heap w; files := files w;
     fs_fault := fs_fault w; fs_written := fs_written w; stdout := stdout w; backend := backend w;
     backend_calls := backend_calls w; trace := trace w;
     anthropicOnce := anthropicOnce w; _anthropic := _anthropic w;
     cache_view := cache_view w |}.

(** A backend that is rate limited once and then answers, and the
    translator of a process in front of a backend that refuses every
    request. *)
Definition flaky_backend : nat -> MessagesRequest -> BackendReply :=
  fun n _ =>
    match n with
    | O => reply_error rate_limit_error
    | _ => reply_text "xin chao"
    end.

Definition refused_world : World :=
  snd (@GetAnthropicTranslator null_codec None (fresh_world "k" always_refused)).

Definition demo_refused : outcome (string * option error) * World :=
  @Translate null_codec ∅ PtrAnthropic context_Background
    "be brief" "hello" "english" "vietnamese" "Book" refused_world.

(** The response of [reply_text]. *)
Definition text_response (text : string) : MessagesResponse :=
  {| resp_Content := [ {| mc_Type := "text"; mc_Text := Some text |} ];
     resp_Usage := {| InputTokens := 10; OutputTokens := 5 |} |}.

(** The assignment [cfg.CacheTTL = ttl] a caller makes to its [Config]. *)
Definition with_CacheTTL (ttl : Z) (c : Config) : Config :=
  {| APIKey := APIKey c; Model := Model c; Temperature := Temperature c;
     MaxTokens := MaxTokens c; CacheTTL := ttl; CacheMaxCost := CacheMaxCost c;
     TranslationGuidelines := TranslationGuidelines c; SystemPrompt := SystemPrompt c |}.

(** [demo_world] after its caller has set the TTL of the shared [Config]
    to one minute, and a call made there. *)
Definition retuned_world : World :=
  with_heap (<[0%nat := with_CacheTTL (1 * Minute) demo_Config]> (heap demo_world)) demo_world.

Definition demo_first_retuned : outcome (string * option error) * World :=
  @Translate null_codec ∅ PtrAnthropic context_Background
    "be brief" "hello" "english" "vietnamese" "Book" retuned_world.

(** ** cmd/serve.go: content types and the injected script *)

Definition DQ : string := String (ascii_of_nat 34) EmptyString.

(** [strings.Contains]: [substr] occurs in [s]. *)
Fixpoint strings_Contains (s substr : string) : bool :=
  String.prefix substr s ||
  match s with
  | EmptyString => false
  | String _ s' => strings_Contains s' substr
  end.

Definition ToInjectContentTypes : list string :=
  ["text/html"; "application/xhtml+xml"; "application/xml"; "text/plain"].

(** The loop of [shouldInject] over the content types [cts]. *)
Fixpoint shouldInject_loop (cts : list string) (contentType : string) : bool :=
  match cts with
  | [] => false
  | ct :: rest =>
      if strings_Contains contentType ct then true else shouldInject_loop rest contentType
  end.

Definition shouldInject (contentType : string) : bool :=
  shouldInject_loop ToInjectContentTypes contentType.

(** [bytes.LastIndex]: the index of the last occurrence of [sep] in [s],
    [-1] when there is none; [i] is the index of the first byte of [s]. *)
Fixpoint bytes_LastIndex_from (s sep : string) (i : Z) : Z :=
  match s with
  | EmptyString => if String.prefix sep EmptyString then i else -1
  | String _ s' =>
      let later := bytes_LastIndex_from s' sep (i + 1) in
      if 0 <=? later then later
      else if String.prefix sep s then i else -1
  end.

Definition bytes_LastIndex (s sep : string) : Z := bytes_LastIndex_from s sep 0.

(** [copy(dst[off:], src)]: as many bytes as fit. *)
Definition copy_at {A} (dst : list A) (off : nat) (src : list A) : list A :=
  list_inserts off src dst.

Definition scriptToInject : string :=
  "<script src=" +:+ DQ +:+ "/assets/app.js" +:+ DQ +:+ "></script><link rel=" +:+ DQ
  +:+ "stylesheet" +:+ DQ +:+ " href=" +:+ DQ +:+ "/assets/app.css" +:+ DQ +:+ ">".

(** What [ModifyResponse] reads and writes of the response. *)
Record StaticResponse := {
  ContentType : string;
  Body : string;
  ContentLength : Z;
}.

(** The [ModifyResponse] hook of the static file route. *)
Definition ModifyResponse (r : StaticResponse) : StaticResponse :=
  if negb (shouldInject (ContentType r)) then r
  else
    let body := list_ascii_of_string (Body r) in
    if (length body =? 0)%nat then r
    else
      let pos := bytes_LastIndex (Body r) "</body>" in
      if pos =? -1 then r
      else
        let script := list_ascii_of_string scriptToInject in
        let newBody := replicate (length body + length script) zero in
        let newBody := copy_at newBody 0 (take (Z.to_nat pos) body) in
        let newBody := copy_at newBody (Z.to_nat pos) script in
        let newBody := copy_at newBody (Z.to_nat pos + length script)
                         (drop (Z.to_nat pos) body) in
        {| ContentType := ContentType r;
           Body := string_of_list_ascii newBody;
           ContentLength := Z.of_nat (length newBody) |}.

(** ** cmd/serve.go: the table of contents *)

Record NavLabel := { Text : string }.

Record Content := { Src : string }.

Inductive NavPoint := mkNavPoint {
  ID : string;
  PlayOrder : string;
  np_NavLabel : NavLabel;
  np_Content : Content;
  NavPoints : list NavPoint;
}.

Definition li_format : string :=
  "<li><a target=" +:+ DQ +:+ "_blank" +:+ DQ +:+ " href=" +:+ DQ +:+ "%s" +:+ DQ
  +:+ ">%s</a>".

(** [for _, np := range navPoints { ... }] writing to the builder. *)
Definition range_WriteString (body : NavPoint -> string) : list NavPoint -> string :=
  fix loop (navPoints : list NavPoint) : string :=
    match navPoints with
    | [] => ""
    | np :: rest => body np +:+ loop rest
    end.

(** What one iteration of the loop of [generateTOCHTML] writes; the
    recursive call is unfolded once, [generateTOCHTML] below being the
    function itself. *)
Fixpoint generateTOCHTML_np (level : Z) (np : NavPoint) {struct np} : string :=
  match np with
  | mkNavPoint _ _ label content children =>
      Sprintf li_format [Src content; Text label]
      +:+ (if 0 <? Z.of_nat (length children)
           then match children with
                | [] => ""
                | _ => "<ul>"
                       +:+ range_WriteString (generateTOCHTML_np (wrap_int (level + 1))) children
                       +:+ "</ul>"
                end
           else "")
      +:+ "</li>"
  end.

Definition generateTOCHTML (navPoints : list NavPoint) (level : Z) : string :=
  if (length navPoints =? 0)%nat then ""
  else "<ul>" +:+ range_WriteString (generateTOCHTML_np level) navPoints +:+ "</ul>".

(** The list item written for a nav point with this target and label. *)
Definition toc_entry (src text : string) : string :=
  "<li><a target=" +:+ DQ +:+ "_blank" +:+ DQ +:+ " href=" +:+ DQ +:+ src +:+ DQ
  +:+ ">" +:+ text +:+ "</a>".

(** [np] is one of [navPoints] or lies below one of them. *)
Inductive in_toc (np : NavPoint) : list NavPoint -> Prop :=
| in_toc_here navPoints : In np navPoints -> in_toc np navPoints
| in_toc_below p navPoints :
    In p navPoints -> in_toc np (NavPoints p) -> in_toc np navPoints.

(** [x] occurs in [s]. *)
Definition occurs_in (x s : string) : Prop := exists a b, s = a +:+ x +:+ b.

Definition demo_navPoint : NavPoint :=
  {| ID := "n2"; PlayOrder := "2"; np_NavLabel := {| Text := "A & <b>B</b>" |};
     np_Content := {| Src := "ch1.xhtml#a" |}; NavPoints := [] |}.

Definition demo_toc : list NavPoint :=
  [ {| ID := "n1"; PlayOrder := "1"; np_NavLabel := {| Text := "Part One" |};
       np_Content := {| Src := "part1.xhtml" |};
       NavPoints := [demo_navPoint] |};
    {| ID := "n3"; PlayOrder := "3"; np_NavLabel := {| Text := "End" |};
       np_Content := {| Src := "end.xhtml" |}; NavPoints := [] |} ].

(** ** cmd/upgrade.go: versions and checksums *)

(** [s[n:]] for [0 <= n <= len(s)] *)
Fixpoint slice_from_go (s : string) (n : nat) {struct n} : string :=
  match n, s with
  | O, _ => s
  | S n', String _ s' => slice_from_go s' n'
  | S _, EmptyString => EmptyString
  end.

Definition slice_from (s : string) (n : Z) : string := slice_from_go s (Z.to_nat n).

(** [strings.TrimPrefix] *)
Definition strings_TrimPrefix (s prefix : string) : string :=
  if String.prefix prefix s then slice_from s (len prefix) else s.

(** [strings.Index]: the index of the first occurrence of [substr] in
    [s], [-1] when there is none; [i] is the index of the first byte of
    [s]. *)
Fixpoint strings_Index_from (s substr : string) (i : Z) : Z :=
  if String.prefix substr s then i
  else match s with
       | EmptyString => -1
       | String _ s' => strings_Index_from s' substr (i + 1)
       end.

Definition strings_Index (s substr : string) : Z := strings_Index_from s substr 0.

(** [strings.SplitN] for a separator that is not empty: at most [n]
    parts, all of them when [n] is negative, none when it is [0].  The
    loop runs as often as there are parts left to cut. *)
Fixpoint genSplit (cuts : nat) (s sep : string) : list string :=
  match cuts with
  | O => [s]
  | S cuts' =>
      let m := strings_Index s sep in
      if m <? 0 then [s]
      else slice_to s m :: genSplit cuts' (slice_from s (m + len sep)) sep
  end.

Definition strings_SplitN (s sep : string) (n : Z) : list string :=
  if n =? 0 then []
  else
    let n := if (n <? 0) || (len s + 1 <? n) then len s + 1 else n in
    genSplit (Z.to_nat (n - 1)) s sep.

(** The libraries of the upgrade command: [semver.NewVersion],
    [Version.GreaterThan] and [strings.Fields]. *)
Class UpgradeLibs := {
  Version : Type;
  semver_NewVersion : string -> Version + error;
  GreaterThan : Version -> Version -> bool;
  strings_Fields : string -> list string;
}.

Definition index_out_of_range : string :=
  "runtime error: index out of range [0] with length 0".

Record GithubAsset := {
  Name : string;
  BrowserDownloadURL : string;
}.

Record GithubRelease := {
  TagName : string;
  Assets : list GithubAsset;
}.

(** The body of an HTTP response as [bufio.Scanner] delivers it: the
    lines [Scan] yields, and the error [scanner.Err()] reports after the
    last of them. *)
Record ScannedBody := {
  scanned_lines : list string;
  scanner_Err : option error;
}.

(** What the network and the file system answer to [verifyChecksum]:
    [http.Get], [os.Open], and the bytes [io.Copy] reads from the open
    file. *)
Record Outside := {
  http_Get : string -> ScannedBody + error;
  file_Open : string -> option error;
  file_Copy : string -> string + error;
}.

Section Upgrade.

Context `{UpgradeLibs}.

Definition parseVersion (fullVersion : string) : outcome (Version + error) :=
  let parts := strings_SplitN fullVersion "-" 2 in
  if Z.of_nat (length parts) <? 1
  then Return (inr (errorString (Sprintf "invalid version format" [])))
  else
    match parts !! 0%nat with
    | None => Panicked index_out_of_range
    | Some part => Return (semver_NewVersion (strings_TrimPrefix part "v"))
    end.

(** One turn of the loop over the lines of the checksum file. *)
Definition checksum_line (checksums : gmap string string) (line : string)
  : gmap string string :=
  let parts := strings_Fields line in
  if (length parts =? 2)%nat then
    match parts !! 1%nat, parts !! 0%nat with
    | Some name, Some sum => <[name := sum]> checksums
    | _, _ => checksums
    end
  else checksums.

Definition verifyChecksum (out : Outside) (filePath assetName : string)
    (release : GithubRelease) : option error :=
  let checksumURL :=
    Sprintf ("https://github.com/nguyenvanduocit/epubtrans/releases/download/%s/"
             +:+ "epubtrans_%s_checksums.txt")
      [TagName release; strings_TrimPrefix (TagName release) "v"] in
  match http_Get out checksumURL with
  | inr err => Some (fmt_Errorf_w "failed to download checksum file: " (Some err))
  | inl body =>
      let checksums := fold_left checksum_line (scanned_lines body) ∅ in
      match scanner_Err body with
      | Some err => Some (fmt_Errorf_w "failed to read checksum file: " (Some err))
      | None =>
          match checksums !! assetName with
          | None => Some (errorString (Sprintf "no checksum found for %s" [assetName]))
          | Some expectedChecksum =>
              match file_Open out filePath with
              | Some err =>
                  Some (fmt_Errorf_w "failed to open downloaded file: " (Some err))
              | None =>
                  match file_Copy out filePath with
                  | inr err => Some (fmt_Errorf_w "failed to calculate checksum: " (Some err))
                  | inl data =>
                      let actualChecksum :=
                        hex_EncodeToString (SHA256.Sum256 (bytes_of_string data)) in
                      if negb (String.eqb actualChecksum expectedChecksum)
                      then Some (errorString (Sprintf "checksum mismatch for %s" [assetName]))
                      else None
                  end
              end
          end
      end
  end.

(** The checksum a line of the checksum file gives for [name]: the
    first of its fields, when it has exactly two and the second one is
    [name]. *)
Definition line_checksum (name line : string) : option string :=
  match strings_Fields line with
  | [sum; name'] => if String.eqb name' name then Some sum else None
  | _ => None
  end.

(** The checksum listed for [name]: that of the last line that gives
    one. *)
Definition listed_checksum (name : string) (lines : list string) : option string :=
  last (omap (line_checksum name) lines).

End Upgrade.

Definition checksums_URL (tag : string) : string :=
  "https://github.com/nguyenvanduocit/epubtrans/releases/download/" +:+ tag
  +:+ "/epubtrans_" +:+ strings_TrimPrefix tag "v" +:+ "_checksums.txt".

(** The hexadecimal SHA-256 digest of a file's bytes. *)
Definition sha256_hex (data : string) : string :=
  hex_EncodeToString (SHA256.Sum256 (bytes_of_string data)).

(** ** cmd/upgrade.go: installing the binary

    The files the installer works on.  A path names the file
    [realpath] resolves it to (the working directory and symbolic links
    are fixed during the call), so two paths may name one file.  Files
    are regular files or directories.  Any system call may fail: the
    [n]-th call made fails with the error [sys_fault n] gives for it, if
    any; a failing [io.Copy] has written the first [short_write n] bytes
    of the source. *)

Record Inode := {
  ino_data : string;
  ino_mode : Z;
  ino_regular : bool;
}.

Inductive SysCall :=
| SysExecutable
| SysStat (file : string)
| SysOpen (file : string)
| SysCreate (file : string)
| SysCopy (dst src : string)
| SysWrite (dst : string)
| SysChmod (file : string)
| SysRemove (file : string).

Record Disk := {
  inodes : gmap string Inode;
  realpath : string -> string;
  executable_path : string;
  create_mode : Z;
  sys_fault : nat -> SysCall -> option error;
  short_write : nat -> nat;
  sys_calls : nat;
}.

Definition set_disk (i : gmap string Inode) (n : nat) (d : Disk) : Disk :=
  {| inodes := i; realpath := realpath d; executable_path := executable_path d;
     create_mode := create_mode d; sys_fault := sys_fault d;
     short_write := short_write d; sys_calls := n |}.

Definition with_inodes (i : gmap string Inode) (d : Disk) : Disk :=
  set_disk i (sys_calls d) d.

Definition tick (d : Disk) : Disk := set_disk (inodes d) (S (sys_calls d)) d.

(** The outcome of the next system call, which is counted. *)
Definition syscall (c : SysCall) (d : Disk) : option error * Disk :=
  (sys_fault d (sys_calls d) c, tick d).

Definition no_such_file (op path : string) : error :=
  libError (op +:+ " " +:+ path +:+ ": no such file or directory").

Definition os_Executable (d : Disk) : (string + error) * Disk :=
  match syscall SysExecutable d with
  | (Some err, d1) => (inr err, d1)
  | (None, d1) => (inl (executable_path d1), d1)
  end.

Definition os_Stat (name : string) (d : Disk) : (Inode + error) * Disk :=
  match syscall (SysStat (realpath d name)) d with
  | (Some err, d1) => (inr err, d1)
  | (None, d1) =>
      match inodes d1 !! realpath d1 name with
      | Some info => (inl info, d1)
      | None => (inr (no_such_file "stat" name), d1)
      end
  end.

(** [os.Open]: the open file is the one the path resolves to. *)
Definition os_Open (name : string) (d : Disk) : (string + error) * Disk :=
  match syscall (SysOpen (realpath d name)) d with
  | (Some err, d1) => (inr err, d1)
  | (None, d1) =>
      match inodes d1 !! realpath d1 name with
      | Some _ => (inl (realpath d1 name), d1)
      | None => (inr (no_such_file "open" name), d1)
      end
  end.

(** [os.Create]: an existing regular file is truncated and keeps its
    mode, a new one gets [create_mode]. *)
Definition os_Create (name : string) (d : Disk) : (string + error) * Disk :=
  match syscall (SysCreate (realpath d name)) d with
  | (Some err, d1) => (inr err, d1)
  | (None, d1) =>
      let file := realpath d1 name in
      match inodes d1 !! file with
      | Some info =>
          if ino_regular info
          then (inl file,
                with_inodes (<[file := {| ino_data := ""; ino_mode := ino_mode info;
                                          ino_regular := true |}]> (inodes d1)) d1)
          else (inr (libError ("open " +:+ name +:+ ": is a directory")), d1)
      | None =>
          (inl file,
           with_inodes (<[file := {| ino_data := ""; ino_mode := create_mode d1;
                                     ino_regular := true |}]> (inodes d1)) d1)
      end
  end.

Definition write_data (file data : string) (d : Disk) : Disk :=
  match inodes d !! file with
  | Some info =>
      with_inodes (<[file := {| ino_data := data; ino_mode := ino_mode info;
                                ino_regular := ino_regular info |}]> (inodes d)) d
  | None => d
  end.

Definition read_data (file : string) (d : Disk) : string :=
  match inodes d !! file with
  | Some info => ino_data info
  | None => ""
  end.

(** [io.Copy(destination, source)] between two open files, both at
    offset 0 of what the source holds now. *)
Definition io_Copy (destination source : string) (d : Disk) : option error * Disk :=
  match syscall (SysCopy destination source) d with
  | (Some err, d1) =>
      (Some err,
       write_data destination
         (String.substring 0 (short_write d (sys_calls d)) (read_data source d1)) d1)
  | (None, d1) => (None, write_data destination (read_data source d1) d1)
  end.

Definition os_Chmod (name : string) (mode : Z) (d : Disk) : option error * Disk :=
  match syscall (SysChmod (realpath d name)) d with
  | (Some err, d1) => (Some err, d1)
  | (None, d1) =>
      let file := realpath d1 name in
      match inodes d1 !! file with
      | Some info =>
          (None,
           with_inodes (<[file := {| ino_data := ino_data info; ino_mode := mode;
                                     ino_regular := ino_regular info |}]> (inodes d1)) d1)
      | None => (Some (no_such_file "chmod" name), d1)
      end
  end.

Definition os_Remove (name : string) (d : Disk) : option error * Disk :=
  match syscall (SysRemove (realpath d name)) d with
  | (Some err, d1) => (Some err, d1)
  | (None, d1) =>
      let file := realpath d1 name in
      match inodes d1 !! file with
      | Some _ => (None, with_inodes (delete file (inodes d1)) d1)
      | None => (Some (no_such_file "remove" name), d1)
      end
  end.

Definition copyFile (src dst : string) (d : Disk) : option error * Disk :=
  match os_Stat src d with
  | (inr err, d1) => (Some err, d1)
  | (inl sourceFileStat, d1) =>
      if negb (ino_regular sourceFileStat)
      then (Some (errorString (Sprintf "%s is not a regular file" [src])), d1)
      else
        match os_Open src d1 with
        | (inr err, d2) => (Some err, d2)
        | (inl source, d2) =>
            match os_Create dst d2 with
            | (inr err, d3) => (Some err, d3)
            | (inl destination, d3) =>
                match io_Copy destination source d3 with
                | (Some err, d4) => (Some err, d4)
                | (None, d4) => os_Chmod dst (ino_mode sourceFileStat) d4
                end
            end
        end
  end.

Definition installBinary (d : Disk) : option error * Disk :=
  match os_Executable d with
  | (inr err, d1) => (Some (fmt_Errorf_w "failed to get executable path: " (Some err)), d1)
  | (inl executable, d1) =>
      let backupPath := executable +:+ ".bak" in
      match copyFile executable backupPath d1 with
      | (Some err, d2) => (Some (fmt_Errorf_w "failed to create backup: " (Some err)), d2)
      | (None, d2) =>
          match copyFile "epubtrans" executable d2 with
          | (Some err, d3) =>
              let d4 := snd (copyFile backupPath executable d3) in
              let d5 := snd (os_Remove backupPath d4) in
              (Some (fmt_Errorf_w "failed to install new version: " (Some err)), d5)
          | (None, d3) =>
              let d4 := snd (os_Remove "epubtrans" d3) in
              let d5 := snd (os_Remove backupPath d4) in
              (None, d5)
          end
      end
  end.

(** The file a path names on a disk. *)
Definition file_at (d : Disk) (path : string) : option Inode :=
  inodes d !! realpath d path.

(** The two disks differ in their files and call count only. *)
Definition same_disk (d d' : Disk) : Prop :=
  realpath d' = realpath d /\ executable_path d' = executable_path d /\
  create_mode d' = create_mode d /\ sys_fault d' = sys_fault d /\
  short_write d' = short_write d.

(** Opening [file] for writing fails with [e]; nothing else fails. *)
Definition busy_on (file : string) (e : error) (c : SysCall) : option error :=
  match c with
  | SysCreate f => if String.eqb f file then Some e else None
  | _ => None
  end.

Definition demo_old : Inode :=
  {| ino_data := "old binary"; ino_mode := 493; ino_regular := true |}.

Definition demo_new : Inode :=
  {| ino_data := "new binary"; ino_mode := 420; ino_regular := true |}.

(** A disk with the installed binary in [/usr/local/bin] and a new one
    in [/tmp], seen from the working directory [cwd]. *)
Definition demo_Disk (cwd : string) (fault : SysCall -> option error) : Disk :=
  {| inodes := {[ "/usr/local/bin/epubtrans" := demo_old; "/tmp/epubtrans" := demo_new ]};
     realpath := fun p => if String.prefix "/" p then p else cwd +:+ "/" +:+ p;
     executable_path := "/usr/local/bin/epubtrans";
     create_mode := 420;
     sys_fault := fun _ => fault;
     short_write := fun _ => 4%nat;
     sys_calls := 0 |}.

Definition no_fault (c : SysCall) : option error := None.

(** The disk as the running program finds it: its own file cannot be
    opened for writing. *)
Definition text_file_busy : error :=
  libError "open /usr/local/bin/epubtrans: text file busy".

Definition busy_Disk : Disk :=
  demo_Disk "/tmp" (busy_on "/usr/local/bin/epubtrans" text_file_busy).

(** ** Further observations of the translator and of the endpoint *)

(** What [fmt] appends for three string operands no verb has used. *)
Definition extra_operands (a b c : string) : string :=
  "%!(EXTRA string=" +:+ a +:+ ", string=" +:+ b +:+ ", string=" +:+ c +:+ ")".

(** A document whose segment [c1] is there but empty. *)
Definition empty_segment_doc : list Node :=
  [ElementNode "html" []
     [ElementNode "body" []
        [ElementNode "p" [("data-content-id", "c1")] [TextNode "Hello"];
         ElementNode "p" [("data-content-id", "c1")] []]]].

Definition empty_segment_libs : WebLibs :=
  {| BodyParser := fun body =>
       inl {| FilePath := "ch1.xhtml"; TranslationID := "t1"; ContentID := "c1";
              Instructions := body |};
     path_Join := filepath_Join;
     NewDocumentFromReader := fun _ => inl empty_segment_doc;
     Html := fun n => inl (text_of n) |}.

(** ** cmd/upgrade.go: unpacking the download *)

(** One entry of a tar stream as [tar.Reader] delivers it: the header
    fields the code looks at, the bytes [io.Copy] reads from the entry,
    and the error it meets after them, if any. *)
Record TarEntry := {
  Typeflag : Z;
  entry_Name : string;
  entry_data : string;
  entry_err : option error;
}.

(** [gzip.NewReader] and [tar.NewReader] on the bytes of a file: what
    the calls of [Next] return one after the other, a header or an error,
    [io.EOF] once the list is used up. *)
Class ArchiveLibs := {
  gzip_NewReader : string -> list (TarEntry + error) + error;
}.

Definition TypeReg : Z := 48.

(** [filepath.Base] on a system whose separator is [/]. *)
Fixpoint trim_slashes (rev_path : list ascii) : list ascii :=
  match rev_path with
  | c :: rest => if Ascii.eqb c "/" then trim_slashes rest else rev_path
  | [] => []
  end.

Fixpoint last_element (rev_path : list ascii) : list ascii :=
  match rev_path with
  | c :: rest => if Ascii.eqb c "/" then [] else c :: last_element rest
  | [] => []
  end.

Definition filepath_Base (path : string) : string :=
  if String.eqb path "" then "."
  else
    let path := last_element (trim_slashes (rev (list_ascii_of_string path))) in
    if (length path =? 0)%nat then "/" else string_of_list_ascii (rev path).

(** [io.Copy(outFile, tr)]: the bytes of the current entry are written
    to the open file. *)
Definition io_Copy_entry (destination : string) (entry : TarEntry) (d : Disk)
  : option error * Disk :=
  match syscall (SysWrite destination) d with
  | (Some err, d1) =>
      (Some err,
       write_data destination
         (String.substring 0 (short_write d (sys_calls d)) (entry_data entry)) d1)
  | (None, d1) => (entry_err entry, write_data destination (entry_data entry) d1)
  end.

(** The loop of [extractTarGz] over what [Next] has yet to return. *)
Fixpoint extract_loop (tr : list (TarEntry + error)) (d : Disk) : option error * Disk :=
  match tr with
  | [] => (None, d)
  | inr err :: _ => (Some err, d)
  | inl header :: rest =>
      if (Typeflag header =? TypeReg) && String.eqb (entry_Name header) "epubtrans" then
        match os_Create (filepath_Base (entry_Name header)) d with
        | (inr err, d1) => (Some err, d1)
        | (inl outFile, d1) =>
            match io_Copy_entry outFile header d1 with
            | (Some err, d2) => (Some err, d2)
            | (None, d2) =>
                match os_Chmod (filepath_Base (entry_Name header)) 493 d2 with
                | (Some err, d3) => (Some err, d3)
                | (None, d3) => (None, d3)
                end
            end
        end
      else extract_loop rest d
  end.

Definition extractTarGz `{ArchiveLibs} (tarGzPath : string) (d : Disk)
  : option error * Disk :=
  match os_Open tarGzPath d with
  | (inr err, d1) => (Some err, d1)
  | (inl file, d1) =>
      match gzip_NewReader (read_data file d1) with
      | inr err => (Some err, d1)
      | inl tr => extract_loop tr d1
      end
  end.

(** The entry is the one [extractTarGz] looks for. *)
Definition is_binary (entry : TarEntry) : bool :=
  (Typeflag entry =? TypeReg) && String.eqb (entry_Name entry) "epubtrans".

Definition demo_readme : TarEntry :=
  {| Typeflag := TypeReg; entry_Name := "README.md"; entry_data := "read me";
     entry_err := None |}.

Definition demo_binary : TarEntry :=
  {| Typeflag := TypeReg; entry_Name := "epubtrans"; entry_data := "newer binary";
     entry_err := None |}.

Definition demo_archive : ArchiveLibs :=
  {| gzip_NewReader := fun _ => inl [inl demo_readme; inl demo_binary] |}.

Definition demo_download : Inode :=
  {| ino_data := "tar.gz bytes"; ino_mode := 384; ino_regular := true |}.

Definition demo_tar_Disk : Disk :=
  with_inodes (<["/tmp/epubtrans_1.tar.gz" := demo_download]>
                 (inodes (demo_Disk "/tmp" no_fault)))
    (demo_Disk "/tmp" no_fault).


(** ** A metadata file of the wrong shape *)

(** Well-formed JSON that [json.Unmarshal] cannot decode into
    [UsageMetadata]: the usage map is null and the call count is a
    string. *)
Definition mistyped_metadata : string :=
  "{" +:+ DQ +:+ "model_usage" +:+ DQ +:+ ": null, "
      +:+ DQ +:+ "total_calls" +:+ DQ +:+ ": " +:+ DQ +:+ "many" +:+ DQ +:+ "}".

Definition type_error : error :=
  libError
    "json: cannot unmarshal string into Go struct field UsageMetadata.total_calls of type int".

(** [encoding/json] on that file: the syntax check passes; the decoder
    sets the map to nil for the null, cannot store the string in the
    [int], and reports that as the error.  Other inputs are treated as by
    [null_codec]. *)
Definition mistyped_codec : JSONCodec :=
  {| json_checkValid := @json_checkValid null_codec;
     json_decode := fun data m =>
       if String.eqb data mistyped_metadata
       then ({| TotalCalls := TotalCalls m; LastUsed := LastUsed m; ModelUsage := None;
                PromptExamples := PromptExamples m; TokenUsage := TokenUsage m;
                TokenUsageList := TokenUsageList m |},
             Some type_error)
       else (m, None);
     json_MarshalIndent := @json_MarshalIndent null_codec |}.

(** A process that has just started, with that file in place; its
    translator, built from the environment; a first translation. *)
Definition mistyped_world : World :=
  with_files {[ getMetadataFilePath := mistyped_metadata ]} (fresh_world "k" demo_backend).

Definition mistyped_built : outcome (AnthropicPtr * option error) * World :=
  @GetAnthropicTranslator mistyped_codec None mistyped_world.

Definition mistyped_first : outcome (string * option error) * World :=
  @Translate mistyped_codec ∅ PtrAnthropic context_Background
    "be brief" "hello" "english" "vietnamese" "Book" (snd mistyped_built).
(** * Properties *)

(** ** The digest and the formatter on known inputs *)

Example sha256_abc :
  hex_EncodeToString (SHA256.Sum256 (bytes_of_string "abc"))
  = "ba7816bf8f01cfea414140de5dae2223b00361a396177a9cb410ff61f20015ad".
Proof. vm_compute. reflexivity. Qed.

Example sha256_empty :
  hex_EncodeToString (SHA256.Sum256 (bytes_of_string ""))
  = "e3b0c44298fc1c149afbf4c8996fb92427ae41e4649b934ca495991b7852b855".
Proof. vm_compute. reflexivity. Qed.

Example sha256_two_blocks :
  hex_EncodeToString
    (SHA256.Sum256 (repeat 97 100))
  = "2816597888e4a0d3a36b82b83316ab32680eb8f00f8cd3b904d681246d285a0e".
Proof. vm_compute. reflexivity. Qed.

Example Sprintf_cache_key :
  Sprintf "%s:%s:%s" ["be brief" +:+ "hello"; "english"; "vietnamese"]
  = "be briefhello:english:vietnamese".
Proof. vm_compute. reflexivity. Qed.

Example Sprintf_indexed :
  Sprintf "the book %[3]s, from %[1]s to %[2]s" ["english"; "vietnamese"; "Dune"]
  = "the book Dune, from english to vietnamese".
Proof. vm_compute. reflexivity. Qed.

Example Sprintf_diagnostics :
  Sprintf "%s %d %s" ["a"; "b"] = "a %!d(string=b) %!s(MISSING)" /\
  Sprintf "%s" ["a"; "b"] = "a%!(EXTRA string=b)".
Proof. split; vm_compute; reflexivity. Qed.

Example generateCacheKey_hello :
  generateCacheKey "hello" "english" "vietnamese"
  = "f6d8e4d4f0c2ec540a29f7b400be23ce0cdf0438954bfdd566ca6aefccdbb6a9".
Proof. vm_compute. reflexivity. Qed.

(** ** The retry loop *)

Lemma sleeps_app (l1 l2 : list Event) : sleeps (l1 ++ l2) = (sleeps l1 ++ sleeps l2)%list.
Proof.
  induction l1 as [|e l1 IH]; [reflexivity|].
  destruct e; simpl; rewrite IH; reflexivity.
Qed.

Lemma after_attempt_calls req w : backend_calls (after_attempt req w) = S (backend_calls w).
Proof. reflexivity. Qed.

Lemma after_attempt_now req w :
  now (after_attempt req w) = now w + latency w req (backend_calls w).
Proof. reflexivity. Qed.

Lemma after_attempt_sleeps req w : sleeps (trace (after_attempt req w)) = sleeps (trace w).
Proof.
  unfold after_attempt; simpl. rewrite sleeps_app. simpl. apply app_nil_r.
Qed.

Lemma after_backoff_calls retries req w :
  backend_calls (after_backoff retries req w) = S (backend_calls w).
Proof. reflexivity. Qed.

Lemma after_backoff_now retries req w :
  now (after_backoff retries req w)
  = now w + latency w req (backend_calls w) + (retries + 1) * Second.
Proof. reflexivity. Qed.

Lemma after_backoff_sleeps retries req w :
  sleeps (trace (after_backoff retries req w))
  = (sleeps (trace w) ++ [(retries + 1) * Second])%list.
Proof.
  unfold after_backoff, after_attempt; simpl.
  rewrite !sleeps_app. simpl. rewrite app_nil_r. reflexivity.
Qed.

Lemma after_backoff_backend retries req w :
  backend (after_backoff retries req w) = backend w.
Proof. reflexivity. Qed.

Lemma retry_loop_success n retries err ctx req w resp :
  reply_result (backend w (backend_calls w) req) = inl resp ->
  retry_loop (S n) retries err ctx req w = ((Some resp, None), after_attempt req w).
Proof. intros Hr. simpl. rewrite Hr. reflexivity. Qed.


Lemma retry_loop_backoff n retries err ctx req w e :
  reply_result (backend w (backend_calls w) req) = inr e ->
  is_rate_limit e = true ->
  ctx_alive ctx (now (after_attempt req w) + (retries + 1) * Second) ->
  retry_loop (S n) retries err ctx req w
  = retry_loop n (retries + 1) (Some e) ctx req (after_backoff retries req w).
Proof.
  intros Hr He Hctx. simpl. rewrite Hr, He.
  destruct ctx as [[t ce]|]; simpl in *; [|reflexivity].
  destruct (Z.ltb_spec t (now w + Z.of_N (reply_latency (backend w (backend_calls w) req))
                          + (retries + 1) * Second)); [lia|reflexivity].
Qed.


Lemma latency_nonneg w req n : 0 <= latency w req n.
Proof. unfold latency. lia. Qed.

Lemma ctx_alive_mono ctx t t' : t' <= t -> ctx_alive ctx t -> ctx_alive ctx t'.
Proof. destruct ctx as [[d ce]|]; simpl; [lia|trivial]. Qed.

(** C2, as amended.  When the backend answers every attempt with a
    rate-limit error and the context is not done before the three backoff
    sleeps are over, [createMessageWithRetry] makes exactly [maxRetries]
    = 3 attempts, sleeps 1s, 2s and 3s, and returns the error
    [max retries reached: ...] that wraps the error of the last attempt. *)
Theorem createMessageWithRetry_rate_limited_bound :
  forall (ctx : Context) (req : MessagesRequest) (w : World),
    (forall n, rate_limited w req n) ->
    ctx_alive ctx (now w + latency w req (backend_calls w)
                   + latency w req (S (backend_calls w))
                   + latency w req (S (S (backend_calls w))) + 6 * Second) ->
    exists e w',
      reply_result (backend w (S (S (backend_calls w))) req) = inr e /\
      createMessageWithRetry ctx req w
      = ((None, Some (wrapError ("max retries reached: " +:+ Error e) e)), w') /\
      errors_Unwrap (wrapError ("max retries reached: " +:+ Error e) e) = Some e /\
      backend_calls w' = (backend_calls w + Z.to_nat maxRetries)%nat /\
      sleeps (trace w') = (sleeps (trace w) ++ [1 * Second; 2 * Second; 3 * Second])%list.
Proof.
  intros ctx req w Hrl Hctx.
  destruct (Hrl (backend_calls w)) as (e0 & Hr0 & He0).
  destruct (Hrl (S (backend_calls w))) as (e1 & Hr1 & He1).
  destruct (Hrl (S (S (backend_calls w)))) as (e2 & Hr2 & He2).
  pose proof (latency_nonneg w req (backend_calls w)) as L0.
  pose proof (latency_nonneg w req (S (backend_calls w))) as L1.
  pose proof (latency_nonneg w req (S (S (backend_calls w)))) as L2.
  exists e2.
  exists (after_backoff 2 req (after_backoff 1 req (after_backoff 0 req w))).
  split; [exact Hr2|].
  split.
  - unfold createMessageWithRetry.
    change (Z.to_nat maxRetries) with 3%nat.
    rewrite (retry_loop_backoff 2 0 None ctx req w e0 Hr0 He0).
    2:{ rewrite after_attempt_now. eapply ctx_alive_mono; [|exact Hctx].
        unfold Second. lia. }
    set (w1 := after_backoff 0 req w).
    assert (Hr1' : reply_result (backend w1 (backend_calls w1) req) = inr e1)
      by exact Hr1.
    rewrite (retry_loop_backoff 1 (0 + 1) (Some e0) ctx req w1 e1 Hr1' He1).
    2:{ rewrite after_attempt_now. subst w1. rewrite after_backoff_now.
        change (latency (after_backoff 0 req w) req (backend_calls (after_backoff 0 req w)))
          with (latency w req (S (backend_calls w))).
        eapply ctx_alive_mono; [|exact Hctx]. unfold Second. lia. }
    set (w2 := after_backoff (0 + 1) req w1).
    assert (Hr2' : reply_result (backend w2 (backend_calls w2) req) = inr e2)
      by exact Hr2.
    rewrite (retry_loop_backoff 0 (0 + 1 + 1) (Some e1) ctx req w2 e2 Hr2' He2).
    2:{ rewrite after_attempt_now. subst w2. rewrite after_backoff_now.
        subst w1. rewrite after_backoff_now.
        change (latency (after_backoff (0 + 1) req (after_backoff 0 req w)) req
                  (backend_calls (after_backoff (0 + 1) req (after_backoff 0 req w))))
          with (latency w req (S (S (backend_calls w)))).
        change (latency (after_backoff 0 req w) req (backend_calls (after_backoff 0 req w)))
          with (latency w req (S (backend_calls w))).
        eapply ctx_alive_mono; [|exact Hctx]. unfold Second. lia. }
    reflexivity.
  - split; [reflexivity|]. split.
    + rewrite !after_backoff_calls. change (Z.to_nat maxRetries) with 3%nat. lia.
    + rewrite !after_backoff_sleeps. rewrite <- !app_assoc. reflexivity.
Qed.

Lemma fresh_world_always_rate_limited n :
  rate_limited (fresh_world "k" always_rate_limited) demo_request n.
Proof. exists rate_limit_error. split; reflexivity. Defined.

Lemma createMessageWithRetry_rate_limited_bound_witness :
  (forall n, rate_limited (fresh_world "k" always_rate_limited) demo_request n) /\
  ctx_alive context_Background (6 * Second) /\
  exists e w',
    reply_result (always_rate_limited 2%nat demo_request) = inr e /\
    createMessageWithRetry context_Background demo_request (fresh_world "k" always_rate_limited)
    = ((None, Some (wrapError ("max retries reached: " +:+ Error e) e)), w') /\
    errors_Unwrap (wrapError ("max retries reached: " +:+ Error e) e) = Some e /\
    backend_calls w' = 3%nat /\
    sleeps (trace w') = [1 * Second; 2 * Second; 3 * Second].
Proof.
  split; [exact fresh_world_always_rate_limited|].
  split; [exact I|].
  exact (createMessageWithRetry_rate_limited_bound context_Background demo_request
           (fresh_world "k" always_rate_limited) fresh_world_always_rate_limited I).
Defined.

(** C2, as stated, fails: the backend answers every attempt with a
    rate-limit error, the context is cancelled half a second into the
    first backoff sleep, and [createMessageWithRetry] returns the
    context's error after one attempt. *)
Lemma createMessageWithRetry_cancelled_counterexample :
  (forall n, rate_limited (fresh_world "k" always_rate_limited) demo_request n) /\
  fst (createMessageWithRetry (Some (500000000, Canceled)) demo_request
         (fresh_world "k" always_rate_limited))
  = (None, Some (ctxError Canceled)) /\
  backend_calls (snd (createMessageWithRetry (Some (500000000, Canceled)) demo_request
                        (fresh_world "k" always_rate_limited))) = 1%nat.
Proof.
  split; [exact fresh_world_always_rate_limited|].
  split; vm_compute; reflexivity.
Qed.

(** ** Frame properties *)

Lemma same_process_refl w : same_process w w.
Proof. repeat split. Qed.

Lemma same_process_trans w1 w2 w3 :
  same_process w1 w2 -> same_process w2 w3 -> same_process w1 w3.
Proof.
  unfold same_process. intros (?&?&?&?&?) (?&?&?&?&?).
  repeat split; congruence.
Qed.

Lemma no_translate_events_app evs1 evs2 :
  no_translate_events evs1 -> no_translate_events evs2 ->
  no_translate_events (evs1 ++ evs2).
Proof.
  unfold no_translate_events. intros H1 H2.
  rewrite forallb_app, H1, H2. reflexivity.
Qed.

(** The retry loop touches the clock, the output, the count of backend
    calls and the trace, to which it adds attempts and sleeps only; it
    makes at least one attempt when it has an iteration to run. *)
Lemma retry_loop_frame n :
  forall retries err ctx req w,
    let w' := snd (retry_loop n retries err ctx req w) in
    same_process w w' /\
    files w' = files w /\ fs_fault w' = fs_fault w /\
    (backend_calls w <= backend_calls w')%nat /\
    ((0 < n)%nat -> (backend_calls w < backend_calls w')%nat) /\
    exists evs, trace w' = (trace w ++ evs)%list /\ no_translate_events evs.
Proof.
  induction n as [|n IH]; intros retries err ctx req w; simpl.
  - repeat split; try lia. exists []. split; [symmetry; apply app_nil_r|reflexivity].
  - destruct (reply_result (backend w (backend_calls w) req)) as [resp|e] eqn:Hr; simpl.
    + repeat split; try lia. exists [EvCreateMessages req]. split; reflexivity.
    + destruct (is_rate_limit e); simpl.
      2:{ repeat split; try lia. exists [EvCreateMessages req]. split; reflexivity. }
      destruct ctx as [[t ce]|]; simpl.
      * destruct (t <? _); simpl.
        { repeat split; try lia. exists [EvCreateMessages req]. split; reflexivity. }
        match goal with
        | |- context [retry_loop n ?r ?e ?c ?q ?w0] =>
            destruct (IH r e c q w0) as (Hs & Hf & Hfa & Hle & _ & evs & Htr & Hev)
        end.
        simpl in *. destruct Hs as (?&?&?&?&?).
        repeat split; try assumption; try lia.
        exists ([EvCreateMessages req; EvSleep ((retries + 1) * Second)] ++ evs)%list.
        split; [rewrite Htr, <- !app_assoc; reflexivity|].
        apply no_translate_events_app; [reflexivity|assumption].
      * match goal with
        | |- context [retry_loop n ?r ?e ?c ?q ?w0] =>
            destruct (IH r e c q w0) as (Hs & Hf & Hfa & Hle & _ & evs & Htr & Hev)
        end.
        simpl in *. destruct Hs as (?&?&?&?&?).
        repeat split; try assumption; try lia.
        exists ([EvCreateMessages req; EvSleep ((retries + 1) * Second)] ++ evs)%list.
        split; [rewrite Htr, <- !app_assoc; reflexivity|].
        apply no_translate_events_app; [reflexivity|assumption].
Qed.

Lemma createMessageWithRetry_frame ctx req w :
  let w' := snd (createMessageWithRetry ctx req w) in
  same_process w w' /\
  files w' = files w /\ fs_fault w' = fs_fault w /\
  (backend_calls w < backend_calls w')%nat /\
  exists evs, trace w' = (trace w ++ evs)%list /\ no_translate_events evs.
Proof.
  unfold createMessageWithRetry. change (Z.to_nat maxRetries) with 3%nat.
  destruct (retry_loop_frame 3 0 None ctx req w) as (Hs & Hf & Hfa & _ & Hlt & Hev).
  repeat split; try assumption; try apply Hs. apply Hlt. lia.
Qed.

(** The retry loop leaves alone what the environment decides about
    failing writes and about the cache. *)
Lemma retry_loop_env n :
  forall retries err ctx req w,
    let w' := snd (retry_loop n retries err ctx req w) in
    fs_written w' = fs_written w /\ cache_view w' = cache_view w.
Proof.
  induction n as [|n IH]; intros retries err ctx req w; simpl; [split; reflexivity|].
  destruct (reply_result (backend w (backend_calls w) req)) as [resp|e]; simpl;
    [split; reflexivity|].
  destruct (is_rate_limit e); simpl; [|split; reflexivity].
  destruct ctx as [[t ce]|]; cbn [select_Done_After].
  - destruct (t <? _); simpl; [split; reflexivity|].
    match goal with
    | |- context [retry_loop n ?r ?e0 ?c ?q ?w0] =>
        destruct (IH r e0 c q w0) as [H1 H2]
    end.
    cbn zeta in H1, H2. rewrite H1, H2. split; reflexivity.
  - match goal with
    | |- context [retry_loop n ?r ?e0 ?c ?q ?w0] =>
        destruct (IH r e0 c q w0) as [H1 H2]
    end.
    cbn zeta in H1, H2. rewrite H1, H2. split; reflexivity.
Qed.

Lemma createMessageWithRetry_env ctx req w :
  let w' := snd (createMessageWithRetry ctx req w) in
  fs_written w' = fs_written w /\ cache_view w' = cache_view w.
Proof. unfold createMessageWithRetry. apply retry_loop_env. Qed.

(** The answer of the retry loop does not depend on the file system. *)
Lemma retry_loop_fs n :
  forall retries err ctx req w f fl,
    retry_loop n retries err ctx req (with_fs_fault f (with_files fl w))
    = (fst (retry_loop n retries err ctx req w),
       with_fs_fault f (with_files fl (snd (retry_loop n retries err ctx req w)))).
Proof.
  induction n as [|n IH]; intros retries err ctx req w f fl; simpl; [reflexivity|].
  destruct (reply_result (backend w (backend_calls w) req)) as [resp|e]; [reflexivity|].
  destruct (is_rate_limit e); [|reflexivity].
  destruct ctx as [[t ce]|]; simpl.
  - destruct (t <? _); [reflexivity|].
    exact (IH (retries + 1) (Some e) (Some (t, ce)) req (after_backoff retries req w) f fl).
  - exact (IH (retries + 1) (Some e) None req (after_backoff retries req w) f fl).
Qed.

Section SaveMetadata.

Context `{JSONCodec}.

(** Saving writes the file and the output and nothing else. *)
Lemma saveMetadata_frame a w :
  let w' := saveMetadata a w in
  same_process w w' /\ now w' = now w /\ backend_calls w' = backend_calls w /\
  trace w' = trace w /\ fs_fault w' = fs_fault w.
Proof.
  unfold saveMetadata, os_MkdirAll, os_WriteFile.
  destruct (json_MarshalIndent _ _ _); simpl; [|repeat split].
  destruct (fs_fault w (OpMkdirAll _)); simpl; [repeat split|].
  destruct (fs_fault w (OpWriteFile _)); simpl; [|repeat split].
  destruct (fs_written w _); simpl; repeat split.
Qed.

End SaveMetadata.

(** ** Translate *)

Lemma string_append_nil_r (s : string) : s +:+ "" = s.
Proof.
  induction s as [|c s IH]; [reflexivity|].
  change (String c (s +:+ "") = String c s). f_equal. exact IH.
Qed.

Lemma string_append_assoc (s1 s2 s3 : string) : (s1 +:+ s2) +:+ s3 = s1 +:+ (s2 +:+ s3).
Proof.
  induction s1 as [|c s1 IH]; [reflexivity|].
  change (String c ((s1 +:+ s2) +:+ s3) = String c (s1 +:+ (s2 +:+ s3))). f_equal. exact IH.
Qed.

Lemma Sprintf_key (content source target : string) :
  Sprintf "%s:%s:%s" [content; source; target]
  = content +:+ ":" +:+ source +:+ ":" +:+ target.
Proof.
  unfold Sprintf. cbv -[String.append]. rewrite string_append_nil_r. reflexivity.
Qed.

Lemma generateCacheKey_inputs (prompt content source target : string) :
  generateCacheKey (prompt +:+ content) source target
  = key_of_inputs content prompt source target.
Proof.
  unfold generateCacheKey, key_of_inputs.
  rewrite Sprintf_key, string_append_assoc. reflexivity.
Qed.

Lemma cache_entries_Set (c : Cache) (t : Z) (key value : string) (ttl : Z) :
  0 <= ttl ->
  cache_entries (cache_SetWithTTL c t key value 0 ttl) key
  = {| item_value := value;
       item_expiration := if ttl =? 0 then None else Some (t + ttl) |}
    :: cache_entries c key.
Proof.
  intros Httl. unfold cache_SetWithTTL.
  destruct (Z.ltb_spec ttl 0); [lia|].
  unfold cache_entries at 1. rewrite lookup_insert_eq. reflexivity.
Qed.

Lemma cache_entries_Set_ne (c : Cache) (t : Z) (key key' value : string) (ttl : Z) :
  key' <> key ->
  cache_entries (cache_SetWithTTL c t key value 0 ttl) key' = cache_entries c key'.
Proof.
  intros Hne. unfold cache_SetWithTTL. destruct (ttl <? 0); [reflexivity|].
  unfold cache_entries. rewrite lookup_insert_ne by congruence. reflexivity.
Qed.

(** The store holds an item that has not expired: a hit. *)
Lemma cache_Get_live (c : Cache) (i : nat) (t : Z) (key : string) (it : CacheItem) :
  cache_entries c key !! i = Some it ->
  item_live t it = true ->
  cache_Get c (Some i) t key = Some (item_value it).
Proof. intros Hi Hlive. unfold cache_Get. rewrite Hi, Hlive. reflexivity. Qed.


Lemma cache_Get_unseen (c : Cache) (t : Z) (key : string) : cache_Get c None t key = None.
Proof. reflexivity. Qed.

(** Whatever the store holds, a hit returns one of the items the cache
    was given for the key, and one that has not expired. *)
Lemma cache_Get_Some (c : Cache) (view : option nat) (t : Z) (key v : string) :
  cache_Get c view t key = Some v ->
  exists i it,
    view = Some i /\ cache_entries c key !! i = Some it /\
    item_live t it = true /\ item_value it = v.
Proof.
  unfold cache_Get. destruct view as [i|]; [|discriminate].
  destruct (cache_entries c key !! i) as [it|] eqn:Hi; [|discriminate].
  destruct (item_live t it) eqn:Hlive; [|discriminate].
  intros Heq. injection Heq as <-. exists i, it. repeat split; assumption.
Qed.

Lemma eqb_empty_false (s : string) : s <> "" -> String.eqb s "" = false.
Proof. intros Hs. apply String.eqb_neq. exact Hs. Qed.

Section TranslateFacts.

Context `{JSONCodec}.
Variable promptLib : gmap string string.

(** A call answered from the cache. *)
Lemma Translate_hit ctx prompt content source target bookName w obj cfg v :
  _anthropic w = Some obj ->
  heap w !! config obj = Some cfg ->
  prompt <> "" ->
  cache_Get (cache obj)
    (cache_view w (now w) (generateCacheKey (prompt +:+ content) source target))
    (now w) (generateCacheKey (prompt +:+ content) source target) = Some v ->
  Translate promptLib PtrAnthropic ctx prompt content source target bookName w
  = (Return (v, None), emit (EvTranslate prompt content source target bookName) w).
Proof.
  intros Ha Hc Hp Hget. unfold Translate.
  cbn [_anthropic emit with_trace heap now cache_view].
  rewrite Ha, Hc, (eqb_empty_false _ Hp), Hget. reflexivity.
Qed.


Lemma Translate_success_inv a cfg key content resp w tr w' :
  Translate_success a cfg key content resp w = (Return (tr, None), w') ->
  exists m',
    metadata_after cfg content resp (now w) (metadata a) = Some m' /\
    tr = GetFirstContentText resp /\
    let a' := with_metadata m'
                (with_cache (cache_SetWithTTL (cache a) (now w) key tr 0 (CacheTTL cfg)) a) in
    w' = saveMetadata a' (with_anthropic (Some a') w).
Proof.
  unfold Translate_success, metadata_after. cbn [metadata with_cache].
  destruct (ModelUsage_incr (Model cfg) (record_call (now w) (metadata a))) as [m2|];
    [|discriminate].
  intros Heq. injection Heq as <- <-.
  eexists. split; [reflexivity|]. split; reflexivity.
Qed.

(** Every call leaves the heap and the backend alone and never lowers
    the count of backend calls. *)
Lemma Translate_calls_mono a ctx prompt content source target bookName w :
  (backend_calls w
   <= backend_calls
        (snd (Translate promptLib a ctx prompt content source target bookName w)))%nat.
Proof.
  unfold Translate. cbn [_anthropic emit with_trace heap now].
  destruct a; [simpl; lia|].
  destruct (_anthropic w) as [obj|]; [|simpl; lia].
  destruct (heap w !! config obj) as [cfg|]; [|simpl; lia].
  destruct (if String.eqb prompt "" then None else _); [simpl; lia|].
  match goal with
  | |- context [createMessageWithRetry ?c ?r ?w0] =>
      pose proof (createMessageWithRetry_frame c r w0) as (_ & _ & _ & Hlt & _);
      destruct (createMessageWithRetry c r w0) as [[r0 e0] w1]
  end.
  simpl in Hlt.
  destruct r0 as [resp|], e0 as [e0|]; try (simpl; lia).
  destruct (resp_Content resp); [simpl; lia|].
  unfold Translate_success.
  destruct (ModelUsage_incr _ _); [|simpl; lia].
  cbn [snd].
  match goal with
  | |- context [saveMetadata ?a0 ?w0] =>
      pose proof (saveMetadata_frame a0 w0) as (_ & _ & Hc & _)
  end.
  cbn zeta in Hc. rewrite Hc. simpl. lia.
Qed.

(** A call that returns a translation after going to the backend. *)
Lemma Translate_backend_inv a ctx prompt content source target bookName w tr w' :
  Translate promptLib a ctx prompt content source target bookName w
  = (Return (tr, None), w') ->
  backend_calls w' <> backend_calls w ->
  exists obj cfg resp wm m',
    a = PtrAnthropic /\
    _anthropic w = Some obj /\
    heap w !! config obj = Some cfg /\
    createMessageWithRetry ctx
      (translate_request promptLib cfg prompt content source target bookName)
      (emit (EvTranslate prompt content source target bookName) w)
    = ((Some resp, None), wm) /\
    resp_Content resp <> [] /\
    metadata_after cfg content resp (now wm) (metadata obj) = Some m' /\
    tr = GetFirstContentText resp /\
    let a' :=
      with_metadata m'
        (with_cache
           (cache_SetWithTTL (cache obj) (now wm)
              (generateCacheKey (prompt +:+ content) source target) tr 0 (CacheTTL cfg))
           obj) in
    w' = saveMetadata a' (with_anthropic (Some a') wm).
Proof.
  unfold Translate. cbn [_anthropic emit with_trace heap now].
  destruct a; [discriminate|].
  destruct (_anthropic w) as [obj|] eqn:Ha; [|discriminate].
  destruct (heap w !! config obj) as [cfg|] eqn:Hc; [|discriminate].
  destruct (if String.eqb prompt "" then None else _).
  { intros Heq Hne. injection Heq as _ <-. simpl in Hne. congruence. }
  destruct (createMessageWithRetry _ _ _) as [[r0 e0] wm] eqn:Hrun.
  destruct r0 as [resp|], e0 as [e0|]; try discriminate.
  destruct (resp_Content resp) as [|c0 cs] eqn:Hcontent; [discriminate|].
  intros Heq _.
  apply Translate_success_inv in Heq as (m' & Hm & Htr & Hw).
  exists obj, cfg, resp, wm, m'.
  split; [reflexivity|]. split; [reflexivity|]. split; [exact Hc|].
  split; [exact Hrun|]. split; [congruence|].
  split; [exact Hm|]. split; [exact Htr|]. exact Hw.
Qed.

End TranslateFacts.

(** ** The cache *)

Lemma pair_of_fst {A B : Type} (p : A * B) (a : A) : fst p = a -> p = (a, snd p).
Proof. destruct p; simpl. intros ->. reflexivity. Qed.

Lemma with_clock_anthropic t w : _anthropic (with_clock t w) = _anthropic w.
Proof. reflexivity. Qed.

Lemma with_clock_heap t w : heap (with_clock t w) = heap w.
Proof. reflexivity. Qed.

Lemma with_clock_now t w : now (with_clock t w) = t.
Proof. reflexivity. Qed.


(** What a call answered by the backend has given the cache. *)
Lemma Translate_entry `{JSONCodec} promptLib ctx prompt content source target bookName
    w w1 obj cfg tr :
  _anthropic w = Some obj ->
  heap w !! config obj = Some cfg ->
  0 <= CacheTTL cfg ->
  Translate promptLib PtrAnthropic ctx prompt content source target bookName w
  = (Return (tr, None), w1) ->
  backend_calls w1 <> backend_calls w ->
  exists obj1,
    _anthropic w1 = Some obj1 /\
    config obj1 = config obj /\
    heap w1 = heap w /\
    cache_entries (cache obj1) (generateCacheKey (prompt +:+ content) source target)
    = {| item_value := tr;
         item_expiration :=
           if CacheTTL cfg =? 0 then None else Some (now w1 + CacheTTL cfg) |}
      :: cache_entries (cache obj) (generateCacheKey (prompt +:+ content) source target).
Proof.
  intros Ha Hc Httl Hrun Hcalls.
  destruct (Translate_backend_inv _ _ _ _ _ _ _ _ _ _ _ Hrun Hcalls)
    as (obj0 & cfg0 & resp & wm & m' & _ & Ha0 & Hc0 & Hretry & _ & _ & _ & Hw1).
  rewrite Ha in Ha0. injection Ha0 as <-.
  rewrite Hc in Hc0. injection Hc0 as <-.
  cbn zeta in Hw1.
  pose proof (createMessageWithRetry_frame ctx
                (translate_request promptLib cfg prompt content source target bookName)
                (emit (EvTranslate prompt content source target bookName) w)) as Hframe.
  rewrite Hretry in Hframe. cbn [snd] in Hframe.
  destruct Hframe as ((_ & Hheap & _) & _).
  match type of Hw1 with
  | _ = saveMetadata ?a0 ?w0 =>
      pose proof (saveMetadata_frame a0 w0) as Hsave; exists a0
  end.
  cbn zeta in Hsave. rewrite <- Hw1 in Hsave.
  destruct Hsave as ((_ & Hheap1 & _ & _ & Hanth1) & Hnow1 & _).
  cbn [heap with_anthropic _anthropic now emit with_trace] in Hheap, Hheap1, Hanth1, Hnow1.
  split; [exact Hanth1|]. split; [reflexivity|]. split; [congruence|].
  cbn [cache with_metadata with_cache]. rewrite Hnow1.
  apply cache_entries_Set. exact Httl.
Qed.






(** ** GetAnthropicTranslator and the metadata file *)

Lemma with_metadata_id (a : Anthropic) : with_metadata (metadata a) a = a.
Proof. destruct a; reflexivity. Qed.

Section Construction.

Context `{JSONCodec}.

Lemma loadMetadata_unreadable a w e :
  os_ReadFile getMetadataFilePath w = inr e -> loadMetadata a w = (a, w).
Proof. intros Hr. unfold loadMetadata. rewrite Hr. reflexivity. Qed.

Lemma loadMetadata_corrupt a w data e :
  os_ReadFile getMetadataFilePath w = inl data ->
  json_checkValid data = Some e ->
  loadMetadata a w = (a, fmt_Print (unmarshal_error_line e) w).
Proof.
  intros Hr Hv. unfold loadMetadata, json_Unmarshal, unmarshal_error_line.
  rewrite Hr, Hv, with_metadata_id. reflexivity.
Qed.

(** Loading changes the metadata of the translator and the output, and
    nothing else. *)
Lemma loadMetadata_frame a w :
  let r := loadMetadata a w in
  (exists m, fst r = with_metadata m a) /\
  (exists out, snd r = with_stdout out w).
Proof.
  unfold loadMetadata.
  destruct (os_ReadFile _ w) as [data|e]; cbn [fst snd].
  2:{ split; [exists (metadata a); symmetry; apply with_metadata_id|].
      exists (stdout w). destruct w; reflexivity. }
  destruct (json_Unmarshal data (metadata a)) as [m [e|]]; cbn [fst snd].
  - split; [exists m; reflexivity|]. eexists. reflexivity.
  - split; [exists m; reflexivity|]. exists (stdout w). destruct w; reflexivity.
Qed.

Lemma GetAnthropicTranslator_first c w cf :
  anthropicOnce w = false ->
  heap w !! c = Some cf ->
  APIKey cf <> "" ->
  exists m out,
    GetAnthropicTranslator (Some c) w
    = (Return (PtrAnthropic, None),
       with_once true
         (with_anthropic
            (Some {| client := anthropic_NewClient (APIKey cf) "prompt-caching-2024-07-31";
                     cache := ∅; config := c; metadata := m |})
            (with_stdout out (with_heap (<[c := fill_Config w cf]> (heap w)) w)))) /\
    loadMetadata
      {| client := anthropic_NewClient (APIKey cf) "prompt-caching-2024-07-31";
         cache := ∅; config := c; metadata := new_metadata |}
      (with_heap (<[c := fill_Config w cf]> (heap w)) w)
    = ({| client := anthropic_NewClient (APIKey cf) "prompt-caching-2024-07-31";
          cache := ∅; config := c; metadata := m |},
       with_stdout out (with_heap (<[c := fill_Config w cf]> (heap w)) w)).
Proof.
  intros Honce Hc Hk.
  unfold GetAnthropicTranslator. rewrite Honce.
  unfold init_anthropic. rewrite Hc, (eqb_empty_false _ Hk).
  cbn [ristretto_NewCache NumCounters rc_MaxCost BufferItems fill_Config CacheMaxCost
       Z.eqb APIKey].
  set (a0 := {| client := anthropic_NewClient (APIKey cf) "prompt-caching-2024-07-31";
                cache := ∅; config := c; metadata := new_metadata |}).
  set (w2 := with_heap (<[c := fill_Config w cf]> (heap w)) w).
  assert (Hload : loadMetadata a0 (with_anthropic (Some a0) w2)
                  = (fst (loadMetadata a0 w2),
                     with_anthropic (Some a0) (snd (loadMetadata a0 w2)))).
  { unfold loadMetadata, os_ReadFile. cbn [fs_fault files with_anthropic].
    destruct (fs_fault w2 _); [reflexivity|].
    destruct (files w2 !! _); [|reflexivity].
    destruct (json_Unmarshal _ _) as [m [e|]]; reflexivity. }
  rewrite Hload.
  destruct (loadMetadata_frame a0 w2) as ((m & Hm) & (out & Hout)).
  destruct (loadMetadata a0 w2) as [a' w3]. cbn [fst snd] in *. subst a' w3.
  exists m, out. split; reflexivity.
Qed.

Lemma GetAnthropicTranslator_done cfg w :
  anthropicOnce w = true ->
  GetAnthropicTranslator cfg w = (Return (anthropic_ptr w, None), w).
Proof. intros Honce. unfold GetAnthropicTranslator. rewrite Honce. reflexivity. Qed.

Lemma GetAnthropicTranslator_marks cfg w :
  anthropicOnce (snd (GetAnthropicTranslator cfg w)) = true.
Proof.
  unfold GetAnthropicTranslator.
  destruct (anthropicOnce w) eqn:Honce; [exact Honce|].
  destruct (init_anthropic cfg w) as [[[e|]|msg] w1]; reflexivity.
Qed.

Lemma GetAnthropicTranslator_calls_done cfgs w :
  anthropicOnce w = true ->
  GetAnthropicTranslator_calls cfgs w
  = (map (fun _ => Return (anthropic_ptr w, None)) cfgs, w).
Proof.
  intros Honce. induction cfgs as [|cfg cfgs IH]; [reflexivity|].
  cbn [GetAnthropicTranslator_calls map].
  rewrite (GetAnthropicTranslator_done cfg w Honce), IH. reflexivity.
Qed.

(** An initialisation that ends with an error has not set the package
    variable. *)
Lemma init_anthropic_error cfg w e w1 :
  init_anthropic cfg w = (Return (Some e), w1) -> _anthropic w1 = _anthropic w.
Proof.
  unfold init_anthropic.
  destruct cfg as [c|].
  - destruct (heap w !! c) as [cf|]; [|discriminate].
    destruct (String.eqb (APIKey cf) "").
    { intros Heq. injection Heq as _ <-. reflexivity. }
    destruct (ristretto_NewCache _).
    + destruct (loadMetadata _ _). discriminate.
    + intros Heq. injection Heq as _ <-. reflexivity.
  - destruct (heap (with_heap _ w) !! _) as [cf|]; [|discriminate].
    destruct (String.eqb (APIKey cf) "").
    { intros Heq. injection Heq as _ <-. reflexivity. }
    destruct (ristretto_NewCache _).
    + destruct (loadMetadata _ _). discriminate.
    + intros Heq. injection Heq as _ <-. reflexivity.
Qed.

Lemma GetAnthropicTranslator_error cfg w e :
  anthropicOnce w = false ->
  fst (GetAnthropicTranslator cfg w) = Return (PtrNil, Some e) ->
  _anthropic (snd (GetAnthropicTranslator cfg w)) = _anthropic w.
Proof.
  intros Honce. unfold GetAnthropicTranslator. rewrite Honce.
  destruct (init_anthropic cfg w) as [[[e'|]|msg] w1] eqn:Hinit; cbn [fst snd].
  - intros _. apply (init_anthropic_error _ _ _ _ Hinit).
  - unfold anthropic_ptr. cbn [_anthropic with_once].
    destruct (_anthropic w1); discriminate.
  - discriminate.
Qed.

Lemma GetAnthropicTranslator_missing_key cfg w :
  anthropicOnce w = false ->
  match cfg with
  | Some c => exists cf, heap w !! c = Some cf /\ APIKey cf = ""
  | None => os_Getenv w "ANTHROPIC_KEY" = ""
  end ->
  fst (GetAnthropicTranslator cfg w)
  = Return (PtrNil, Some (errors_New "missing ANTHROPIC_KEY")).
Proof.
  intros Honce Hkey. unfold GetAnthropicTranslator. rewrite Honce.
  unfold init_anthropic. destruct cfg as [c|].
  - destruct Hkey as (cf & Hc & Hk). rewrite Hc, Hk. reflexivity.
  - cbn [heap with_heap].
    rewrite lookup_app_r by lia. rewrite Nat.sub_diag.
    cbn [lookup list_lookup default_Config APIKey]. rewrite Hkey. reflexivity.
Qed.

End Construction.

(** Building the translator does not fail on account of the metadata
    file: with an API key the first [GetAnthropicTranslator] returns the
    translator and a nil error whatever the file holds.  When the file
    cannot be read, [loadMetadata] returns with nothing changed and the
    metadata are the defaults; when [json.Unmarshal] rejects the syntax
    of the file, the error is printed and the metadata are the defaults
    all the same.  (What [json.Unmarshal] has decoded before an error of
    another kind stays in the metadata.) *)
Theorem loadMetadata_unreadable_or_bad_syntax :
  forall (codec : JSONCodec) (c : nat) (w : World) (cf : Config),
    anthropicOnce w = false ->
    heap w !! c = Some cf ->
    APIKey cf <> "" ->
    let r := GetAnthropicTranslator (Some c) w in
    fst r = Return (PtrAnthropic, None) /\
    (forall e, os_ReadFile getMetadataFilePath w = inr e ->
       (forall a, loadMetadata a w = (a, w)) /\
       world_metadata (snd r) = Some new_metadata /\
       stdout (snd r) = stdout w) /\
    (forall data e,
       os_ReadFile getMetadataFilePath w = inl data ->
       json_checkValid data = Some e ->
       (forall a, loadMetadata a w = (a, fmt_Print (unmarshal_error_line e) w)) /\
       world_metadata (snd r) = Some new_metadata /\
       stdout (snd r) = (stdout w ++ [unmarshal_error_line e])%list).
Proof.
  intros codec c w cf Honce Hc Hk r.
  destruct (GetAnthropicTranslator_first c w cf Honce Hc Hk) as (m & out & Hrun & Hload).
  subst r. rewrite Hrun. cbn [fst snd].
  split; [reflexivity|]. split.
  - intros e Hread. split; [intros a; now apply loadMetadata_unreadable with (e := e)|].
    rewrite (loadMetadata_unreadable _ _ e) in Hload by exact Hread.
    injection Hload as Hm Hout.
    split; [unfold world_metadata; cbn; congruence|].
    cbn [stdout with_once with_anthropic with_stdout]. cbn in Hout. congruence.
  - intros data e Hread Hvalid.
    split; [intros a; now apply loadMetadata_corrupt with (data := data)|].
    rewrite (loadMetadata_corrupt _ _ data e) in Hload by assumption.
    injection Hload as Hm Hout.
    split; [unfold world_metadata; cbn; congruence|].
    cbn [stdout with_once with_anthropic with_stdout]. cbn in Hout. congruence.
Qed.

Lemma loadMetadata_unreadable_or_bad_syntax_witness :
  anthropicOnce corrupt_world = false /\
  heap corrupt_world !! 0%nat = Some one_minute_Config /\
  APIKey one_minute_Config <> "" /\
  os_ReadFile getMetadataFilePath corrupt_world = inl "not json" /\
  @json_checkValid null_codec "not json" = Some syntax_error /\
  fst (@GetAnthropicTranslator null_codec (Some 0%nat) corrupt_world)
  = Return (PtrAnthropic, None) /\
  world_metadata (snd (@GetAnthropicTranslator null_codec (Some 0%nat) corrupt_world))
  = Some new_metadata /\
  stdout (snd (@GetAnthropicTranslator null_codec (Some 0%nat) corrupt_world))
  = (stdout corrupt_world ++ [unmarshal_error_line syntax_error])%list.
Proof.
  assert (H1 : anthropicOnce corrupt_world = false) by reflexivity.
  assert (H2 : heap corrupt_world !! 0%nat = Some one_minute_Config) by reflexivity.
  assert (H3 : APIKey one_minute_Config <> "") by discriminate.
  assert (H4 : os_ReadFile getMetadataFilePath corrupt_world = inl "not json")
    by (vm_compute; reflexivity).
  assert (H5 : @json_checkValid null_codec "not json" = Some syntax_error) by reflexivity.
  destruct (loadMetadata_unreadable_or_bad_syntax null_codec 0%nat corrupt_world
              one_minute_Config H1 H2 H3) as (Hret & _ & Hcorrupt).
  destruct (Hcorrupt "not json" syntax_error H4 H5) as (_ & Hmeta & Hout).
  split; [exact H1|]. split; [exact H2|]. split; [exact H3|]. split; [exact H4|].
  split; [exact H5|]. split; [exact Hret|]. split; [exact Hmeta|exact Hout].
Defined.

(** C7: the code at a metadata file that is well-formed JSON of the
    wrong shape.  [json.Unmarshal] returns an error after it has set the
    usage map to nil, and [loadMetadata] prints the error and keeps what
    was decoded: [GetAnthropicTranslator] returns the translator and a
    nil error, but the metadata are not the defaults, and the first
    [Translate] asks the backend and then panics on the assignment to
    the nil map. *)
Theorem loadMetadata_type_error_leaves_nil_map :
  os_ReadFile getMetadataFilePath mistyped_world = inl mistyped_metadata /\
  @json_Unmarshal mistyped_codec mistyped_metadata new_metadata
  = ({| TotalCalls := 0; LastUsed := 0; ModelUsage := None; PromptExamples := [];
        TokenUsage := 0; TokenUsageList := [] |}, Some type_error) /\
  fst mistyped_built = Return (PtrAnthropic, None) /\
  stdout (snd mistyped_built) = [unmarshal_error_line type_error] /\
  (ModelUsage <$> world_metadata (snd mistyped_built)) = Some None /\
  world_metadata (snd mistyped_built) <> Some new_metadata /\
  fst mistyped_first = Panicked "assignment to entry in nil map" /\
  backend_calls (snd mistyped_first) = S (backend_calls (snd mistyped_built)).
Proof.
  split; [vm_compute; reflexivity|]. split; [vm_compute; reflexivity|].
  split; [vm_compute; reflexivity|]. split; [vm_compute; reflexivity|].
  split; [vm_compute; reflexivity|]. split; [vm_compute; discriminate|].
  split; vm_compute; reflexivity.
Qed.

(** ** The singleton *)

(** C10.  In a process that has not built its translator yet, the first
    call of [GetAnthropicTranslator] marks the [Once] as done whatever it
    returns, and every later call, with whatever configuration, runs no
    initialisation: it leaves the process as it is and returns the package
    variable with a nil error.  So when the first call fails (it does
    when the API key is empty), every later call returns a nil translator
    and a nil error. *)
Theorem GetAnthropicTranslator_once_only :
  forall (codec : JSONCodec) (cfg0 : option nat) (cfgs : list (option nat)) (w : World),
    anthropicOnce w = false ->
    _anthropic w = None ->
    let first := GetAnthropicTranslator cfg0 w in
    let w1 := snd first in
    anthropicOnce w1 = true /\
    GetAnthropicTranslator_calls cfgs w1
    = (map (fun _ => Return (anthropic_ptr w1, None)) cfgs, w1) /\
    (forall e, fst first = Return (PtrNil, Some e) ->
       GetAnthropicTranslator_calls cfgs w1
       = (map (fun _ => Return (PtrNil, None)) cfgs, w1)) /\
    (match cfg0 with
     | Some c => exists cf, heap w !! c = Some cf /\ APIKey cf = ""
     | None => os_Getenv w "ANTHROPIC_KEY" = ""
     end ->
     fst first = Return (PtrNil, Some (errors_New "missing ANTHROPIC_KEY"))).
Proof.
  intros codec cfg0 cfgs w Honce Hnil first w1.
  assert (Hdone : anthropicOnce w1 = true) by apply GetAnthropicTranslator_marks.
  split; [exact Hdone|].
  split; [apply GetAnthropicTranslator_calls_done; exact Hdone|].
  split.
  - intros e He.
    rewrite (GetAnthropicTranslator_calls_done cfgs w1 Hdone).
    assert (Hptr : anthropic_ptr w1 = PtrNil).
    { unfold anthropic_ptr. subst w1 first.
      rewrite (GetAnthropicTranslator_error cfg0 w e Honce He), Hnil. reflexivity. }
    rewrite Hptr. reflexivity.
  - apply GetAnthropicTranslator_missing_key. exact Honce.
Qed.

Lemma GetAnthropicTranslator_once_only_witness :
  anthropicOnce (fresh_world "" demo_backend) = false /\
  _anthropic (fresh_world "" demo_backend) = None /\
  os_Getenv (fresh_world "" demo_backend) "ANTHROPIC_KEY" = "" /\
  fst (@GetAnthropicTranslator null_codec None (fresh_world "" demo_backend))
  = Return (PtrNil, Some (errors_New "missing ANTHROPIC_KEY")) /\
  fst (@GetAnthropicTranslator_calls null_codec [None; Some 0%nat; Some 7%nat]
         (snd (@GetAnthropicTranslator null_codec None (fresh_world "" demo_backend))))
  = [Return (PtrNil, None); Return (PtrNil, None); Return (PtrNil, None)].
Proof.
  assert (H1 : anthropicOnce (fresh_world "" demo_backend) = false) by reflexivity.
  assert (H2 : _anthropic (fresh_world "" demo_backend) = None) by reflexivity.
  assert (H3 : os_Getenv (fresh_world "" demo_backend) "ANTHROPIC_KEY" = "")
    by (vm_compute; reflexivity).
  destruct (GetAnthropicTranslator_once_only null_codec None
              [None; Some 0%nat; Some 7%nat] (fresh_world "" demo_backend) H1 H2)
    as (_ & _ & Hlater & Hfirst).
  split; [exact H1|]. split; [exact H2|]. split; [exact H3|].
  split; [exact (Hfirst H3)|].
  exact (f_equal fst (Hlater _ (Hfirst H3))).
Defined.

(** ** The TTL *)

Lemma GetAnthropicTranslator_CacheTTL `{JSONCodec} c w cf :
  anthropicOnce w = false ->
  heap w !! c = Some cf ->
  APIKey cf <> "" ->
  effective_CacheTTL (snd (GetAnthropicTranslator (Some c) w)) = Some (15 * Minute).
Proof.
  intros Honce Hc Hk.
  destruct (GetAnthropicTranslator_first c w cf Honce Hc Hk) as (m & out & Hrun & _).
  rewrite Hrun. unfold effective_CacheTTL.
  cbn [snd _anthropic heap config with_once with_anthropic with_stdout with_heap].
  rewrite list_lookup_insert_eq by (apply lookup_lt_Some in Hc; exact Hc).
  reflexivity.
Qed.

(** C3: the code at a configuration that asks for a TTL of one minute.
    The caller's [Config] holds one minute before the call; after it, the
    TTL of the translator is 15 minutes, and a translation stored by
    [Translate] expires 15 minutes after it was stored. *)
Theorem supplied_CacheTTL_is_overwritten :
  CacheTTL <$> (heap (with_heap [one_minute_Config] (fresh_world "k" demo_backend)) !! 0%nat)
  = Some (1 * Minute) /\
  fst (@GetAnthropicTranslator null_codec (Some 0%nat)
         (with_heap [one_minute_Config] (fresh_world "k" demo_backend)))
  = Return (PtrAnthropic, None) /\
  effective_CacheTTL one_minute_world = Some (15 * Minute) /\
  cache_expiration
    (snd (@Translate null_codec ∅ PtrAnthropic context_Background
            "be brief" "hello" "english" "vietnamese" "Book" one_minute_world))
    (key_of_inputs "hello" "be brief" "english" "vietnamese")
  = Some (Some (now (snd (@Translate null_codec ∅ PtrAnthropic context_Background
                            "be brief" "hello" "english" "vietnamese" "Book"
                            one_minute_world))
                + 15 * Minute)).
Proof.
  split; [vm_compute; reflexivity|].
  split; [vm_compute; reflexivity|].
  split; vm_compute; reflexivity.
Qed.

(** ** The cache key *)

Lemma Translate_stored_under `{JSONCodec} promptLib ctx prompt content source target
    bookName w tr w' :
  Translate promptLib PtrAnthropic ctx prompt content source target bookName w
  = (Return (tr, None), w') ->
  backend_calls w' <> backend_calls w ->
  stored_under w w' (key_of_inputs content prompt source target) tr.
Proof.
  intros Hrun Hcalls.
  destruct (Translate_backend_inv _ _ _ _ _ _ _ _ _ _ _ Hrun Hcalls)
    as (obj & cfg & resp & wm & m' & _ & Ha & Hc & _ & _ & _ & _ & Hw).
  cbn zeta in Hw.
  match type of Hw with
  | _ = saveMetadata ?a0 ?w0 =>
      pose proof (saveMetadata_frame a0 w0) as ((_ & _ & _ & _ & Hanth) & _);
      exists obj, cfg, a0, (now wm)
  end.
  cbn zeta in Hanth. rewrite <- Hw in Hanth.
  split; [exact Ha|]. split; [exact Hc|]. split; [exact Hanth|].
  cbn [cache with_metadata with_cache].
  rewrite generateCacheKey_inputs. reflexivity.
Qed.

(** C4.  Two calls of [Translate] with the same content, instructions,
    source and target language, whatever their book titles, prompt
    libraries, configurations and worlds, store their translations
    under the same key, and this key is the hexadecimal SHA-256 digest of
    [instructions ++ content ++ ":" ++ source ++ ":" ++ target]. *)
Theorem Translate_cache_key :
  forall (codec1 codec2 : JSONCodec) (promptLib1 promptLib2 : gmap string string)
         (ctx1 ctx2 : Context) (prompt content source target bookName1 bookName2 : string)
         (w1 w2 w1' w2' : World) (tr1 tr2 : string),
    @Translate codec1 promptLib1 PtrAnthropic ctx1 prompt content source target bookName1 w1
    = (Return (tr1, None), w1') ->
    backend_calls w1' <> backend_calls w1 ->
    @Translate codec2 promptLib2 PtrAnthropic ctx2 prompt content source target bookName2 w2
    = (Return (tr2, None), w2') ->
    backend_calls w2' <> backend_calls w2 ->
    exists key,
      key = hex_EncodeToString
              (SHA256.Sum256
                 (bytes_of_string
                    (prompt +:+ content +:+ ":" +:+ source +:+ ":" +:+ target))) /\
      key = generateCacheKey (prompt +:+ content) source target /\
      stored_under w1 w1' key tr1 /\
      stored_under w2 w2' key tr2.
Proof.
  intros codec1 codec2 promptLib1 promptLib2 ctx1 ctx2 prompt content source target
         bookName1 bookName2 w1 w2 w1' w2' tr1 tr2 Hrun1 Hcalls1 Hrun2 Hcalls2.
  exists (key_of_inputs content prompt source target).
  split; [reflexivity|].
  split; [symmetry; apply generateCacheKey_inputs|].
  split.
  - exact (Translate_stored_under _ _ _ _ _ _ _ _ _ _ Hrun1 Hcalls1).
  - exact (Translate_stored_under _ _ _ _ _ _ _ _ _ _ Hrun2 Hcalls2).
Qed.

Lemma Translate_cache_key_witness :
  demo_first = (Return ("xin chao", None), snd demo_first) /\
  backend_calls (snd demo_first) <> backend_calls demo_world /\
  demo_first_other = (Return ("xin chao", None), snd demo_first_other) /\
  backend_calls (snd demo_first_other) <> backend_calls one_minute_world /\
  exists key,
    key = hex_EncodeToString
            (SHA256.Sum256
               (bytes_of_string ("be brief" +:+ "hello" +:+ ":" +:+ "english" +:+ ":"
                                 +:+ "vietnamese"))) /\
    key = generateCacheKey ("be brief" +:+ "hello") "english" "vietnamese" /\
    stored_under demo_world (snd demo_first) key "xin chao" /\
    stored_under one_minute_world (snd demo_first_other) key "xin chao".
Proof.
  assert (H1 : demo_first = (Return ("xin chao", None), snd demo_first))
    by (apply pair_of_fst; vm_compute; reflexivity).
  assert (H2 : backend_calls (snd demo_first) <> backend_calls demo_world)
    by (vm_compute; discriminate).
  assert (H3 : demo_first_other = (Return ("xin chao", None), snd demo_first_other))
    by (apply pair_of_fst; vm_compute; reflexivity).
  assert (H4 : backend_calls (snd demo_first_other) <> backend_calls one_minute_world)
    by (vm_compute; discriminate).
  split; [exact H1|]. split; [exact H2|]. split; [exact H3|]. split; [exact H4|].
  exact (Translate_cache_key null_codec null_codec ∅ ∅ context_Background
           context_Background "be brief" "hello" "english" "vietnamese" "Book"
           "Another title" demo_world one_minute_world (snd demo_first)
           (snd demo_first_other) "xin chao" "xin chao" H1 H2 H3 H4).
Defined.

(** ** The usage metadata *)

Lemma filepath_Dir_metadata : filepath_Dir getMetadataFilePath = "unpackage".
Proof. vm_compute. reflexivity. Qed.

Lemma saveMetadata_saved `{JSONCodec} a w :
  saved (metadata a) w (files w) (stdout w) (saveMetadata a w).
Proof.
  unfold saved, saveMetadata, os_MkdirAll, os_WriteFile,
    marshal_error_line, mkdir_error_line, write_error_line.
  rewrite filepath_Dir_metadata.
  destruct (json_MarshalIndent _ _ _); [|split; reflexivity].
  destruct (fs_fault w (OpMkdirAll _)); [split; reflexivity|].
  destruct (fs_fault w (OpWriteFile _)); [|split; reflexivity].
  destruct (fs_written w _); split; reflexivity.
Qed.

(** What [Translate] returns depends neither on the codec nor on the
    file system. *)
Lemma Translate_result_fs (codec codec' : JSONCodec) promptLib a ctx
    prompt content source target bookName w f fl :
  fst (@Translate codec' promptLib a ctx prompt content source target bookName
         (with_fs_fault f (with_files fl w)))
  = fst (@Translate codec promptLib a ctx prompt content source target bookName w).
Proof.
  unfold Translate.
  cbn [_anthropic emit with_trace heap now with_fs_fault with_files].
  destruct a; [reflexivity|].
  destruct (_anthropic w) as [obj|]; [|reflexivity].
  destruct (heap w !! config obj) as [cfg|]; [|reflexivity].
  destruct (if String.eqb prompt "" then None else _); [reflexivity|].
  unfold createMessageWithRetry.
  match goal with
  | |- context [retry_loop ?n ?r ?e ?c ?q
                  (emit ?ev (with_fs_fault f (with_files fl w)))] =>
      change (emit ev (with_fs_fault f (with_files fl w)))
        with (with_fs_fault f (with_files fl (emit ev w)));
      rewrite (retry_loop_fs n r e c q (emit ev w) f fl);
      destruct (retry_loop n r e c q (emit ev w)) as [[r0 e0] wm]
  end.
  cbn [fst snd].
  destruct r0 as [resp|], e0 as [e0|]; try reflexivity.
  destruct (resp_Content resp); [reflexivity|].
  unfold Translate_success.
  cbn [now with_fs_fault with_files].
  destruct (ModelUsage_incr _ _); reflexivity.
Qed.

(** C6, as amended.  After every [Translate] call that returns a
    translation obtained from the backend, the metadata have been updated
    (one more call, one more use of the model, the tokens of the response
    added and listed) and then saved: the file holds the encoded metadata
    when nothing fails, and a failure of the encoding, of the directory
    creation or of the write leaves the files as they were and prints a
    line.  Whatever the codec and the file system do, the call returns
    the same translation and no error. *)
Theorem Translate_records_and_saves :
  forall (codec : JSONCodec) (promptLib : gmap string string) (ctx : Context)
         (prompt content source target bookName : string) (w w' : World) (tr : string),
    Translate promptLib PtrAnthropic ctx prompt content source target bookName w
    = (Return (tr, None), w') ->
    backend_calls w' <> backend_calls w ->
    exists obj cfg resp mu m' out,
      _anthropic w = Some obj /\
      heap w !! config obj = Some cfg /\
      ModelUsage (metadata obj) = Some mu /\
      world_metadata w' = Some m' /\
      TotalCalls m' = wrap_int (TotalCalls (metadata obj) + 1) /\
      ModelUsage m'
      = Some (<[Model cfg := wrap_int (default 0 (mu !! Model cfg) + 1)]> mu) /\
      TokenUsage m'
      = to_uint64 (TokenUsage (metadata obj)
                   + to_uint64 (wrap_int (InputTokens (resp_Usage resp)
                                          + OutputTokens (resp_Usage resp)))) /\
      TokenUsageList m' = (TokenUsageList (metadata obj) ++ [resp_Usage resp])%list /\
      saved m' w (files w) out w' /\
      forall (codec' : JSONCodec) (f : FsOp -> option error) (fl : gmap string string),
        fst (@Translate codec' promptLib PtrAnthropic ctx prompt content source target
               bookName (with_fs_fault f (with_files fl w)))
        = Return (tr, None).
Proof.
  intros codec promptLib ctx prompt content source target bookName w w' tr Hrun Hcalls.
  destruct (Translate_backend_inv _ _ _ _ _ _ _ _ _ _ _ Hrun Hcalls)
    as (obj & cfg & resp & wm & m' & _ & Ha & Hc & Hretry & _ & Hm & _ & Hw).
  cbn zeta in Hw.
  unfold metadata_after, ModelUsage_incr in Hm. cbn [ModelUsage record_call] in Hm.
  destruct (ModelUsage (metadata obj)) as [mu|] eqn:Hmu; [|discriminate].
  injection Hm as <-.
  pose proof (createMessageWithRetry_frame ctx
                (translate_request promptLib cfg prompt content source target bookName)
                (emit (EvTranslate prompt content source target bookName) w)) as Hframe.
  rewrite Hretry in Hframe. cbn [snd] in Hframe.
  destruct Hframe as (_ & Hfiles & Hfault & _).
  cbn [files fs_fault emit with_trace] in Hfiles, Hfault.
  pose proof (createMessageWithRetry_env ctx
                (translate_request promptLib cfg prompt content source target bookName)
                (emit (EvTranslate prompt content source target bookName) w)) as Henv.
  rewrite Hretry in Henv. cbn [snd] in Henv. destruct Henv as [Hwritten _].
  cbn [fs_written emit with_trace] in Hwritten.
  match type of Hw with
  | _ = saveMetadata ?a0 ?w0 =>
      pose proof (saveMetadata_frame a0 w0) as ((_ & _ & _ & _ & Hanth) & _);
      pose proof (saveMetadata_saved a0 w0) as Hsaved
  end.
  cbn zeta in Hanth. rewrite <- Hw in Hanth, Hsaved.
  unfold saved in Hsaved.
  cbn [metadata with_metadata fs_fault fs_written files stdout with_anthropic] in Hsaved.
  rewrite Hfault, Hfiles, Hwritten in Hsaved.
  eexists obj, cfg, resp, mu, _, (stdout wm).
  split; [exact Ha|]. split; [exact Hc|]. split; [exact Hmu|].
  split; [unfold world_metadata; rewrite Hanth; reflexivity|].
  split; [reflexivity|]. split; [reflexivity|]. split; [reflexivity|].
  split; [reflexivity|].
  split; [exact Hsaved|].
  intros codec' f fl.
  rewrite (Translate_result_fs codec codec'), Hrun. reflexivity.
Qed.

Lemma Translate_records_and_saves_witness :
  demo_first_full_disk = (Return ("xin chao", None), snd demo_first_full_disk) /\
  backend_calls (snd demo_first_full_disk) <> backend_calls full_disk_world /\
  exists obj cfg resp mu m' out,
    _anthropic full_disk_world = Some obj /\
    heap full_disk_world !! config obj = Some cfg /\
    ModelUsage (metadata obj) = Some mu /\
    world_metadata (snd demo_first_full_disk) = Some m' /\
    TotalCalls m' = wrap_int (TotalCalls (metadata obj) + 1) /\
    ModelUsage m'
    = Some (<[Model cfg := wrap_int (default 0 (mu !! Model cfg) + 1)]> mu) /\
    TokenUsage m'
    = to_uint64 (TokenUsage (metadata obj)
                 + to_uint64 (wrap_int (InputTokens (resp_Usage resp)
                                        + OutputTokens (resp_Usage resp)))) /\
    TokenUsageList m' = (TokenUsageList (metadata obj) ++ [resp_Usage resp])%list /\
    @saved null_codec m' full_disk_world (files full_disk_world) out
      (snd demo_first_full_disk) /\
    forall (codec' : JSONCodec) (f : FsOp -> option error) (fl : gmap string string),
      fst (@Translate codec' ∅ PtrAnthropic context_Background
             "be brief" "hello" "english" "vietnamese" "Book"
             (with_fs_fault f (with_files fl full_disk_world)))
      = Return ("xin chao", None).
Proof.
  assert (H1 : demo_first_full_disk
               = (Return ("xin chao", None), snd demo_first_full_disk))
    by (apply pair_of_fst; vm_compute; reflexivity).
  assert (H2 : backend_calls (snd demo_first_full_disk) <> backend_calls full_disk_world)
    by (vm_compute; discriminate).
  split; [exact H1|]. split; [exact H2|].
  exact (Translate_records_and_saves null_codec ∅ context_Background
           "be brief" "hello" "english" "vietnamese" "Book"
           full_disk_world (snd demo_first_full_disk) "xin chao" H1 H2).
Defined.

Example full_disk_is_logged :
  fst demo_first_full_disk = Return ("xin chao", None) /\
  stdout (snd demo_first_full_disk)
  = [write_error_line (libError "no space left on device")] /\
  files (snd demo_first_full_disk) !! getMetadataFilePath = None.
Proof.
  split; [vm_compute; reflexivity|].
  split; vm_compute; reflexivity.
Qed.

(** C6, as stated, fails: a call answered from the cache returns a
    translation and no error, and leaves the metadata as they were (one
    call counted, not two) and writes no file. *)
Lemma Translate_cache_hit_counterexample :
  fst demo_first = Return ("xin chao", None) /\
  TotalCalls <$> world_metadata (snd demo_first) = Some 1 /\
  TokenUsage <$> world_metadata (snd demo_first) = Some 15 /\
  fst demo_second = Return ("xin chao", None) /\
  TotalCalls <$> world_metadata (snd demo_second) = Some 1 /\
  TokenUsage <$> world_metadata (snd demo_second) = Some 15 /\
  files (snd demo_second) !! getMetadataFilePath = None /\
  stdout (snd demo_second) = [].
Proof.
  split; [vm_compute; reflexivity|].
  split; [vm_compute; reflexivity|].
  split; [vm_compute; reflexivity|].
  split; [vm_compute; reflexivity|].
  split; [vm_compute; reflexivity|].
  split; [vm_compute; reflexivity|].
  split; vm_compute; reflexivity.
Qed.

(** ** The sample of inputs *)





Section Examples.

Context `{JSONCodec}.
Variable promptLib : gmap string string.



End Examples.






Example demo_calls_examples :
  map String.length (world_examples (@run_calls null_codec ∅ demo_calls demo_world))
  = [0; 30; 60; 90; 100]%nat /\
  (TotalCalls <$> world_metadata (@run_calls null_codec ∅ demo_calls demo_world)) = Some 7.
Proof. split; vm_compute; reflexivity. Qed.

(** ** The single-segment endpoint *)

Lemma instructment_revision (instructions prior : string) :
  instructment instructions prior = revision_instructions instructions prior.
Proof.
  unfold instructment, revision_instructions.
  destruct prior as [|c prior]; [reflexivity|].
  replace (0 <? len (String c prior)) with true
    by (symmetry; apply Z.ltb_lt; unfold len; cbn [String.length]; lia).
  cbn [String.eqb].
  unfold Sprintf.
  let f := eval vm_compute in
    ("Previous translation:" +:+ LF +:+ LF +:+ "%s" +:+ LF +:+ LF +:+ "%s") in
  change ("Previous translation:" +:+ LF +:+ LF +:+ "%s" +:+ LF +:+ LF +:+ "%s") with f.
  cbv -[String.append]. rewrite string_append_nil_r. reflexivity.
Qed.

Lemma GetAnthropicTranslator_trace `{JSONCodec} cfg w :
  trace (snd (GetAnthropicTranslator cfg w)) = trace w.
Proof.
  unfold GetAnthropicTranslator.
  destruct (anthropicOnce w); [reflexivity|].
  assert (Hinit : trace (snd (init_anthropic cfg w)) = trace w).
  { unfold init_anthropic.
    destruct cfg as [c|].
    - destruct (heap w !! c) as [cf|]; [|reflexivity].
      destruct (String.eqb (APIKey cf) ""); [reflexivity|].
      destruct (ristretto_NewCache _); [|reflexivity].
      match goal with
      | |- context [loadMetadata ?a0 ?w0] =>
          destruct (loadMetadata_frame a0 w0) as (_ & (out & Hout));
          destruct (loadMetadata a0 w0) as [a' w3]
      end.
      cbn [snd] in *. subst w3. reflexivity.
    - destruct (heap (with_heap _ w) !! _) as [cf|]; [|reflexivity].
      destruct (String.eqb (APIKey cf) ""); [reflexivity|].
      destruct (ristretto_NewCache _); [|reflexivity].
      match goal with
      | |- context [loadMetadata ?a0 ?w0] =>
          destruct (loadMetadata_frame a0 w0) as (_ & (out & Hout));
          destruct (loadMetadata a0 w0) as [a' w3]
      end.
      cbn [snd] in *. subst w3. reflexivity. }
  destruct (init_anthropic cfg w) as [[[e|]|msg] w1]; exact Hinit.
Qed.

Lemma Translate_trace `{JSONCodec} promptLib a ctx prompt content source target bookName w :
  exists evs,
    trace (snd (Translate promptLib a ctx prompt content source target bookName w))
    = (trace w ++ EvTranslate prompt content source target bookName :: evs)%list /\
    no_translate_events evs.
Proof.
  unfold Translate. cbn [_anthropic emit with_trace heap now].
  assert (Hbase : exists evs,
            (trace w ++ [EvTranslate prompt content source target bookName])%list
            = (trace w ++ EvTranslate prompt content source target bookName :: evs)%list /\
            no_translate_events evs)
    by (exists []; split; reflexivity).
  destruct a; [exact Hbase|].
  destruct (_anthropic w) as [obj|]; [|exact Hbase].
  destruct (heap w !! config obj) as [cfg|]; [|exact Hbase].
  destruct (if String.eqb prompt "" then None else _); [exact Hbase|].
  match goal with
  | |- context [createMessageWithRetry ?c ?r ?w0] =>
      pose proof (createMessageWithRetry_frame c r w0) as (_ & _ & _ & _ & evs & Htr & Hev);
      destruct (createMessageWithRetry c r w0) as [[r0 e0] wm]
  end.
  cbn [snd trace emit with_trace] in Htr.
  assert (Hwm : exists evs,
            trace wm
            = (trace w ++ EvTranslate prompt content source target bookName :: evs)%list /\
            no_translate_events evs).
  { exists evs. split; [|exact Hev]. rewrite Htr, <- app_assoc. reflexivity. }
  destruct r0 as [resp|], e0 as [e0|]; try exact Hwm.
  destruct (resp_Content resp); [exact Hwm|].
  unfold Translate_success.
  destruct (ModelUsage_incr _ _); [|exact Hwm].
  cbn [snd].
  match goal with
  | |- context [saveMetadata ?a0 ?w0] =>
      pose proof (saveMetadata_frame a0 w0) as (_ & _ & _ & Htr' & _)
  end.
  cbn zeta in Htr'. rewrite Htr'. exact Hwm.
Qed.

Section ServeFacts.

Context `{JSONCodec} `{WebLibs}.
Variable promptLib : gmap string string.

Lemma translateWithAI_trace content instructions bookTitle w :
  let w' := snd (translateWithAI promptLib content instructions bookTitle w) in
  (trace w' = trace w \/
   translate_called (trace w) (trace w') instructions content "english" "vietnamese"
     bookTitle) /\
  (anthropicOnce w = true \/ os_Getenv w "ANTHROPIC_KEY" <> "" ->
   translate_called (trace w) (trace w') instructions content "english" "vietnamese"
     bookTitle).
Proof.
  unfold translateWithAI.
  set (cf := {| APIKey := os_Getenv w "ANTHROPIC_KEY"; Model := ModelClaude3Dot5SonnetLatest;
                Temperature := 7 # 10; MaxTokens := 8192; CacheTTL := 0;
                CacheMaxCost := 0; TranslationGuidelines := ""; SystemPrompt := "" |}).
  set (w1 := with_heap (heap w ++ [cf]) w).
  pose proof (GetAnthropicTranslator_trace (Some (length (heap w))) w1) as Htr.
  assert (Hcalled : forall a w2,
            trace w2 = trace w ->
            translate_called (trace w)
              (trace (snd (Translate promptLib a context_Background instructions content
                             "english" "vietnamese" bookTitle w2)))
              instructions content "english" "vietnamese" bookTitle).
  { intros a w2 Hw2.
    destruct (Translate_trace promptLib a context_Background instructions content
                "english" "vietnamese" bookTitle w2) as (evs & Hevs & Hno).
    exists evs. rewrite Hevs, Hw2. split; [reflexivity|exact Hno]. }
  assert (Hsnd : forall a w2,
            trace
              (snd match Translate promptLib a context_Background instructions content
                           "english" "vietnamese" bookTitle w2 with
                   | (Panicked msg, w3) => (Panicked msg, w3)
                   | (Return (_, Some err), w3) =>
                       (Return ("", Some (errorString
                                            (Sprintf "translation error: %v" [Error err]))),
                        w3)
                   | (Return (translatedContent, None), w3) =>
                       (Return (translatedContent, None), w3)
                   end)
            = trace (snd (Translate promptLib a context_Background instructions content
                            "english" "vietnamese" bookTitle w2))).
  { intros a w2. destruct (Translate _ _ _ _ _ _ _ _ _) as [[[t [e|]]|msg] w3]; reflexivity. }
  split.
  - destruct (GetAnthropicTranslator (Some (length (heap w))) w1) as [[[a [e|]]|msg] w2];
      cbn [snd] in Htr.
    + left. exact Htr.
    + right. rewrite Hsnd. apply Hcalled. exact Htr.
    + left. exact Htr.
  - intros Hready.
    assert (Hok : exists a w2,
              GetAnthropicTranslator (Some (length (heap w))) w1 = (Return (a, None), w2)).
    { destruct (anthropicOnce w) eqn:Honce.
      - eexists _, _. apply GetAnthropicTranslator_done. exact Honce.
      - destruct Hready as [Hready|Hkey]; [discriminate|].
        assert (Hc : heap w1 !! length (heap w) = Some cf).
        { subst w1. cbn [heap with_heap]. rewrite lookup_app_r by lia.
          rewrite Nat.sub_diag. reflexivity. }
        destruct (GetAnthropicTranslator_first (length (heap w)) w1 cf Honce Hc Hkey)
          as (m & out & Hrun & _).
        eexists _, _. exact Hrun. }
    destruct Hok as (a & w2 & Hrun). rewrite Hrun in Htr |- *. cbn [snd] in Htr.
    rewrite Hsnd. apply Hcalled. exact Htr.
Qed.

End ServeFacts.

(** C9.  A request of the single-segment endpoint that reaches the
    translator (the body parses, the file is read and parsed, and the
    requested segment has content): the instructions handed to
    [Translate] are the user's instructions when the document holds no
    current translation for the requested id, and otherwise
    [Previous translation:], a blank line, the current translation, a
    blank line and the user's instructions.  The handler makes this call,
    and only this one, whenever the translator has been requested before
    or an API key is set, and never another one. *)
Theorem ai_translate_instructions :
  forall (codec : JSONCodec) (libs : WebLibs) (promptLib : gmap string string)
         (contentDirPath bookTitle body : string) (w : World)
         (req : TranslateAIRequest) (content : string) (doc : list Node),
    BodyParser body = inl req ->
    os_ReadFile (path_Join contentDirPath (FilePath req)) w = inl content ->
    NewDocumentFromReader content = inl doc ->
    content_by_attr doc "data-content-id" (ContentID req) <> "" ->
    let original := content_by_attr doc "data-content-id" (ContentID req) in
    let prior := content_by_attr doc "data-translation-id" (TranslationID req) in
    let passed :=
      if String.eqb prior "" then Instructions req
      else "Previous translation:" +:+ LF +:+ LF +:+ prior +:+ LF +:+ LF
           +:+ Instructions req in
    let w' := snd (ai_translate promptLib contentDirPath bookTitle body w) in
    (trace w' = trace w \/
     translate_called (trace w) (trace w') passed original "english" "vietnamese"
       bookTitle) /\
    (anthropicOnce w = true \/ os_Getenv w "ANTHROPIC_KEY" <> "" ->
     translate_called (trace w) (trace w') passed original "english" "vietnamese"
       bookTitle).
Proof.
  intros codec libs promptLib contentDirPath bookTitle body w req content doc
         Hbody Hread Hparse Horig original prior passed w'.
  assert (Hw' : w' = snd (translateWithAI promptLib original passed bookTitle w)).
  { subst w'. unfold ai_translate. rewrite Hbody, Hread, Hparse.
    rewrite (eqb_empty_false _ Horig), instructment_revision.
    fold original. fold prior.
    change (revision_instructions (Instructions req) prior) with passed.
    destruct (translateWithAI promptLib original passed bookTitle w)
      as [[[t [e|]]|msg] w1]; reflexivity. }
  rewrite Hw'. apply translateWithAI_trace.
Qed.

(** The content the handler finds for an id is the inner HTML of the
    last element that carries it. *)
Lemma content_by_attr_last `{WebLibs} (doc : list Node) (name id : string) :
  content_by_attr doc name id
  = match last (List.filter (has_id name id) (Find doc name)) with
    | Some s => Html_or_empty s
    | None => ""
    end.
Proof.
  unfold content_by_attr. generalize "" as acc.
  induction (Find doc name) as [|s l IH]; intros acc; [reflexivity|].
  cbn [fold_left List.filter]. rewrite IH. unfold has_id at 2.
  destruct (Attr s name) as [v|]; [|reflexivity].
  destruct (String.eqb v id); [|reflexivity].
  destruct (List.filter (has_id name id) l) as [|s' l']; [reflexivity|].
  change (last (s :: s' :: l')) with (last (s' :: l')).
  destruct (last (s' :: l')) eqn:Hlast; [reflexivity|].
  apply last_None in Hlast. discriminate.
Qed.

Lemma ai_translate_instructions_witness :
  @BodyParser demo_libs "be formal" = inl demo_request_body /\
  os_ReadFile (@path_Join demo_libs "content" (FilePath demo_request_body)) serving_world
  = inl "<html/>" /\
  @NewDocumentFromReader demo_libs "<html/>" = inl demo_doc /\
  @content_by_attr demo_libs demo_doc "data-content-id" (ContentID demo_request_body) <> "" /\
  os_Getenv serving_world "ANTHROPIC_KEY" <> "" /\
  translate_called (trace serving_world)
    (trace (snd (@ai_translate null_codec demo_libs ∅ "content" "Book" "be formal"
                   serving_world)))
    ("Previous translation:" +:+ LF +:+ LF +:+ "Xin chao" +:+ LF +:+ LF +:+ "be formal")
    "Hello" "english" "vietnamese" "Book".
Proof.
  assert (H1 : @BodyParser demo_libs "be formal" = inl demo_request_body) by reflexivity.
  assert (H2 : os_ReadFile (@path_Join demo_libs "content" (FilePath demo_request_body))
                 serving_world = inl "<html/>") by (vm_compute; reflexivity).
  assert (H3 : @NewDocumentFromReader demo_libs "<html/>" = inl demo_doc) by reflexivity.
  assert (H4 : @content_by_attr demo_libs demo_doc "data-content-id"
                 (ContentID demo_request_body) <> "") by (vm_compute; discriminate).
  assert (H5 : os_Getenv serving_world "ANTHROPIC_KEY" <> "")
    by (vm_compute; discriminate).
  split; [exact H1|]. split; [exact H2|]. split; [exact H3|]. split; [exact H4|].
  split; [exact H5|].
  exact (proj2 (ai_translate_instructions null_codec demo_libs ∅ "content" "Book"
                  "be formal" serving_world demo_request_body "<html/>" demo_doc
                  H1 H2 H3 H4) (or_intror H5)).
Defined.

Example ai_translate_first_translation :
  trace (snd (@ai_translate null_codec demo_libs ∅ "content" "Book" "be formal"
                (with_files {[ "content/ch1.xhtml" := "<html/>" ]}
                   (fresh_world "" demo_backend))))
  = [] /\
  fst (@ai_translate null_codec demo_libs ∅ "content" "Book" "be formal" serving_world)
  = Return (json_response 200 "translated_content" "xin chao").
Proof. split; vm_compute; reflexivity. Qed.

(** * Further properties of the code *)

(** ** The retry loop: bounds, recovery, shape of the result *)

Lemma backoff_end_ge b req k :
  forall retries calls t, 0 <= retries -> t <= backoff_end b req k retries calls t.
Proof.
  induction k as [|k IH]; intros retries calls t Hr; cbn [backoff_end]; [lia|].
  etransitivity; [|apply IH; lia].
  unfold Second. lia.
Qed.




Lemma retry_loop_recovers k :
  forall n retries err ctx req w resp,
    (k < n)%nat ->
    0 <= retries ->
    (forall i, (i < k)%nat -> rate_limited w req (backend_calls w + i)) ->
    reply_result (backend w (backend_calls w + k) req) = inl resp ->
    ctx_alive ctx (backoff_end (backend w) req k retries (backend_calls w) (now w)) ->
    exists w',
      retry_loop n retries err ctx req w = ((Some resp, None), w') /\
      backend_calls w' = (backend_calls w + k + 1)%nat /\
      sleeps (trace w') = (sleeps (trace w) ++ backoffs k retries)%list.
Proof.
  induction k as [|k IH]; intros n retries err ctx req w resp Hk Hretries Hrl Hok Hctx;
    destruct n as [|n]; try lia.
  - rewrite Nat.add_0_r in Hok.
    exists (after_attempt req w).
    split; [apply retry_loop_success; exact Hok|].
    split; [rewrite after_attempt_calls; lia|].
    cbn [backoffs]. rewrite app_nil_r. apply after_attempt_sleeps.
  - destruct (Hrl 0%nat ltac:(lia)) as (e & He & Hlimit).
    rewrite Nat.add_0_r in He.
    cbn [backoff_end] in Hctx.
    rewrite (retry_loop_backoff n retries err ctx req w e He Hlimit).
    2:{ rewrite after_attempt_now. eapply ctx_alive_mono; [|exact Hctx].
        apply backoff_end_ge. lia. }
    destruct (IH n (retries + 1) (Some e) ctx req (after_backoff retries req w) resp)
      as (w' & Hrun & Hcalls & Hsl).
    + lia.
    + lia.
    + intros i Hi. rewrite after_backoff_calls.
      destruct (Hrl (S i) ltac:(lia)) as (e' & He' & Hlimit').
      exists e'. split; [|exact Hlimit'].
      rewrite after_backoff_backend.
      replace (S (backend_calls w) + i)%nat with (backend_calls w + S i)%nat by lia.
      exact He'.
    + rewrite after_backoff_backend, after_backoff_calls.
      replace (S (backend_calls w) + k)%nat with (backend_calls w + S k)%nat by lia.
      exact Hok.
    + rewrite after_backoff_backend, after_backoff_calls, after_backoff_now.
      exact Hctx.
    + exists w'. split; [exact Hrun|].
      rewrite Hcalls, Hsl, after_backoff_calls, after_backoff_sleeps.
      split; [lia|]. cbn [backoffs]. rewrite <- app_assoc. reflexivity.
Qed.

(** X2.  A backend that is rate limited [k] times, [k] being 0, 1 or 2,
    and then answers: when the context is not done before the last of the
    [k] backoff sleeps ends, [createMessageWithRetry] returns that answer
    and a nil error after [k + 1] requests and the sleeps 1s, ..., [k]s. *)
Theorem createMessageWithRetry_recovers :
  forall (ctx : Context) (req : MessagesRequest) (w : World) (k : nat)
         (resp : MessagesResponse),
    (k < 3)%nat ->
    (forall i, (i < k)%nat -> rate_limited w req (backend_calls w + i)) ->
    reply_result (backend w (backend_calls w + k) req) = inl resp ->
    ctx_alive ctx (backoff_end (backend w) req k 0 (backend_calls w) (now w)) ->
    exists w',
      createMessageWithRetry ctx req w = ((Some resp, None), w') /\
      backend_calls w' = (backend_calls w + k + 1)%nat /\
      sleeps (trace w')
      = (sleeps (trace w) ++ take k [1 * Second; 2 * Second; 3 * Second])%list.
Proof.
  intros ctx req w k resp Hk Hrl Hok Hctx.
  unfold createMessageWithRetry. change (Z.to_nat maxRetries) with 3%nat.
  destruct (retry_loop_recovers k 3 0 None ctx req w resp Hk ltac:(lia) Hrl Hok Hctx)
    as (w' & Hrun & Hcalls & Hsl).
  exists w'. split; [exact Hrun|]. split; [exact Hcalls|].
  rewrite Hsl. f_equal.
  destruct k as [|[|[|k]]]; try reflexivity. lia.
Qed.

Lemma createMessageWithRetry_recovers_witness :
  (1 < 3)%nat /\
  (forall i, (i < 1)%nat ->
     rate_limited (fresh_world "k" flaky_backend) demo_request
       (backend_calls (fresh_world "k" flaky_backend) + i)) /\
  reply_result (flaky_backend 1%nat demo_request) = inl (text_response "xin chao") /\
  exists w',
    createMessageWithRetry context_Background demo_request (fresh_world "k" flaky_backend)
    = ((Some (text_response "xin chao"), None), w') /\
    backend_calls w' = 2%nat /\
    sleeps (trace w') = [1 * Second].
Proof.
  assert (H1 : (1 < 3)%nat) by lia.
  assert (H2 : forall i, (i < 1)%nat ->
                 rate_limited (fresh_world "k" flaky_backend) demo_request
                   (backend_calls (fresh_world "k" flaky_backend) + i)).
  { intros i Hi. assert (i = 0%nat) as -> by lia.
    exists rate_limit_error. split; reflexivity. }
  split; [exact H1|]. split; [exact H2|]. split; [reflexivity|].
  exact (createMessageWithRetry_recovers context_Background demo_request
           (fresh_world "k" flaky_backend) 1%nat (text_response "xin chao")
           H1 H2 eq_refl I).
Defined.




(** The loop returns a response or an error, never both and never
    neither. *)
Lemma retry_loop_result_shape n :
  forall retries err ctx req w,
    (exists resp, fst (retry_loop n retries err ctx req w) = (Some resp, None)) \/
    (exists e, fst (retry_loop n retries err ctx req w) = (None, Some e)).
Proof.
  induction n as [|n IH]; intros retries err ctx req w; cbn [retry_loop].
  - right. eexists. reflexivity.
  - unfold client_CreateMessages.
    destruct (reply_result (backend w (backend_calls w) req)) as [resp|e].
    + left. eexists. reflexivity.
    + destruct (is_rate_limit e); [|right; eexists; reflexivity].
      destruct (select_Done_After _ _ _) as [[ce|] w2].
      * right. eexists. reflexivity.
      * apply IH.
Qed.

(** ** Translate: failures, panics, collisions *)

Section TranslateMore.

Context `{JSONCodec}.
Variable promptLib : gmap string string.

(** The translator and the clock after a call answered by the backend. *)
Lemma Translate_backend_state ctx prompt content source target bookName w w1 obj cfg tr :
  _anthropic w = Some obj ->
  heap w !! config obj = Some cfg ->
  Translate promptLib PtrAnthropic ctx prompt content source target bookName w
  = (Return (tr, None), w1) ->
  backend_calls w1 <> backend_calls w ->
  exists obj',
    _anthropic w1 = Some obj' /\
    config obj' = config obj /\
    heap w1 = heap w /\
    cache obj'
    = cache_SetWithTTL (cache obj) (now w1)
        (generateCacheKey (prompt +:+ content) source target) tr 0 (CacheTTL cfg).
Proof.
  intros Ha Hc Hrun Hcalls.
  destruct (Translate_backend_inv _ _ _ _ _ _ _ _ _ _ _ Hrun Hcalls)
    as (obj0 & cfg0 & resp & wm & m' & _ & Ha0 & Hc0 & Hretry & _ & _ & _ & Hw1).
  rewrite Ha in Ha0. injection Ha0 as <-.
  rewrite Hc in Hc0. injection Hc0 as <-.
  cbn zeta in Hw1.
  pose proof (createMessageWithRetry_frame ctx
                (translate_request promptLib cfg prompt content source target bookName)
                (emit (EvTranslate prompt content source target bookName) w)) as Hframe.
  rewrite Hretry in Hframe. cbn [snd] in Hframe.
  destruct Hframe as ((_ & Hheap & _) & _).
  match type of Hw1 with
  | _ = saveMetadata ?a0 ?w0 =>
      pose proof (saveMetadata_frame a0 w0) as ((_ & Hheap1 & _ & _ & Hanth1) & Hnow1 & _);
      exists a0
  end.
  cbn zeta in Hheap1, Hanth1, Hnow1. rewrite <- Hw1 in Hheap1, Hanth1, Hnow1.
  cbn [heap with_anthropic _anthropic now] in Hheap1, Hanth1, Hnow1.
  split; [exact Hanth1|]. split; [reflexivity|].
  split; [rewrite Hheap1; exact Hheap|].
  cbn [cache with_metadata with_cache]. rewrite Hnow1. reflexivity.
Qed.

Lemma Translate_error_inv a ctx prompt content source target bookName w s e w' :
  Translate promptLib a ctx prompt content source target bookName w
  = (Return (s, Some e), w') ->
  s = "" /\
  same_process w w' /\
  files w' = files w /\
  (backend_calls w < backend_calls w')%nat /\
  (e = errors_New "no translation received" \/
   exists e0, e = wrapError ("createMessageWithRetry: " +:+ Error e0) e0).
Proof.
  unfold Translate. cbn [_anthropic emit with_trace heap now].
  destruct a; [discriminate|].
  destruct (_anthropic w) as [obj|] eqn:Ha; [|discriminate].
  destruct (heap w !! config obj) as [cfg|] eqn:Hc; [|discriminate].
  destruct (if String.eqb prompt "" then None else _); [discriminate|].
  match goal with
  | |- context [createMessageWithRetry ?c ?r ?w0] =>
      pose proof (createMessageWithRetry_frame c r w0) as (Hs & Hf & _ & Hlt & _);
      destruct (createMessageWithRetry c r w0) as [[r0 e0] wm]
  end.
  cbn [snd] in Hs, Hf, Hlt.
  assert (Hsame : same_process w wm) by exact Hs.
  cbn [files emit with_trace backend_calls] in Hf, Hlt.
  destruct r0 as [resp|], e0 as [e0|]; try discriminate.
  - intros Heq. injection Heq as <- <- <-.
    split; [reflexivity|]. split; [exact Hsame|]. split; [exact Hf|]. split; [exact Hlt|].
    right. exists e0. reflexivity.
  - destruct (resp_Content resp).
    + intros Heq. injection Heq as <- <- <-.
      split; [reflexivity|]. split; [exact Hsame|]. split; [exact Hf|].
      split; [exact Hlt|]. left. reflexivity.
    + unfold Translate_success. destruct (ModelUsage_incr _ _); discriminate.
  - intros Heq. injection Heq as <- <- <-.
    split; [reflexivity|]. split; [exact Hsame|]. split; [exact Hf|]. split; [exact Hlt|].
    right. exists e0. reflexivity.
Qed.

Lemma Translate_panic_inv a ctx prompt content source target bookName w msg w' :
  Translate promptLib a ctx prompt content source target bookName w = (Panicked msg, w') ->
  (msg = nil_dereference /\
   (a = PtrNil \/ _anthropic w = None \/
    exists obj, _anthropic w = Some obj /\ heap w !! config obj = None)) \/
  (msg = "assignment to entry in nil map" /\
   (backend_calls w < backend_calls w')%nat /\
   exists obj, _anthropic w = Some obj /\ ModelUsage (metadata obj) = None).
Proof.
  unfold Translate. cbn [_anthropic emit with_trace heap now].
  destruct a.
  { intros Heq. injection Heq as <- _. left. split; [reflexivity|]. left. reflexivity. }
  destruct (_anthropic w) as [obj|] eqn:Ha.
  2:{ intros Heq. injection Heq as <- _. left. split; [reflexivity|].
      right. left. reflexivity. }
  destruct (heap w !! config obj) as [cfg|] eqn:Hc.
  2:{ intros Heq. injection Heq as <- _. left. split; [reflexivity|].
      right. right. exists obj. split; [reflexivity|exact Hc]. }
  destruct (if String.eqb prompt "" then None else _); [discriminate|].
  unfold createMessageWithRetry.
  match goal with
  | |- context [retry_loop ?n ?r ?e ?c ?q ?w0] =>
      pose proof (retry_loop_result_shape n r e c q w0) as Hshape;
      pose proof (retry_loop_frame n r e c q w0) as (_ & _ & _ & _ & Hlt & _);
      destruct (retry_loop n r e c q w0) as [[r0 e0] wm]
  end.
  cbn [fst snd backend_calls emit with_trace] in Hshape, Hlt.
  specialize (Hlt ltac:(cbv; lia)).
  destruct Hshape as [(resp & Hshape)|(e1 & Hshape)]; injection Hshape as -> ->;
    [|discriminate].
  destruct (resp_Content resp); [discriminate|].
  unfold Translate_success, ModelUsage_incr. cbn [ModelUsage record_call metadata with_cache].
  destruct (ModelUsage (metadata obj)) as [mu|] eqn:Hmu; [discriminate|].
  intros Heq. injection Heq as <- <-.
  right. split; [reflexivity|]. split; [exact Hlt|].
  exists obj. split; [reflexivity|exact Hmu].
Qed.

End TranslateMore.

(** X3.  On a translator whose configuration is in the heap and whose
    usage map is not nil, [Translate] never panics: it returns a
    translation and a nil error, or the empty string and an error. *)
Theorem Translate_does_not_panic :
  forall (codec : JSONCodec) (promptLib : gmap string string) (ctx : Context)
         (prompt content source target bookName : string) (w : World)
         (obj : Anthropic) (cfg : Config) (mu : gmap string Z),
    _anthropic w = Some obj ->
    heap w !! config obj = Some cfg ->
    ModelUsage (metadata obj) = Some mu ->
    exists tr err,
      fst (Translate promptLib PtrAnthropic ctx prompt content source target bookName w)
      = Return (tr, err) /\
      (err = None \/ tr = "").
Proof.
  intros codec promptLib ctx prompt content source target bookName w obj cfg mu Ha Hc Hmu.
  destruct (Translate promptLib PtrAnthropic ctx prompt content source target bookName w)
    as [[[tr [e|]]|msg] w'] eqn:Hrun; cbn [fst].
  - exists tr, (Some e). split; [reflexivity|]. right.
    apply (Translate_error_inv promptLib _ _ _ _ _ _ _ _ _ _ _ Hrun).
  - exists tr, None. split; [reflexivity|]. left. reflexivity.
  - exfalso.
    destruct (Translate_panic_inv promptLib _ _ _ _ _ _ _ _ _ _ Hrun)
      as [(_ & [Hnil|[Hnone|(obj0 & Ha0 & Hc0)]])|(_ & _ & obj0 & Ha0 & Hmu0)].
    + discriminate.
    + congruence.
    + rewrite Ha in Ha0. injection Ha0 as <-. congruence.
    + rewrite Ha in Ha0. injection Ha0 as <-. congruence.
Qed.

Lemma Translate_does_not_panic_witness :
  _anthropic demo_world = Some demo_Anthropic /\
  heap demo_world !! config demo_Anthropic = Some demo_Config /\
  ModelUsage (metadata demo_Anthropic) = Some ∅ /\
  exists tr err,
    fst (@Translate null_codec ∅ PtrAnthropic context_Background
           "be brief" "hello" "english" "vietnamese" "Book" demo_world)
    = Return (tr, err) /\
    (err = None \/ tr = "").
Proof.
  assert (H1 : _anthropic demo_world = Some demo_Anthropic) by (vm_compute; reflexivity).
  assert (H2 : heap demo_world !! config demo_Anthropic = Some demo_Config)
    by (vm_compute; reflexivity).
  assert (H3 : ModelUsage (metadata demo_Anthropic) = Some ∅) by reflexivity.
  split; [exact H1|]. split; [exact H2|]. split; [exact H3|].
  exact (Translate_does_not_panic null_codec ∅ context_Background
           "be brief" "hello" "english" "vietnamese" "Book" demo_world
           demo_Anthropic demo_Config ∅ H1 H2 H3).
Defined.

(** X4.  A [Translate] call that returns an error returns the empty
    string with it, has asked the backend at least once, and leaves the
    translator (its cache and its metadata), the configurations and the
    files as they were; the error is [no translation received] or wraps
    the error of the retry loop behind [createMessageWithRetry: ]. *)
Theorem Translate_error_leaves_translator :
  forall (codec : JSONCodec) (promptLib : gmap string string) (a : AnthropicPtr)
         (ctx : Context) (prompt content source target bookName : string)
         (w w' : World) (s : string) (e : error),
    Translate promptLib a ctx prompt content source target bookName w
    = (Return (s, Some e), w') ->
    s = "" /\
    _anthropic w' = _anthropic w /\
    heap w' = heap w /\
    files w' = files w /\
    (backend_calls w < backend_calls w')%nat /\
    (e = errors_New "no translation received" \/
     exists e0, e = wrapError ("createMessageWithRetry: " +:+ Error e0) e0 /\
                errors_Unwrap e = Some e0).
Proof.
  intros codec promptLib a ctx prompt content source target bookName w w' s e Hrun.
  destruct (Translate_error_inv promptLib _ _ _ _ _ _ _ _ _ _ _ Hrun)
    as (Hs & (_ & Hheap & _ & _ & Hanth) & Hfiles & Hcalls & He).
  split; [exact Hs|]. split; [exact Hanth|]. split; [exact Hheap|].
  split; [exact Hfiles|]. split; [exact Hcalls|].
  destruct He as [->|(e0 & ->)]; [left; reflexivity|].
  right. exists e0. split; reflexivity.
Qed.

Lemma Translate_error_leaves_translator_witness :
  demo_refused
  = (Return ("", Some (wrapError ("createMessageWithRetry: " +:+ Error auth_error)
                         auth_error)),
     snd demo_refused) /\
  "" = "" /\
  _anthropic (snd demo_refused) = _anthropic refused_world /\
  heap (snd demo_refused) = heap refused_world /\
  files (snd demo_refused) = files refused_world /\
  (backend_calls refused_world < backend_calls (snd demo_refused))%nat /\
  (wrapError ("createMessageWithRetry: " +:+ Error auth_error) auth_error
   = errors_New "no translation received" \/
   exists e0,
     wrapError ("createMessageWithRetry: " +:+ Error auth_error) auth_error
     = wrapError ("createMessageWithRetry: " +:+ Error e0) e0 /\
     errors_Unwrap (wrapError ("createMessageWithRetry: " +:+ Error auth_error) auth_error)
     = Some e0).
Proof.
  assert (H1 : demo_refused
               = (Return ("", Some (wrapError ("createMessageWithRetry: "
                                               +:+ Error auth_error) auth_error)),
                  snd demo_refused))
    by (apply pair_of_fst; vm_compute; reflexivity).
  split; [exact H1|].
  exact (Translate_error_leaves_translator null_codec ∅ PtrAnthropic context_Background
           "be brief" "hello" "english" "vietnamese" "Book" refused_world
           (snd demo_refused) "" _ H1).
Defined.

(** X5.  The cache key joins the instructions and the content with no
    separator, so two calls whose instructions and content differ but
    concatenate to the same string have one key: what the first call,
    answered by the backend, gives the cache is filed under the key of
    the second, and when the store of the cache holds that entry and the
    TTL has not passed, the second call, with non-empty instructions, is
    answered with the translation of the first and the backend is not
    asked. *)
Theorem Translate_concatenation_collision :
  forall (codec : JSONCodec) (promptLib : gmap string string) (ctx ctx' : Context)
         (prompt1 content1 prompt2 content2 source target bookName bookName' : string)
         (w w1 w2 : World) (obj obj2 : Anthropic) (cfg cfg2 : Config) (tr : string)
         (i : nat),
    _anthropic w = Some obj ->
    heap w !! config obj = Some cfg ->
    0 < CacheTTL cfg ->
    prompt1 +:+ content1 = prompt2 +:+ content2 ->
    prompt2 <> "" ->
    Translate promptLib PtrAnthropic ctx prompt1 content1 source target bookName w
    = (Return (tr, None), w1) ->
    backend_calls w1 <> backend_calls w ->
    _anthropic w2 = Some obj2 ->
    heap w2 !! config obj2 = Some cfg2 ->
    let key := generateCacheKey (prompt2 +:+ content2) source target in
    let entry := {| item_value := tr;
                    item_expiration := Some (now w1 + CacheTTL cfg) |} in
    (exists obj1,
       _anthropic w1 = Some obj1 /\
       cache_entries (cache obj1) key = entry :: cache_entries (cache obj) key) /\
    (cache_view w2 (now w2) key = Some i ->
     cache_entries (cache obj2) key !! i = Some entry ->
     now w2 <= now w1 + CacheTTL cfg ->
     Translate promptLib PtrAnthropic ctx' prompt2 content2 source target bookName' w2
     = (Return (tr, None),
        emit (EvTranslate prompt2 content2 source target bookName') w2)).
Proof.
  intros codec promptLib ctx ctx' prompt1 content1 prompt2 content2 source target
         bookName bookName' w w1 w2 obj obj2 cfg cfg2 tr i Ha Hc Httl Hcat Hp Hrun Hcalls
         Ha2 Hc2 key entry.
  split.
  - destruct (Translate_entry promptLib ctx prompt1 content1 source target bookName
                w w1 obj cfg tr Ha Hc ltac:(lia) Hrun Hcalls)
      as (obj1 & Ha1 & _ & _ & Hentries).
    exists obj1. split; [exact Ha1|].
    rewrite Hcat in Hentries. fold key in Hentries. rewrite Hentries. subst entry.
    destruct (Z.eqb_spec (CacheTTL cfg) 0); [lia|reflexivity].
  - intros Hview Hi Hle.
    apply Translate_hit with (obj := obj2) (cfg := cfg2); try assumption.
    fold key. rewrite Hview.
    apply (cache_Get_live _ _ _ _ entry Hi).
    subst entry. cbn [item_live item_expiration].
    destruct (Z.ltb_spec (now w1 + CacheTTL cfg) (now w2)); [lia|reflexivity].
Qed.

Lemma Translate_concatenation_collision_witness :
  "be brief" +:+ "hello" = "be " +:+ "briefhello" /\
  "be " <> "" /\
  demo_first = (Return ("xin chao", None), snd demo_first) /\
  backend_calls (snd demo_first) <> backend_calls demo_world /\
  @Translate null_codec ∅ PtrAnthropic context_Background
    "be " "briefhello" "english" "vietnamese" "Book"
    (with_clock (now (snd demo_first) + Minute) (snd demo_first))
  = (Return ("xin chao", None),
     emit (EvTranslate "be " "briefhello" "english" "vietnamese" "Book")
       (with_clock (now (snd demo_first) + Minute) (snd demo_first))).
Proof.
  assert (H1 : _anthropic demo_world = Some demo_Anthropic) by (vm_compute; reflexivity).
  assert (H2 : heap demo_world !! config demo_Anthropic = Some demo_Config)
    by (vm_compute; reflexivity).
  assert (H3 : 0 < CacheTTL demo_Config) by (vm_compute; reflexivity).
  assert (H4 : "be brief" +:+ "hello" = "be " +:+ "briefhello") by reflexivity.
  assert (H5 : "be " <> "") by discriminate.
  assert (H6 : demo_first = (Return ("xin chao", None), snd demo_first))
    by (apply pair_of_fst; vm_compute; reflexivity).
  assert (H7 : backend_calls (snd demo_first) <> backend_calls demo_world)
    by (vm_compute; discriminate).
  assert (H8 : cache_view (with_clock (now (snd demo_first) + Minute) (snd demo_first))
                 (now (with_clock (now (snd demo_first) + Minute) (snd demo_first)))
                 (generateCacheKey ("be " +:+ "briefhello") "english" "vietnamese")
               = Some 0%nat) by (vm_compute; reflexivity).
  assert (H9 : now (with_clock (now (snd demo_first) + Minute) (snd demo_first))
               <= now (snd demo_first) + CacheTTL demo_Config)
    by (vm_compute; discriminate).
  destruct (@Translate_entry null_codec ∅ context_Background "be brief" "hello" "english"
              "vietnamese" "Book" demo_world (snd demo_first) demo_Anthropic
              demo_Config "xin chao" H1 H2 ltac:(vm_compute; discriminate) H6 H7)
    as (obj1 & Ha1 & Hcfg1 & Hheap1 & Hentries).
  assert (Hc1 : heap (snd demo_first) !! config obj1 = Some demo_Config)
    by (rewrite Hheap1, Hcfg1; exact H2).
  assert (Hi : cache_entries (cache obj1)
                 (generateCacheKey ("be " +:+ "briefhello") "english" "vietnamese")
               !! 0%nat
               = Some {| item_value := "xin chao";
                         item_expiration :=
                           Some (now (snd demo_first) + CacheTTL demo_Config) |}).
  { change ("be " +:+ "briefhello") with ("be brief" +:+ "hello").
    rewrite Hentries. reflexivity. }
  split; [exact H4|]. split; [exact H5|]. split; [exact H6|]. split; [exact H7|].
  exact (proj2 (Translate_concatenation_collision null_codec ∅ context_Background
                  context_Background "be brief" "hello" "be " "briefhello" "english"
                  "vietnamese" "Book" "Book" demo_world (snd demo_first)
                  (with_clock (now (snd demo_first) + Minute) (snd demo_first))
                  demo_Anthropic obj1 demo_Config demo_Config "xin chao" 0%nat
                  H1 H2 H3 H4 H5 H6 H7
                  (eq_trans (with_clock_anthropic _ _) Ha1)
                  (eq_trans (f_equal (fun h => h !! config obj1) (with_clock_heap _ _))
                     Hc1))
           H8 Hi H9).
Defined.

(** X6.  The translator keeps the caller's pointer to the [Config]: a
    TTL the caller writes there after the translator is built is the TTL
    [Translate] stores with, a positive one giving an entry that expires
    that long after the store. *)
Theorem Translate_uses_rewritten_CacheTTL :
  forall (codec : JSONCodec) (promptLib : gmap string string) (ctx : Context)
         (prompt content source target bookName : string)
         (w w1 : World) (obj : Anthropic) (cfg : Config) (ttl : Z) (tr : string),
    _anthropic w = Some obj ->
    heap w !! config obj = Some cfg ->
    Translate promptLib PtrAnthropic ctx prompt content source target bookName
      (with_heap (<[config obj := with_CacheTTL ttl cfg]> (heap w)) w)
    = (Return (tr, None), w1) ->
    backend_calls w1 <> backend_calls w ->
    effective_CacheTTL w1 = Some ttl /\
    (0 < ttl ->
     cache_expiration w1 (generateCacheKey (prompt +:+ content) source target)
     = Some (Some (now w1 + ttl))).
Proof.
  intros codec promptLib ctx prompt content source target bookName w w1 obj cfg ttl tr
         Ha Hc Hrun Hcalls.
  assert (Hc' : heap (with_heap (<[config obj := with_CacheTTL ttl cfg]> (heap w)) w)
                !! config obj = Some (with_CacheTTL ttl cfg)).
  { cbn [heap with_heap]. apply list_lookup_insert_eq.
    apply lookup_lt_Some in Hc. exact Hc. }
  destruct (Translate_backend_state promptLib _ _ _ _ _ _ _ _ _ _ _
              (Ha : _anthropic (with_heap _ w) = Some obj) Hc' Hrun Hcalls)
    as (obj' & Hanth1 & Hcfg & Hheap1 & Hcache).
  split.
  - unfold effective_CacheTTL. rewrite Hanth1, Hheap1, Hcfg, Hc'. reflexivity.
  - intros Httl. unfold cache_expiration. rewrite Hanth1, Hcache.
    cbn [CacheTTL with_CacheTTL].
    rewrite cache_entries_Set by lia.
    cbn [head fmap option_fmap option_map item_expiration].
    destruct (Z.eqb_spec ttl 0); [lia|reflexivity].
Qed.

Lemma Translate_uses_rewritten_CacheTTL_witness :
  _anthropic demo_world = Some demo_Anthropic /\
  heap demo_world !! config demo_Anthropic = Some demo_Config /\
  @Translate null_codec ∅ PtrAnthropic context_Background
    "be brief" "hello" "english" "vietnamese" "Book"
    (with_heap (<[config demo_Anthropic := with_CacheTTL (1 * Minute) demo_Config]>
                  (heap demo_world)) demo_world)
  = (Return ("xin chao", None), snd demo_first_retuned) /\
  backend_calls (snd demo_first_retuned) <> backend_calls demo_world /\
  0 < 1 * Minute /\
  effective_CacheTTL (snd demo_first_retuned) = Some (1 * Minute) /\
  cache_expiration (snd demo_first_retuned)
    (generateCacheKey ("be brief" +:+ "hello") "english" "vietnamese")
  = Some (Some (now (snd demo_first_retuned) + 1 * Minute)).
Proof.
  assert (H1 : _anthropic demo_world = Some demo_Anthropic) by (vm_compute; reflexivity).
  assert (H2 : heap demo_world !! config demo_Anthropic = Some demo_Config)
    by (vm_compute; reflexivity).
  assert (H3 : @Translate null_codec ∅ PtrAnthropic context_Background
                 "be brief" "hello" "english" "vietnamese" "Book"
                 (with_heap (<[config demo_Anthropic
                               := with_CacheTTL (1 * Minute) demo_Config]>
                               (heap demo_world)) demo_world)
               = (Return ("xin chao", None), snd demo_first_retuned))
    by (apply (pair_of_fst demo_first_retuned); vm_compute; reflexivity).
  assert (H4 : backend_calls (snd demo_first_retuned) <> backend_calls demo_world)
    by (vm_compute; discriminate).
  assert (H5 : 0 < 1 * Minute) by (vm_compute; reflexivity).
  destruct (Translate_uses_rewritten_CacheTTL null_codec ∅ context_Background
              "be brief" "hello" "english" "vietnamese" "Book" demo_world
              (snd demo_first_retuned) demo_Anthropic demo_Config (1 * Minute)
              "xin chao" H1 H2 H3 H4) as [Httl Hexp].
  split; [exact H1|]. split; [exact H2|]. split; [exact H3|]. split; [exact H4|].
  split; [exact H5|]. split; [exact Httl|exact (Hexp H5)].
Defined.

(** ** The usage counters *)

Lemma wrap_int_succ (x : Z) : 0 <= x < two63 - 1 -> wrap_int (x + 1) = x + 1.
Proof.
  intros Hx. unfold wrap_int, two63, two64 in *.
  rewrite Z.mod_small by lia. lia.
Qed.

Lemma Translate_counters `{JSONCodec} promptLib a ctx prompt content source target
    bookName w m :
  world_metadata w = Some m ->
  counters_consistent m ->
  TotalCalls m < two63 - 1 ->
  exists m',
    world_metadata
      (snd (Translate promptLib a ctx prompt content source target bookName w)) = Some m' /\
    counters_consistent m' /\
    TotalCalls m <= TotalCalls m' <= TotalCalls m + 1.
Proof.
  intros Hm [Hmu Htotal] Hbound.
  assert (Hsame : forall w', _anthropic w' = _anthropic w ->
            exists m', world_metadata w' = Some m' /\ counters_consistent m' /\
                       TotalCalls m <= TotalCalls m' <= TotalCalls m + 1).
  { intros w' Hw'. exists m. unfold world_metadata. rewrite Hw'.
    split; [exact Hm|]. split; [split; assumption|lia]. }
  unfold Translate. cbn [_anthropic emit with_trace heap now].
  destruct a; [apply Hsame; reflexivity|].
  destruct (_anthropic w) as [obj|] eqn:Ha; [|apply Hsame; exact Ha].
  destruct (heap w !! config obj) as [cfg|]; [|apply Hsame; exact Ha].
  destruct (if String.eqb prompt "" then None else _); [apply Hsame; exact Ha|].
  match goal with
  | |- context [createMessageWithRetry ?c ?r ?w0] =>
      pose proof (createMessageWithRetry_frame c r w0) as ((_ & _ & _ & _ & Hanth) & _);
      destruct (createMessageWithRetry c r w0) as [[r0 e0] wm]
  end.
  cbn [snd _anthropic emit with_trace] in Hanth. rewrite Ha in Hanth.
  destruct r0 as [resp|], e0 as [e0|]; try (apply Hsame; exact Hanth).
  destruct (resp_Content resp); [apply Hsame; exact Hanth|].
  unfold world_metadata in Hm. rewrite Ha in Hm. injection Hm as <-.
  unfold Translate_success, ModelUsage_incr. cbn [ModelUsage record_call metadata with_cache].
  destruct (ModelUsage (metadata obj)) as [mu|]; [|congruence].
  cbn [snd].
  match goal with
  | |- context [saveMetadata ?a0 ?w0] =>
      pose proof (saveMetadata_frame a0 w0) as ((_ & _ & _ & _ & Hanth') & _)
  end.
  cbn zeta in Hanth'. unfold world_metadata. rewrite Hanth'.
  cbn [_anthropic with_anthropic metadata with_metadata fmap option_fmap option_map].
  eexists. split; [reflexivity|].
  unfold counters_consistent, record_usage.
  cbn [ModelUsage TotalCalls TokenUsageList record_call].
  rewrite (wrap_int_succ (TotalCalls (metadata obj))) by lia.
  split; [split; [discriminate|]|lia].
  rewrite length_app. cbn [length]. lia.
Qed.

(** X7.  On a translator whose call count equals the number of recorded
    responses, and is far from the end of [int], any sequence of
    [Translate] calls keeps them equal and keeps the usage map non-nil;
    the count never decreases and grows by at most one per call. *)
Theorem TotalCalls_counts_recorded_responses :
  forall (codec : JSONCodec) (promptLib : gmap string string)
         (calls : list TranslateCall) (w : World) (m : UsageMetadata),
    world_metadata w = Some m ->
    counters_consistent m ->
    TotalCalls m + Z.of_nat (length calls) < two63 ->
    exists m',
      world_metadata (run_calls promptLib calls w) = Some m' /\
      TotalCalls m' = Z.of_nat (length (TokenUsageList m')) /\
      ModelUsage m' <> None /\
      TotalCalls m <= TotalCalls m' <= TotalCalls m + Z.of_nat (length calls).
Proof.
  intros codec promptLib calls.
  induction calls as [|c calls IH]; intros w m Hm Hcons Hbound.
  - exists m. cbn [run_calls fold_left length]. destruct Hcons as [Hmu Htotal].
    split; [exact Hm|]. split; [exact Htotal|]. split; [exact Hmu|]. lia.
  - cbn [length] in Hbound.
    destruct (Translate_counters promptLib PtrAnthropic (call_ctx c) (call_prompt c)
                (call_content c) (call_source c) (call_target c) (call_bookName c)
                w m Hm Hcons ltac:(lia)) as (m1 & Hm1 & Hcons1 & Hstep).
    destruct (IH _ m1 Hm1 Hcons1 ltac:(lia)) as (m' & Hm' & Htotal & Hmu & Hrange).
    exists m'. cbn [run_calls fold_left length].
    split; [exact Hm'|]. split; [exact Htotal|]. split; [exact Hmu|]. lia.
Qed.

Lemma TotalCalls_counts_recorded_responses_witness :
  world_metadata demo_world = Some new_metadata /\
  counters_consistent new_metadata /\
  TotalCalls new_metadata + Z.of_nat (length demo_calls) < two63 /\
  exists m',
    world_metadata (@run_calls null_codec ∅ demo_calls demo_world) = Some m' /\
    TotalCalls m' = Z.of_nat (length (TokenUsageList m')) /\
    ModelUsage m' <> None /\
    TotalCalls new_metadata <= TotalCalls m'
    <= TotalCalls new_metadata + Z.of_nat (length demo_calls).
Proof.
  assert (H1 : world_metadata demo_world = Some new_metadata) by (vm_compute; reflexivity).
  assert (H2 : counters_consistent new_metadata) by (split; [discriminate|reflexivity]).
  assert (H3 : TotalCalls new_metadata + Z.of_nat (length demo_calls) < two63)
    by (vm_compute; reflexivity).
  split; [exact H1|]. split; [exact H2|]. split; [exact H3|].
  exact (TotalCalls_counts_recorded_responses null_codec ∅ demo_calls demo_world
           new_metadata H1 H2 H3).
Defined.

(** ** The singleton, seen from its callers *)

Lemma translateWithAI_nil `{JSONCodec} promptLib content instructions bookTitle w :
  anthropicOnce w = true ->
  _anthropic w = None ->
  fst (translateWithAI promptLib content instructions bookTitle w)
  = Panicked nil_dereference.
Proof.
  intros Honce Hnil. unfold translateWithAI.
  rewrite GetAnthropicTranslator_done by exact Honce.
  unfold anthropic_ptr. cbn [_anthropic with_heap]. rewrite Hnil.
  reflexivity.
Qed.

Lemma translateWithAI_missing_key `{JSONCodec} promptLib content instructions bookTitle w :
  anthropicOnce w = false ->
  _anthropic w = None ->
  os_Getenv w "ANTHROPIC_KEY" = "" ->
  exists w2,
    translateWithAI promptLib content instructions bookTitle w
    = (Return ("", Some (errorString "error getting translator: missing ANTHROPIC_KEY")),
       w2) /\
    anthropicOnce w2 = true /\ _anthropic w2 = None.
Proof.
  intros Honce Hnil Hkey. unfold translateWithAI.
  set (cf := {| APIKey := os_Getenv w "ANTHROPIC_KEY"; Model := ModelClaude3Dot5SonnetLatest;
                Temperature := 7 # 10; MaxTokens := 8192; CacheTTL := 0;
                CacheMaxCost := 0; TranslationGuidelines := ""; SystemPrompt := "" |}).
  set (w1 := with_heap (heap w ++ [cf]) w).
  assert (Hc : exists cf0, heap w1 !! length (heap w) = Some cf0 /\ APIKey cf0 = "").
  { exists cf. split; [|exact Hkey].
    subst w1. cbn [heap with_heap]. rewrite lookup_app_r by lia.
    rewrite Nat.sub_diag. reflexivity. }
  pose proof (GetAnthropicTranslator_missing_key (Some (length (heap w))) w1 Honce Hc)
    as Hfst.
  pose proof (GetAnthropicTranslator_marks (Some (length (heap w))) w1) as Hmark.
  pose proof (GetAnthropicTranslator_error (Some (length (heap w))) w1 _ Honce Hfst)
    as Hkeep.
  destruct (GetAnthropicTranslator (Some (length (heap w))) w1) as [r w2].
  cbn [fst snd] in Hfst, Hmark, Hkeep. subst r.
  exists w2. split; [reflexivity|]. split; [exact Hmark|].
  rewrite Hkeep. exact Hnil.
Qed.

(** X8.  In a process with no API key in its environment, the first
    [translateWithAI] returns the error [error getting translator: missing
    ANTHROPIC_KEY]; every later one, even with the key set by then,
    panics on a nil pointer, since [GetAnthropicTranslator] now returns a
    nil translator with a nil error and [Translate] is called on it. *)
Theorem translateWithAI_panics_after_failed_init :
  forall (codec : JSONCodec) (promptLib : gmap string string)
         (content instructions bookTitle : string) (w : World),
    anthropicOnce w = false ->
    _anthropic w = None ->
    os_Getenv w "ANTHROPIC_KEY" = "" ->
    let first := translateWithAI promptLib content instructions bookTitle w in
    fst first
    = Return ("", Some (errorString "error getting translator: missing ANTHROPIC_KEY")) /\
    forall (env' : gmap string string) (content' instructions' bookTitle' : string),
      fst (translateWithAI promptLib content' instructions' bookTitle'
             (with_environ env' (snd first)))
      = Panicked nil_dereference.
Proof.
  intros codec promptLib content instructions bookTitle w Honce Hnil Hkey first.
  destruct (translateWithAI_missing_key promptLib content instructions bookTitle w
              Honce Hnil Hkey) as (w2 & Hfirst & Hmark & Hnone).
  subst first. rewrite Hfirst. cbn [fst snd].
  split; [reflexivity|].
  intros env' content' instructions' bookTitle'.
  apply translateWithAI_nil; assumption.
Qed.

Lemma translateWithAI_panics_after_failed_init_witness :
  anthropicOnce (fresh_world "" demo_backend) = false /\
  _anthropic (fresh_world "" demo_backend) = None /\
  os_Getenv (fresh_world "" demo_backend) "ANTHROPIC_KEY" = "" /\
  fst (@translateWithAI null_codec ∅ "Hello" "be formal" "Book" (fresh_world "" demo_backend))
  = Return ("", Some (errorString "error getting translator: missing ANTHROPIC_KEY")) /\
  forall (env' : gmap string string) (content' instructions' bookTitle' : string),
    fst (@translateWithAI null_codec ∅ content' instructions' bookTitle'
           (with_environ env'
              (snd (@translateWithAI null_codec ∅ "Hello" "be formal" "Book"
                      (fresh_world "" demo_backend)))))
    = Panicked nil_dereference.
Proof.
  assert (H1 : anthropicOnce (fresh_world "" demo_backend) = false) by reflexivity.
  assert (H2 : _anthropic (fresh_world "" demo_backend) = None) by reflexivity.
  assert (H3 : os_Getenv (fresh_world "" demo_backend) "ANTHROPIC_KEY" = "")
    by (vm_compute; reflexivity).
  split; [exact H1|]. split; [exact H2|]. split; [exact H3|].
  exact (translateWithAI_panics_after_failed_init null_codec ∅ "Hello" "be formal" "Book"
           (fresh_world "" demo_backend) H1 H2 H3).
Defined.

(** ** The caller's [Config] *)

(** X9.  The first [GetAnthropicTranslator] writes through the pointer
    it is given.  With an empty API key nothing is written and no
    translator is set.  With a key, the caller's [Config] afterwards has
    a TTL of 15 minutes and a maximal cost of 1e7 whatever it held, its
    empty guidelines and system prompt are filled from the environment
    and the non-empty ones kept, its key, model, temperature and token
    limit are kept, and the translator refers to that very object.  No
    other [Config] is touched. *)
Theorem GetAnthropicTranslator_writes_caller_Config :
  forall (codec : JSONCodec) (c : nat) (w : World) (cf : Config),
    anthropicOnce w = false ->
    heap w !! c = Some cf ->
    let w' := snd (GetAnthropicTranslator (Some c) w) in
    (forall c', c' <> c -> heap w' !! c' = heap w !! c') /\
    (APIKey cf = "" -> heap w' = heap w /\ _anthropic w' = _anthropic w) /\
    (APIKey cf <> "" ->
     exists cf',
       heap w' !! c = Some cf' /\
       (config <$> _anthropic w') = Some c /\
       CacheTTL cf' = 15 * Minute /\
       CacheMaxCost cf' = 10000000 /\
       TranslationGuidelines cf' =
         (if String.eqb (TranslationGuidelines cf) ""
          then os_Getenv w "TRANSLATION_GUIDELINES" else TranslationGuidelines cf) /\
       SystemPrompt cf' =
         (if String.eqb (SystemPrompt cf) ""
          then os_Getenv w "SYSTEM_PROMPT" else SystemPrompt cf) /\
       APIKey cf' = APIKey cf /\ Model cf' = Model cf /\
       Temperature cf' = Temperature cf /\ MaxTokens cf' = MaxTokens cf).
Proof.
  intros codec c w cf Honce Hc w'.
  destruct (String.eqb (APIKey cf) "") eqn:Hk.
  - apply String.eqb_eq in Hk.
    assert (Hw' : w' = with_once true w).
    { subst w'. unfold GetAnthropicTranslator. rewrite Honce.
      unfold init_anthropic. rewrite Hc, Hk. reflexivity. }
    rewrite Hw'. split; [reflexivity|]. split; [split; reflexivity|].
    intros Hne. contradiction.
  - apply String.eqb_neq in Hk.
    destruct (GetAnthropicTranslator_first c w cf Honce Hc Hk) as (m & out & Hrun & _).
    subst w'. rewrite Hrun.
    cbn [snd heap _anthropic with_once with_anthropic with_stdout with_heap].
    split; [intros c' Hc'; apply list_lookup_insert_ne; congruence|].
    split; [intros He; contradiction|]. intros _.
    exists (fill_Config w cf).
    split; [apply list_lookup_insert_eq; apply lookup_lt_Some in Hc; exact Hc|].
    repeat split.
Qed.

Lemma GetAnthropicTranslator_writes_caller_Config_witness :
  anthropicOnce (with_heap [one_minute_Config] (fresh_world "k" demo_backend)) = false /\
  heap (with_heap [one_minute_Config] (fresh_world "k" demo_backend)) !! 0%nat
  = Some one_minute_Config /\
  (CacheTTL <$>
    (heap (snd (@GetAnthropicTranslator null_codec (Some 0%nat)
                  (with_heap [one_minute_Config] (fresh_world "k" demo_backend)))) !! 0%nat))
  = Some (15 * Minute).
Proof.
  assert (H1 : anthropicOnce (with_heap [one_minute_Config] (fresh_world "k" demo_backend))
               = false) by reflexivity.
  assert (H2 : heap (with_heap [one_minute_Config] (fresh_world "k" demo_backend)) !! 0%nat
               = Some one_minute_Config) by reflexivity.
  split; [exact H1|]. split; [exact H2|].
  destruct (GetAnthropicTranslator_writes_caller_Config null_codec 0%nat
              (with_heap [one_minute_Config] (fresh_world "k" demo_backend))
              one_minute_Config H1 H2) as (_ & _ & Hfill).
  destruct (Hfill ltac:(vm_compute; discriminate)) as (cf' & Hcf' & _ & Httl & _).
  rewrite Hcf'. cbn [fmap option_fmap option_map]. f_equal. exact Httl.
Defined.

(** ** cmd/serve.go: content types and the injected script *)

Lemma prefix_append (p b : string) : String.prefix p (p +:+ b) = true.
Proof.
  induction p as [|c p IH]; [destruct b; reflexivity|].
  change (String c p +:+ b) with (String c (p +:+ b)). cbn [String.prefix].
  destruct (ascii_dec c c) as [_|Hne]; [exact IH|contradiction].
Qed.

Lemma prefix_inv (p s : string) : String.prefix p s = true -> exists b, s = p +:+ b.
Proof.
  revert s. induction p as [|c p IH]; intros s Hp.
  - exists s. reflexivity.
  - destruct s as [|c' s]; [discriminate|]. cbn [String.prefix] in Hp.
    destruct (ascii_dec c c') as [<-|]; [|discriminate].
    destruct (IH s Hp) as (b & ->). exists b. reflexivity.
Qed.

Lemma strings_Contains_spec (s substr : string) :
  strings_Contains s substr = true <-> exists a b, s = a +:+ substr +:+ b.
Proof.
  split.
  - induction s as [|c s IH]; cbn [strings_Contains]; intros Hc.
    + apply orb_true_iff in Hc as [Hp|]; [|discriminate].
      apply prefix_inv in Hp as (b & ->). exists "", b. reflexivity.
    + apply orb_true_iff in Hc as [Hp|Hc].
      * apply prefix_inv in Hp as (b & ->). exists "", b. reflexivity.
      * destruct (IH Hc) as (a & b & ->). exists (String c a), b. reflexivity.
  - intros (a & b & ->). induction a as [|c a IH].
    + change ("" +:+ substr +:+ b) with (substr +:+ b).
      destruct (substr +:+ b) eqn:Hs; cbn [strings_Contains];
        rewrite <- Hs, prefix_append; reflexivity.
    + change (String c a +:+ substr +:+ b) with (String c (a +:+ substr +:+ b)).
      cbn [strings_Contains]. rewrite IH. apply orb_true_r.
Qed.

(** X10.  [shouldInject] accepts exactly the content types in which
    [text/html], [application/xhtml+xml], [application/xml] or
    [text/plain] occurs, whatever stands before and after (a charset
    parameter, say). *)
Theorem shouldInject_spec :
  forall contentType : string,
    shouldInject contentType = true <->
    exists ct a b,
      In ct ["text/html"; "application/xhtml+xml"; "application/xml"; "text/plain"] /\
      contentType = a +:+ ct +:+ b.
Proof.
  intros contentType. unfold shouldInject, ToInjectContentTypes.
  generalize ["text/html"; "application/xhtml+xml"; "application/xml"; "text/plain"].
  intros cts. induction cts as [|ct cts IH]; cbn [shouldInject_loop].
  - split; [discriminate|]. intros (ct & a & b & [] & _).
  - destruct (strings_Contains contentType ct) eqn:Hc.
    + split; [|reflexivity]. intros _.
      apply strings_Contains_spec in Hc as (a & b & ->).
      exists ct, a, b. split; [left; reflexivity|reflexivity].
    + rewrite IH. split.
      * intros (ct' & a & b & Hin & ->). exists ct', a, b. split; [right; exact Hin|reflexivity].
      * intros (ct' & a & b & [<-|Hin] & ->).
        -- assert (Htrue : strings_Contains (a +:+ ct +:+ b) ct = true)
             by (apply strings_Contains_spec; eauto).
           congruence.
        -- exists ct', a, b. split; [exact Hin|reflexivity].
Qed.

Lemma append_eq_nil (a b : string) : "" = a +:+ b -> a = "" /\ b = "".
Proof.
  destruct a as [|c a]; [|discriminate].
  change ("" +:+ b) with b. intros H. split; [reflexivity|symmetry; exact H].
Qed.

Lemma bytes_LastIndex_from_spec (s sep : string) (i : Z) :
  0 <= i ->
  (bytes_LastIndex_from s sep i = -1 /\ forall a b, s <> a +:+ sep +:+ b) \/
  (exists a b,
     s = a +:+ sep +:+ b /\
     bytes_LastIndex_from s sep i = i + Z.of_nat (String.length a) /\
     forall a' b', s = a' +:+ sep +:+ b' -> (String.length a' <= String.length a)%nat).
Proof.
  revert i. induction s as [|c s IH]; intros i Hi; cbn [bytes_LastIndex_from].
  - destruct (String.prefix sep "") eqn:Hp.
    + right. apply prefix_inv in Hp as (b & Hb). exists "", b. split; [exact Hb|].
      split; [cbn; lia|]. intros a' b' Ha'. apply append_eq_nil in Ha' as [-> _]. cbn. lia.
    + left. split; [reflexivity|]. intros a b Hab.
      apply append_eq_nil in Hab as [-> Hab]. symmetry in Hab.
      apply append_eq_nil in Hab as [-> _].
      discriminate.
  - destruct (IH (i + 1) ltac:(lia)) as [[Hnone Hfree]|(a & b & Hs & Hpos & Hmax)].
    + rewrite Hnone. cbn [Z.leb Z.compare].
      destruct (String.prefix sep (String c s)) eqn:Hp.
      * right. apply prefix_inv in Hp as (b & Hb). exists "", b. split; [exact Hb|].
        split; [cbn; lia|]. intros [|c' a'] b' Ha'; [cbn; lia|].
        exfalso. injection Ha' as _ Ha'. exact (Hfree _ _ Ha').
      * left. split; [reflexivity|]. intros [|c' a'] b' Ha'.
        -- change ("" +:+ sep +:+ b') with (sep +:+ b') in Ha'.
           rewrite Ha', prefix_append in Hp. discriminate.
        -- injection Ha' as _ Ha'. exact (Hfree _ _ Ha').
    + rewrite Hpos.
      destruct (Z.leb_spec 0 (i + 1 + Z.of_nat (String.length a))) as [_|Hlt]; [|lia].
      right. exists (String c a), b. split; [rewrite Hs; reflexivity|].
      split; [cbn [String.length]; lia|].
      intros [|c' a'] b' Ha'; [cbn; lia|]. injection Ha' as _ Ha'.
      cbn [String.length]. specialize (Hmax _ _ Ha'). lia.
Qed.

Lemma list_ascii_of_string_app (a b : string) :
  list_ascii_of_string (a +:+ b) = (list_ascii_of_string a ++ list_ascii_of_string b)%list.
Proof.
  induction a as [|c a IH]; [reflexivity|].
  change (String c a +:+ b) with (String c (a +:+ b)). cbn [list_ascii_of_string].
  rewrite IH. reflexivity.
Qed.

Lemma string_of_list_ascii_app (l k : list ascii) :
  string_of_list_ascii (l ++ k)%list = string_of_list_ascii l +:+ string_of_list_ascii k.
Proof. induction l as [|c l IH]; [reflexivity|]. cbn [app string_of_list_ascii]. rewrite IH. reflexivity. Qed.

Lemma length_list_ascii_of_string (s : string) :
  length (list_ascii_of_string s) = String.length s.
Proof. induction s as [|c s IH]; [reflexivity|]. cbn. rewrite IH. reflexivity. Qed.

Lemma copy_at_fill {A} (p fill src rest : list A) :
  length fill = length src ->
  copy_at (p ++ fill ++ rest)%list (length p) src = (p ++ src ++ rest)%list.
Proof.
  intros Hlen. unfold copy_at.
  replace (length p) with (length p + 0)%nat by lia.
  rewrite list_inserts_app_r. f_equal.
  apply list_inserts_0_r. symmetry. exact Hlen.
Qed.

Lemma replicate_split {A} (n m : nat) (x : A) :
  replicate (n + m) x = (replicate n x ++ replicate m x)%list.
Proof. apply replicate_add. Qed.

(** The three [copy] calls of [ModifyResponse] splice the script in at
    [pos]. *)
Lemma splice_by_copy (la rest script : list ascii) :
  copy_at
    (copy_at
       (copy_at (replicate (length (la ++ rest)%list + length script) zero) 0
          (take (length la) (la ++ rest)%list))
       (length la) script)
    (length la + length script) (drop (length la) (la ++ rest)%list)
  = (la ++ script ++ rest)%list.
Proof.
  rewrite take_app_length, drop_app_length, length_app.
  replace (length la + length rest + length script)%nat
    with (length la + (length script + length rest))%nat by lia.
  rewrite !replicate_split.
  pose proof (copy_at_fill (@nil ascii) (replicate (length la) zero) la
                (replicate (length script) zero ++ replicate (length rest) zero)%list) as H1.
  cbn [app length] in H1. rewrite H1 by apply length_replicate. clear H1.
  rewrite (copy_at_fill la (replicate (length script) zero) script) by apply length_replicate.
  pose proof (copy_at_fill (la ++ script)%list (replicate (length rest) zero) rest []) as H3.
  rewrite length_app, app_nil_r, <- !app_assoc in H3.
  rewrite H3 by apply length_replicate. rewrite app_nil_r. reflexivity.
Qed.

(** X11.  [ModifyResponse] either leaves the response as it is (the
    content type is not injectable, or the body holds no [</body>], an
    empty body included), or it inserts the script and stylesheet tags
    immediately before the LAST [</body>] of the body, keeps every
    other byte in place and sets Content-Length to the length of the
    new body. *)
Theorem ModifyResponse_spec :
  forall r : StaticResponse,
    ((shouldInject (ContentType r) = false \/
      forall a b, Body r <> a +:+ "</body>" +:+ b) /\
     ModifyResponse r = r)
    \/
    (shouldInject (ContentType r) = true /\
     exists a b,
       Body r = a +:+ "</body>" +:+ b /\
       (forall a' b', Body r = a' +:+ "</body>" +:+ b' ->
                      (String.length a' <= String.length a)%nat) /\
       ModifyResponse r =
         {| ContentType := ContentType r;
            Body := a +:+ scriptToInject +:+ "</body>" +:+ b;
            ContentLength :=
              Z.of_nat (String.length (Body r) + String.length scriptToInject) |}).
Proof.
  intros r. unfold ModifyResponse. cbv zeta.
  destruct (shouldInject (ContentType r)) eqn:Hct; cbn [negb];
    [|left; split; [left; reflexivity|reflexivity]].
  destruct (bytes_LastIndex_from_spec (Body r) "</body>" 0 ltac:(lia))
    as [[Hnone Hfree]|(a & b & Hs & Hpos & Hmax)].
  - left. split; [right; exact Hfree|]. unfold bytes_LastIndex. rewrite Hnone.
    destruct (length (list_ascii_of_string (Body r)) =? 0)%nat; reflexivity.
  - right. split; [reflexivity|]. exists a, b. split; [exact Hs|]. split; [exact Hmax|].
    unfold bytes_LastIndex. rewrite Hpos.
    assert (Hbody : list_ascii_of_string (Body r)
                    = (list_ascii_of_string a ++ list_ascii_of_string ("</body>" +:+ b))%list)
      by (rewrite Hs at 1; apply list_ascii_of_string_app).
    destruct (length (list_ascii_of_string (Body r)) =? 0)%nat eqn:Hlen.
    { apply Nat.eqb_eq in Hlen. rewrite Hbody, length_app, list_ascii_of_string_app, length_app in Hlen.
      cbn in Hlen. lia. }
    destruct (Z.eqb_spec (0 + Z.of_nat (String.length a)) (-1)) as [Hneg|_]; [lia|].
    replace (Z.to_nat (0 + Z.of_nat (String.length a)))
      with (length (list_ascii_of_string a))
      by (rewrite length_list_ascii_of_string; lia).
    rewrite Hbody.
    rewrite (splice_by_copy (list_ascii_of_string a) (list_ascii_of_string ("</body>" +:+ b))
               (list_ascii_of_string scriptToInject)).
    f_equal.
    + rewrite !string_of_list_ascii_app, !string_of_list_ascii_of_string. reflexivity.
    + rewrite Hs. f_equal.
      rewrite <- !length_list_ascii_of_string, !list_ascii_of_string_app, !length_app. lia.
Qed.

(** ** cmd/serve.go: the table of contents *)

(** The loop body as the source has it, with the recursive call. *)
Lemma generateTOCHTML_np_eq (level : Z) (np : NavPoint) :
  generateTOCHTML_np level np
  = Sprintf li_format [Src (np_Content np); Text (np_NavLabel np)]
    +:+ (if 0 <? Z.of_nat (length (NavPoints np))
         then generateTOCHTML (NavPoints np) (wrap_int (level + 1)) else "")
    +:+ "</li>".
Proof.
  destruct np as [id po label content children]. cbn [generateTOCHTML_np np_Content np_NavLabel NavPoints].
  unfold generateTOCHTML. destruct children; reflexivity.
Qed.

Lemma Sprintf_li (src text : string) : Sprintf li_format [src; text] = toc_entry src text.
Proof.
  unfold Sprintf, toc_entry.
  let f := eval vm_compute in li_format in change li_format with f.
  cbv -[String.append]. reflexivity.
Qed.

Lemma NavPoint_tree_ind (P : NavPoint -> Prop) :
  (forall id po label content children,
     List.Forall P children -> P (mkNavPoint id po label content children)) ->
  forall np, P np.
Proof.
  intros Hstep. fix IH 1. intros [id po label content children].
  apply Hstep. induction children as [|c children IHc]; constructor; [apply IH|exact IHc].
Qed.

Lemma range_WriteString_ext (f g : NavPoint -> string) (navPoints : list NavPoint) :
  List.Forall (fun np => f np = g np) navPoints ->
  range_WriteString f navPoints = range_WriteString g navPoints.
Proof.
  induction 1 as [|np navPoints Hnp _ IH]; [reflexivity|].
  cbn [range_WriteString]. rewrite Hnp, IH. reflexivity.
Qed.

Lemma generateTOCHTML_np_ignores_level (np : NavPoint) :
  forall level level', generateTOCHTML_np level np = generateTOCHTML_np level' np.
Proof.
  induction np as [id po label content children IH] using NavPoint_tree_ind.
  intros level level'. cbn [generateTOCHTML_np].
  rewrite (range_WriteString_ext (generateTOCHTML_np (wrap_int (level + 1)))
             (generateTOCHTML_np (wrap_int (level' + 1)))); [reflexivity|].
  eapply List.Forall_impl; [|exact IH]. intros np Hnp. apply Hnp.
Qed.

(** X12.  The [level] argument of [generateTOCHTML] has no effect on the
    HTML it returns, at any depth of the tree. *)
Theorem generateTOCHTML_ignores_level :
  forall (navPoints : list NavPoint) (level level' : Z),
    generateTOCHTML navPoints level = generateTOCHTML navPoints level'.
Proof.
  intros navPoints level level'. unfold generateTOCHTML.
  rewrite (range_WriteString_ext (generateTOCHTML_np level) (generateTOCHTML_np level'));
    [reflexivity|].
  apply List.Forall_forall. intros np _. apply generateTOCHTML_np_ignores_level.
Qed.

Lemma occurs_in_app_l (x s t : string) : occurs_in x s -> occurs_in x (s +:+ t).
Proof.
  intros (a & b & ->). exists a, (b +:+ t). rewrite !string_append_assoc. reflexivity.
Qed.

Lemma occurs_in_app_r (x s t : string) : occurs_in x t -> occurs_in x (s +:+ t).
Proof.
  intros (a & b & ->). exists (s +:+ a), b. rewrite !string_append_assoc. reflexivity.
Qed.

Lemma occurs_in_range (body : NavPoint -> string) (x : string) (p : NavPoint)
    (navPoints : list NavPoint) :
  In p navPoints -> occurs_in x (body p) -> occurs_in x (range_WriteString body navPoints).
Proof.
  intros Hin Hx. induction navPoints as [|np navPoints IH]; [destruct Hin|].
  cbn [range_WriteString]. destruct Hin as [->|Hin].
  - apply occurs_in_app_l. exact Hx.
  - apply occurs_in_app_r. apply IH. exact Hin.
Qed.

Lemma occurs_in_generateTOCHTML (x : string) (p : NavPoint) (navPoints : list NavPoint)
    (level : Z) :
  In p navPoints -> occurs_in x (generateTOCHTML_np level p) ->
  occurs_in x (generateTOCHTML navPoints level).
Proof.
  intros Hin Hx. unfold generateTOCHTML.
  destruct navPoints as [|np navPoints]; [destruct Hin|]. cbn [length Nat.eqb].
  apply occurs_in_app_r, occurs_in_app_l.
  apply (occurs_in_range _ _ p); assumption.
Qed.

(** X13.  Every nav point of the tree, at any depth, is written as a list
    item that carries its target and its label byte for byte: nothing is
    escaped, whatever characters they hold. *)
Theorem generateTOCHTML_writes_every_navPoint :
  forall (navPoints : list NavPoint) (np : NavPoint) (level : Z),
    in_toc np navPoints ->
    exists before after,
      generateTOCHTML navPoints level
      = before +:+ toc_entry (Src (np_Content np)) (Text (np_NavLabel np)) +:+ after.
Proof.
  intros navPoints np level Hin. revert level.
  change (forall level,
             occurs_in (toc_entry (Src (np_Content np)) (Text (np_NavLabel np)))
               (generateTOCHTML navPoints level)).
  induction Hin as [navPoints Hin|p navPoints Hin Hbelow IH]; intros level.
  - apply (occurs_in_generateTOCHTML _ np); [exact Hin|].
    rewrite generateTOCHTML_np_eq, Sprintf_li.
    exists "". eexists. reflexivity.
  - apply (occurs_in_generateTOCHTML _ p); [exact Hin|].
    rewrite generateTOCHTML_np_eq.
    apply occurs_in_app_r, occurs_in_app_l.
    destruct (NavPoints p) as [|c children] eqn:Hch.
    + inversion Hbelow as [? Hin'|? ? Hin' _]; destruct Hin'.
    + cbn [length]. destruct (Z.ltb_spec 0 (Z.of_nat (S (length children)))); [|lia].
      apply IH.
Qed.

Lemma generateTOCHTML_writes_every_navPoint_witness :
  in_toc demo_navPoint demo_toc /\
  exists before after,
    generateTOCHTML demo_toc 0
    = before +:+ toc_entry (Src (np_Content demo_navPoint)) (Text (np_NavLabel demo_navPoint))
      +:+ after.
Proof.
  assert (H : in_toc demo_navPoint demo_toc).
  { eapply in_toc_below; [left; reflexivity|]. apply in_toc_here. left. reflexivity. }
  exact (conj H (generateTOCHTML_writes_every_navPoint demo_toc demo_navPoint 0 H)).
Defined.

(** ** cmd/upgrade.go: versions and checksums *)

Lemma strings_Index_from_spec (s sep : string) :
  forall i : Z,
    (strings_Index_from s sep i = -1 /\ forall a b, s <> a +:+ sep +:+ b) \/
    (exists a b,
       s = a +:+ sep +:+ b /\
       strings_Index_from s sep i = i + Z.of_nat (String.length a) /\
       forall a' b', s = a' +:+ sep +:+ b' -> (String.length a <= String.length a')%nat).
Proof.
  induction s as [|c s IH]; intros i; cbn [strings_Index_from].
  - destruct (String.prefix sep "") eqn:Hp.
    + right. apply prefix_inv in Hp as (b & Hb). exists "", b. split; [exact Hb|].
      split; [cbn; lia|]. intros a' b' _. cbn. lia.
    + left. split; [reflexivity|]. intros a b Hab.
      apply append_eq_nil in Hab as [-> Hab]. symmetry in Hab.
      apply append_eq_nil in Hab as [-> _]. discriminate.
  - destruct (String.prefix sep (String c s)) eqn:Hp.
    + right. apply prefix_inv in Hp as (b & Hb). exists "", b. split; [exact Hb|].
      split; [cbn; lia|]. intros a' b' _. cbn. lia.
    + destruct (IH (i + 1)) as [[Hnone Hfree]|(a & b & Hs & Hpos & Hmin)].
      * left. split; [exact Hnone|]. intros [|c' a'] b' Ha'.
        -- change ("" +:+ sep +:+ b') with (sep +:+ b') in Ha'.
           rewrite Ha', prefix_append in Hp. discriminate.
        -- injection Ha' as _ Ha'. exact (Hfree _ _ Ha').
      * right. exists (String c a), b. split; [rewrite Hs; reflexivity|].
        split; [rewrite Hpos; cbn [String.length]; lia|].
        intros [|c' a'] b' Ha'.
        -- change ("" +:+ sep +:+ b') with (sep +:+ b') in Ha'.
           rewrite Ha', prefix_append in Hp. discriminate.
        -- injection Ha' as _ Ha'. cbn [String.length]. specialize (Hmin _ _ Ha'). lia.
Qed.

Lemma substring_0_app (a b : string) : String.substring 0 (String.length a) (a +:+ b) = a.
Proof.
  induction a as [|c a IH]; [destruct b; reflexivity|].
  change (String c a +:+ b) with (String c (a +:+ b)).
  cbn [String.length String.substring]. rewrite IH. reflexivity.
Qed.

Lemma slice_from_go_app (a b : string) : slice_from_go (a +:+ b) (String.length a) = b.
Proof.
  induction a as [|c a IH]; [reflexivity|].
  change (String c a +:+ b) with (String c (a +:+ b)).
  cbn [String.length slice_from_go]. exact IH.
Qed.

Lemma String_length_app (a b : string) :
  String.length (a +:+ b) = (String.length a + String.length b)%nat.
Proof.
  induction a as [|c a IH]; [reflexivity|].
  change (String c a +:+ b) with (String c (a +:+ b)). cbn [String.length]. rewrite IH. reflexivity.
Qed.

Lemma not_Contains (s substr : string) :
  (forall a b, s <> a +:+ substr +:+ b) -> strings_Contains s substr = false.
Proof.
  intros Hfree. destruct (strings_Contains s substr) eqn:Hc; [|reflexivity].
  apply strings_Contains_spec in Hc as (a & b & Hs). destruct (Hfree _ _ Hs).
Qed.

(** X14.  [parseVersion] never panics and never reports an invalid
    format: it hands [semver.NewVersion] the text before the first [-]
    of the version (all of it when there is none) with one leading [v]
    removed, so everything from the first [-] on, a pre-release tag for
    one, plays no part in the result. *)
Theorem parseVersion_drops_suffix :
  forall (libs : UpgradeLibs) (fullVersion : string),
  exists head : string,
    parseVersion fullVersion = Return (semver_NewVersion (strings_TrimPrefix head "v")) /\
    strings_Contains head "-" = false /\
    (fullVersion = head \/ exists rest, fullVersion = head +:+ "-" +:+ rest).
Proof.
  intros libs fullVersion. unfold parseVersion, strings_SplitN.
  change (2 =? 0) with false. change (2 <? 0) with false. cbn [orb].
  destruct fullVersion as [|c s].
  - exists "". split; [reflexivity|]. split; [reflexivity|]. left. reflexivity.
  - set (v := String c s).
    assert (Hlen : (len v + 1 <? 2) = false).
    { apply Z.ltb_ge. unfold len, v. cbn [String.length]. lia. }
    rewrite Hlen. change (Z.to_nat (2 - 1)) with 1%nat. cbn [genSplit].
    unfold strings_Index.
    destruct (strings_Index_from_spec v "-" 0) as [[Hnone Hfree]|(a & b & Hs & Hpos & Hmin)].
    + rewrite Hnone. exists v. split; [reflexivity|].
      split; [apply not_Contains; exact Hfree|]. left. reflexivity.
    + rewrite Hpos.
      destruct (Z.ltb_spec (0 + Z.of_nat (String.length a)) 0) as [Hneg|_]; [lia|].
      exists a. cbn [length Z.of_nat Z.ltb Z.compare lookup list_lookup].
      unfold slice_to. rewrite Hs.
      replace (Z.to_nat (0 + Z.of_nat (String.length a))) with (String.length a) by lia.
      rewrite substring_0_app. split; [reflexivity|].
      split; [|right; exists b; reflexivity].
      apply not_Contains. intros x y Ha.
      assert (Hv : v = x +:+ "-" +:+ (y +:+ "-" +:+ b)).
      { rewrite Hs, Ha, !string_append_assoc. reflexivity. }
      specialize (Hmin _ _ Hv). rewrite Ha, !String_length_app in Hmin.
      cbn [String.length] in Hmin. lia.
Qed.

Lemma Sprintf_checksums_URL (tag trimmed : string) :
  Sprintf ("https://github.com/nguyenvanduocit/epubtrans/releases/download/%s/"
           +:+ "epubtrans_%s_checksums.txt") [tag; trimmed]
  = "https://github.com/nguyenvanduocit/epubtrans/releases/download/" +:+ tag
    +:+ "/epubtrans_" +:+ trimmed +:+ "_checksums.txt".
Proof.
  unfold Sprintf.
  let f := eval vm_compute in
        ("https://github.com/nguyenvanduocit/epubtrans/releases/download/%s/"
         +:+ "epubtrans_%s_checksums.txt") in
  change ("https://github.com/nguyenvanduocit/epubtrans/releases/download/%s/"
          +:+ "epubtrans_%s_checksums.txt") with f.
  cbv -[String.append]. reflexivity.
Qed.

Section UpgradeFacts.

Context `{UpgradeLibs}.

Lemma checksum_line_lookup (m : gmap string string) (line name : string) :
  checksum_line m line !! name
  = match line_checksum name line with
    | Some sum => Some sum
    | None => m !! name
    end.
Proof.
  unfold checksum_line, line_checksum.
  destruct (strings_Fields line) as [|p0 [|p1 [|p2 rest]]]; try reflexivity.
  cbn [length Nat.eqb lookup list_lookup].
  destruct (String.eqb_spec p1 name) as [->|Hne].
  - apply lookup_insert_eq.
  - apply lookup_insert_ne. exact Hne.
Qed.

Lemma checksums_lookup (lines : list string) :
  forall (m : gmap string string) (name : string),
    fold_left checksum_line lines m !! name
    = match listed_checksum name lines with
      | Some sum => Some sum
      | None => m !! name
      end.
Proof.
  unfold listed_checksum.
  induction lines as [|line lines IH]; intros m name; [reflexivity|].
  cbn [fold_left omap list_omap]. rewrite IH, checksum_line_lookup.
  destruct (line_checksum name line) as [sum|]; [|reflexivity].
  rewrite last_cons. destruct (last (omap (line_checksum name) lines)); reflexivity.
Qed.

End UpgradeFacts.

(** X15.  [verifyChecksum] returns nil exactly when the checksum file of
    the release was fetched and scanned without error, the downloaded
    file was opened and read without error, and the lower-case
    hexadecimal SHA-256 of its bytes is the checksum listed for the asset:
    the first field of the LAST line that has exactly two fields, the
    second being the asset's name. *)
Theorem verifyChecksum_accepts_iff :
  forall (libs : UpgradeLibs) (out : Outside) (filePath assetName : string)
         (release : GithubRelease),
    verifyChecksum out filePath assetName release = None <->
    exists (body : ScannedBody) (data : string),
      http_Get out (checksums_URL (TagName release)) = inl body /\
      scanner_Err body = None /\
      listed_checksum assetName (scanned_lines body) = Some (sha256_hex data) /\
      file_Open out filePath = None /\
      file_Copy out filePath = inl data.
Proof.
  intros libs out filePath assetName release.
  unfold verifyChecksum. rewrite Sprintf_checksums_URL. fold (checksums_URL (TagName release)).
  destruct (http_Get out (checksums_URL (TagName release))) as [body|e] eqn:Hget.
  2:{ split; [discriminate|]. intros (body' & data' & Hb & _). discriminate. }
  rewrite checksums_lookup, lookup_empty.
  destruct (scanner_Err body) as [e|] eqn:Herr.
  { split; [discriminate|]. intros (body' & data' & Hb & He & _). congruence. }
  destruct (listed_checksum assetName (scanned_lines body)) as [sum|] eqn:Hsum.
  2:{ split; [discriminate|]. intros (body' & data' & Hb & _ & Hl & _). congruence. }
  destruct (file_Open out filePath) as [e|] eqn:Hopen.
  { split; [discriminate|]. intros (body' & data' & _ & _ & _ & Ho & _). discriminate. }
  destruct (file_Copy out filePath) as [data|e] eqn:Hcopy.
  2:{ split; [discriminate|]. intros (body' & data' & _ & _ & _ & _ & Hc). discriminate. }
  fold (sha256_hex data).
  destruct (String.eqb_spec (sha256_hex data) sum) as [<-|Hne]; cbn [negb].
  - split; [|reflexivity]. intros _. exists body, data. repeat split; assumption.
  - split; [discriminate|]. intros (body' & data' & Hb & _ & Hl & _ & Hc). congruence.
Qed.

(** ** cmd/upgrade.go: installing the binary *)

Ltac disk_step :=
  cbn [inodes realpath sys_calls sys_fault short_write create_mode executable_path
       with_inodes set_disk tick fst snd negb].

Lemma os_Stat_inl (name : string) (d d1 : Disk) (info : Inode) :
  os_Stat name d = (inl info, d1) -> file_at d name = Some info /\ d1 = tick d.
Proof.
  unfold os_Stat, syscall, file_at.
  destruct (sys_fault d (sys_calls d) _); [discriminate|]. disk_step.
  destruct (inodes d !! realpath d name); [|discriminate].
  intros Heq. injection Heq as -> <-. split; reflexivity.
Qed.

Lemma os_Open_inl (name : string) (d d1 : Disk) (file : string) :
  os_Open name d = (inl file, d1) -> file = realpath d name /\ d1 = tick d.
Proof.
  unfold os_Open, syscall.
  destruct (sys_fault d (sys_calls d) _); [discriminate|]. disk_step.
  destruct (inodes d !! realpath d name); [|discriminate].
  intros Heq. injection Heq as <- <-. split; reflexivity.
Qed.

Lemma os_Create_inl (name : string) (d d1 : Disk) (file : string) :
  os_Create name d = (inl file, d1) ->
  file = realpath d name /\
  exists mode,
    d1 = set_disk (<[file := {| ino_data := ""; ino_mode := mode; ino_regular := true |}]>
                     (inodes d)) (S (sys_calls d)) d.
Proof.
  unfold os_Create, syscall.
  destruct (sys_fault d (sys_calls d) _); [discriminate|]. disk_step.
  destruct (inodes d !! realpath d name) as [info|].
  - destruct (ino_regular info); [|discriminate].
    intros Heq. injection Heq as <- <-. split; [reflexivity|]. eexists. reflexivity.
  - intros Heq. injection Heq as <- <-. split; [reflexivity|]. eexists. reflexivity.
Qed.

Lemma io_Copy_None (destination source : string) (d d1 : Disk) :
  io_Copy destination source d = (None, d1) ->
  d1 = write_data destination (read_data source d) (tick d).
Proof.
  unfold io_Copy, syscall.
  destruct (sys_fault d (sys_calls d) _); [discriminate|].
  intros Heq. injection Heq as <-. reflexivity.
Qed.

Lemma os_Chmod_None (name : string) (mode : Z) (d d1 : Disk) :
  os_Chmod name mode d = (None, d1) ->
  exists info,
    file_at d name = Some info /\
    d1 = set_disk (<[realpath d name := {| ino_data := ino_data info; ino_mode := mode;
                                           ino_regular := ino_regular info |}]> (inodes d))
           (S (sys_calls d)) d.
Proof.
  unfold os_Chmod, syscall, file_at.
  destruct (sys_fault d (sys_calls d) _); [discriminate|]. disk_step.
  destruct (inodes d !! realpath d name) as [info|]; [|discriminate].
  intros Heq. injection Heq as <-. exists info. split; reflexivity.
Qed.

Lemma copyFile_ok (src dst : string) (d d' : Disk) :
  copyFile src dst d = (None, d') ->
  exists info,
    file_at d src = Some info /\ ino_regular info = true /\
    d' = set_disk
           (<[realpath d dst :=
               {| ino_data := if String.eqb (realpath d dst) (realpath d src)
                              then "" else ino_data info;
                  ino_mode := ino_mode info; ino_regular := true |}]> (inodes d))
           (5 + sys_calls d)%nat d.
Proof.
  unfold copyFile.
  destruct (os_Stat src d) as [[info|e] d1] eqn:H1; [|discriminate].
  apply os_Stat_inl in H1 as [Hsrc ->].
  destruct (ino_regular info) eqn:Hreg; cbn [negb]; [|discriminate].
  destruct (os_Open src (tick d)) as [[source|e] d2] eqn:H2; [|discriminate].
  apply os_Open_inl in H2 as [-> ->].
  destruct (os_Create dst (tick (tick d))) as [[destination|e] d3] eqn:H3; [|discriminate].
  apply os_Create_inl in H3 as [-> (mode & ->)].
  destruct (io_Copy _ _ _) as [[e|] d4] eqn:H4; [discriminate|].
  apply io_Copy_None in H4 as ->.
  intros H5. apply os_Chmod_None in H5 as (info' & Hdst & ->).
  exists info. split; [exact Hsrc|]. split; [exact Hreg|].
  revert Hdst. unfold file_at, write_data, read_data. disk_step.
  rewrite lookup_insert_eq. disk_step. rewrite lookup_insert_eq.
  intros Heq. injection Heq as <-. cbn [ino_data ino_mode ino_regular].
  rewrite !insert_insert_eq. unfold set_disk. f_equal. f_equal. f_equal.
  destruct (String.eqb_spec (realpath d dst) (realpath d src)) as [Heq|Hne].
  - rewrite Heq, lookup_insert_eq. reflexivity.
  - rewrite lookup_insert_ne by exact Hne. unfold file_at in Hsrc. rewrite Hsrc. reflexivity.
Qed.


(** The data a copy reads: nothing when it writes to the file it reads,
    which [os.Create] has truncated by then. *)
Lemma copyFile_run (src dst : string) (d : Disk) (info : Inode) :
  file_at d src = Some info ->
  ino_regular info = true ->
  (forall i, file_at d dst = Some i -> ino_regular i = true) ->
  sys_fault d (sys_calls d) (SysStat (realpath d src)) = None ->
  sys_fault d (1 + sys_calls d)%nat (SysOpen (realpath d src)) = None ->
  sys_fault d (2 + sys_calls d)%nat (SysCreate (realpath d dst)) = None ->
  sys_fault d (4 + sys_calls d)%nat (SysChmod (realpath d dst)) = None ->
  copyFile src dst d
  = match sys_fault d (3 + sys_calls d)%nat (SysCopy (realpath d dst) (realpath d src)) with
    | Some err =>
        (Some err,
         set_disk
           (<[realpath d dst :=
               {| ino_data :=
                    String.substring 0 (short_write d (3 + sys_calls d)%nat)
                      (if String.eqb (realpath d dst) (realpath d src)
                       then "" else ino_data info);
                  ino_mode := match file_at d dst with
                              | Some i => ino_mode i
                              | None => create_mode d
                              end;
                  ino_regular := true |}]> (inodes d))
           (4 + sys_calls d)%nat d)
    | None =>
        (None,
         set_disk
           (<[realpath d dst :=
               {| ino_data := if String.eqb (realpath d dst) (realpath d src)
                              then "" else ino_data info;
                  ino_mode := ino_mode info; ino_regular := true |}]> (inodes d))
           (5 + sys_calls d)%nat d)
    end.
Proof.
  intros Hsrc Hreg Hdst F0 F1 F2 F4.
  cbn [Nat.add] in *.
  assert (Hread : forall (x : Inode) (d' : Disk),
             inodes d' = <[realpath d dst := x]> (inodes d) ->
             ino_data x = "" ->
             read_data (realpath d src) d'
             = if String.eqb (realpath d dst) (realpath d src) then "" else ino_data info).
  { intros x d' Hd' Hx. unfold read_data. rewrite Hd'.
    destruct (String.eqb_spec (realpath d dst) (realpath d src)) as [Heq|Hne].
    - rewrite Heq, lookup_insert_eq. exact Hx.
    - rewrite lookup_insert_ne by exact Hne. unfold file_at in Hsrc. rewrite Hsrc. reflexivity. }
  unfold copyFile, os_Stat, os_Open, os_Create, io_Copy, os_Chmod, syscall.
  unfold file_at in Hsrc, Hdst |- *.
  rewrite F0. disk_step. rewrite Hsrc, Hreg. disk_step.
  rewrite F1. disk_step. rewrite Hsrc. disk_step.
  rewrite F2. disk_step.
  destruct (inodes d !! realpath d dst) as [old|] eqn:Hold.
  - rewrite (Hdst old eq_refl). disk_step.
    erewrite Hread by reflexivity.
    destruct (sys_fault d (S (S (S (sys_calls d)))) _) as [err|].
    + unfold write_data. disk_step. rewrite lookup_insert_eq, insert_insert_eq.
      reflexivity.
    + unfold write_data. disk_step. rewrite lookup_insert_eq, insert_insert_eq. disk_step.
      rewrite F4. disk_step. rewrite lookup_insert_eq, insert_insert_eq.
      reflexivity.
  - disk_step.
    erewrite Hread by reflexivity.
    destruct (sys_fault d (S (S (S (sys_calls d)))) _) as [err|].
    + unfold write_data. disk_step. rewrite lookup_insert_eq, insert_insert_eq.
      reflexivity.
    + unfold write_data. disk_step. rewrite lookup_insert_eq, insert_insert_eq. disk_step.
      rewrite F4. disk_step. rewrite lookup_insert_eq, insert_insert_eq.
      reflexivity.
Qed.


Lemma os_Executable_inl (d d1 : Disk) (exe : string) :
  os_Executable d = (inl exe, d1) -> exe = executable_path d /\ d1 = tick d.
Proof.
  unfold os_Executable, syscall.
  destruct (sys_fault d (sys_calls d) _); [discriminate|].
  intros Heq. injection Heq as <- <-. split; reflexivity.
Qed.

Lemma os_Remove_cases (name : string) (d : Disk) :
  exists i,
    snd (os_Remove name d) = set_disk i (S (sys_calls d)) d /\
    (i = inodes d \/ i = delete (realpath d name) (inodes d)).
Proof.
  unfold os_Remove, syscall.
  destruct (sys_fault d (sys_calls d) _); [exists (inodes d); split; [reflexivity|left; reflexivity]|].
  disk_step. destruct (inodes d !! realpath d name).
  - eexists. split; [reflexivity|]. right. reflexivity.
  - exists (inodes d). split; [reflexivity|left; reflexivity].
Qed.

Lemma os_Remove_run (name : string) (d : Disk) :
  sys_fault d (sys_calls d) (SysRemove (realpath d name)) = None ->
  snd (os_Remove name d)
  = set_disk (delete (realpath d name) (inodes d)) (S (sys_calls d)) d.
Proof.
  intros F. unfold os_Remove, syscall. rewrite F. disk_step.
  destruct (inodes d !! realpath d name) eqn:Hk; [reflexivity|].
  rewrite (delete_id _ _ Hk). reflexivity.
Qed.

Lemma os_Executable_run (d : Disk) :
  sys_fault d (sys_calls d) SysExecutable = None ->
  os_Executable d = (inl (executable_path d), tick d).
Proof. intros F. unfold os_Executable, syscall. rewrite F. reflexivity. Qed.

Lemma set_disk_set_disk (i i' : gmap string Inode) (n n' : nat) (d : Disk) :
  set_disk i n (set_disk i' n' d) = set_disk i n d.
Proof. reflexivity. Qed.

Lemma set_disk_tick (i : gmap string Inode) (n : nat) (d : Disk) :
  set_disk i n (tick d) = set_disk i n d.
Proof. reflexivity. Qed.

Lemma copyFile_frame (src dst : string) (d : Disk) :
  exists i n,
    snd (copyFile src dst d) = set_disk i n d /\
    forall file, file <> realpath d dst -> i !! file = inodes d !! file.
Proof.
  unfold copyFile, os_Stat, os_Open, os_Create, io_Copy, os_Chmod, syscall, write_data.
  disk_step.
  repeat match goal with
         | |- context [match ?x with _ => _ end] =>
             match x with
             | context [match _ with _ => _ end] => fail 1
             | _ => destruct x eqn:?
             end; disk_step
         end.
  all: eexists; eexists; (split; [reflexivity|]); intros file Hfile; disk_step;
    rewrite ?lookup_insert_ne by congruence; reflexivity.
Qed.

(** X16.  [copyFile] changes no file but the destination, whatever it
    returns.  When the source is not an existing regular file it returns
    an error and changes nothing.  When it returns nil, the destination
    is a regular file with the mode of the source and its bytes, except
    that it is EMPTY when both paths name one file, which [os.Create]
    truncates before anything is read. *)
Theorem copyFile_touches_only_destination :
  forall (src dst : string) (d d' : Disk) (r : option error),
    copyFile src dst d = (r, d') ->
    same_disk d d' /\
    (forall file, file <> realpath d dst -> inodes d' !! file = inodes d !! file) /\
    ((forall info, file_at d src = Some info -> ino_regular info = false) ->
     r <> None /\ inodes d' = inodes d) /\
    (r = None ->
     exists info,
       file_at d src = Some info /\ ino_regular info = true /\
       file_at d' dst
       = Some {| ino_data := if String.eqb (realpath d dst) (realpath d src)
                             then "" else ino_data info;
                 ino_mode := ino_mode info; ino_regular := true |}).
Proof.
  intros src dst d d' r Hrun.
  destruct (copyFile_frame src dst d) as (i & n & Hd' & Hframe).
  rewrite Hrun in Hd'. cbn [snd] in Hd'.
  split; [rewrite Hd'; repeat split|].
  split; [rewrite Hd'; exact Hframe|].
  split.
  - intros Hsrc. revert Hrun. unfold copyFile, os_Stat, syscall.
    destruct (sys_fault d (sys_calls d) _).
    { intros Heq. injection Heq as <- <-. split; [discriminate|reflexivity]. }
    disk_step. unfold file_at in Hsrc.
    destruct (inodes d !! realpath d src) as [info|].
    + rewrite (Hsrc info eq_refl). disk_step.
      intros Heq. injection Heq as <- <-. split; [discriminate|reflexivity].
    + intros Heq. injection Heq as <- <-. split; [discriminate|reflexivity].
  - intros ->. apply copyFile_ok in Hrun as (info & Hsrc & Hreg & ->).
    exists info. split; [exact Hsrc|]. split; [exact Hreg|].
    unfold file_at. disk_step. apply lookup_insert_eq.
Qed.

Lemma copyFile_touches_only_destination_witness :
  copyFile "epubtrans" "/usr/local/bin/epubtrans" (demo_Disk "/tmp" no_fault)
  = (None, snd (copyFile "epubtrans" "/usr/local/bin/epubtrans" (demo_Disk "/tmp" no_fault))) /\
  file_at (snd (copyFile "epubtrans" "/usr/local/bin/epubtrans" (demo_Disk "/tmp" no_fault)))
    "/usr/local/bin/epubtrans"
  = Some demo_new.
Proof.
  assert (H1 : copyFile "epubtrans" "/usr/local/bin/epubtrans" (demo_Disk "/tmp" no_fault)
               = (None, snd (copyFile "epubtrans" "/usr/local/bin/epubtrans"
                               (demo_Disk "/tmp" no_fault))))
    by (apply pair_of_fst; vm_compute; reflexivity).
  split; [exact H1|].
  destruct (copyFile_touches_only_destination _ _ _ _ _ H1) as (_ & _ & _ & Hok).
  destruct (Hok eq_refl) as (info & Hsrc & _ & Hdst).
  rewrite Hdst. vm_compute in Hsrc. injection Hsrc as <-. vm_compute. reflexivity.
Defined.

(** A copy to a file that cannot be opened for writing fails and
    changes no file. *)
Lemma copyFile_busy (src dst : string) (d : Disk) (e : error) :
  (forall n, sys_fault d n (SysCreate (realpath d dst)) = Some e) ->
  exists err n, copyFile src dst d = (Some err, set_disk (inodes d) n d).
Proof.
  intros Hbusy. unfold copyFile, os_Stat, os_Open, os_Create, syscall. disk_step.
  destruct (sys_fault d (sys_calls d) _); [eexists; eexists; reflexivity|].
  destruct (inodes d !! realpath d src) as [info|] eqn:Hsrc;
    [|eexists; eexists; reflexivity].
  destruct (ino_regular info); disk_step; [|eexists; eexists; reflexivity].
  destruct (sys_fault d (S (sys_calls d)) _); [eexists; eexists; reflexivity|].
  disk_step. rewrite Hsrc. disk_step. rewrite Hbusy. eexists; eexists; reflexivity.
Qed.

Lemma copyFile_busy_run (src dst : string) (d : Disk) (info : Inode) (e : error) :
  file_at d src = Some info ->
  ino_regular info = true ->
  sys_fault d (sys_calls d) (SysStat (realpath d src)) = None ->
  sys_fault d (1 + sys_calls d)%nat (SysOpen (realpath d src)) = None ->
  sys_fault d (2 + sys_calls d)%nat (SysCreate (realpath d dst)) = Some e ->
  copyFile src dst d = (Some e, set_disk (inodes d) (3 + sys_calls d)%nat d).
Proof.
  intros Hsrc Hreg F0 F1 F2. cbn [Nat.add] in *. unfold file_at in Hsrc.
  unfold copyFile, os_Stat, os_Open, os_Create, syscall. disk_step.
  rewrite F0. disk_step. rewrite Hsrc, Hreg. disk_step.
  rewrite F1. disk_step. rewrite Hsrc. disk_step. rewrite F2. reflexivity.
Qed.

(** X17.  On a system that refuses to open the file of a running
    program for writing ([os.Create] of the executable fails: text file
    busy), [installBinary] installs nothing: whatever else fails or does
    not, it returns an error, and the executable, the extracted binary
    and every other file but the backup are as they were.  When no other
    call fails, the executable and the extracted binary are regular
    files and the backup path names another file than the executable,
    the error is [failed to install new version: ...] with the error of
    [os.Create], and the backup has been written and removed again. *)
Theorem installBinary_text_file_busy :
  forall (d : Disk) (e : error),
    let executable := executable_path d in
    let backupPath := executable +:+ ".bak" in
    (forall n, sys_fault d n (SysCreate (realpath d executable)) = Some e) ->
    (exists err, fst (installBinary d) = Some err) /\
    same_disk d (snd (installBinary d)) /\
    file_at (snd (installBinary d)) executable = file_at d executable /\
    (forall file, file <> realpath d backupPath ->
       inodes (snd (installBinary d)) !! file = inodes d !! file) /\
    (forall old new,
       (forall n c, c <> SysCreate (realpath d executable) -> sys_fault d n c = None) ->
       file_at d executable = Some old -> ino_regular old = true ->
       file_at d "epubtrans" = Some new -> ino_regular new = true ->
       realpath d backupPath <> realpath d executable ->
       (forall i, file_at d backupPath = Some i -> ino_regular i = true) ->
       fst (installBinary d)
       = Some (fmt_Errorf_w "failed to install new version: " (Some e)) /\
       inodes (snd (installBinary d)) = delete (realpath d backupPath) (inodes d)).
Proof.
  intros d e executable backupPath Hbusy.
  assert (Hgeneral :
            (exists err, fst (installBinary d) = Some err) /\
            same_disk d (snd (installBinary d)) /\
            file_at (snd (installBinary d)) executable = file_at d executable /\
            (forall file, file <> realpath d backupPath ->
               inodes (snd (installBinary d)) !! file = inodes d !! file)).
  { unfold installBinary.
    destruct (os_Executable d) as [[exe|err0] d1] eqn:H0.
    2:{ unfold os_Executable, syscall in H0.
        destruct (sys_fault d (sys_calls d) SysExecutable); [|discriminate].
        injection H0 as _ <-. cbn [fst snd].
        split; [eexists; reflexivity|]. repeat split. }
    apply os_Executable_inl in H0 as [-> ->].
    fold executable. fold backupPath.
    destruct (copyFile_frame executable backupPath (tick d)) as (i1 & n1 & Hd2 & Hframe).
    cbn [realpath inodes tick set_disk] in Hframe.
    destruct (copyFile executable backupPath (tick d)) as [[err1|] d2] eqn:H1;
      cbn [snd] in Hd2; subst d2.
    { cbn [fst snd]. split; [eexists; reflexivity|].
      split; [repeat split|]. split; [|exact Hframe].
      unfold file_at. disk_step.
      destruct (String.eqb_spec (realpath d backupPath) (realpath d executable))
        as [Heq|Hne]; [|apply Hframe; congruence].
      destruct (copyFile_busy executable backupPath (tick d) e) as (err & n & Hrun).
      { intros n. disk_step. rewrite Heq. apply Hbusy. }
      rewrite Hrun in H1.
      apply (f_equal (fun p => inodes (snd p))) in H1. cbn [snd inodes set_disk tick] in H1.
      rewrite <- H1. reflexivity. }
    assert (Hne : realpath d backupPath <> realpath d executable).
    { intros Heq.
      destruct (copyFile_busy executable backupPath (tick d) e) as (err & n & Hrun).
      { intros n. disk_step. rewrite Heq. apply Hbusy. }
      rewrite Hrun in H1. discriminate. }
    destruct (copyFile_busy "epubtrans" executable (set_disk i1 n1 (tick d)) e Hbusy)
      as (err2 & n2 & Hrun2).
    rewrite Hrun2. disk_step.
    destruct (copyFile_busy backupPath executable
                (set_disk i1 n2 (set_disk i1 n1 (tick d))) e Hbusy)
      as (err3 & n3 & Hrun3).
    rewrite Hrun3. disk_step.
    match goal with
    | |- context [os_Remove backupPath ?s] =>
        destruct (os_Remove_cases backupPath s) as (i5 & Hd5 & Hi5)
    end.
    rewrite Hd5. revert Hi5. disk_step. intros Hi5.
    split; [eexists; reflexivity|]. split; [repeat split|].
    assert (Hoff : forall file, file <> realpath d backupPath ->
              i5 !! file = inodes d !! file).
    { intros file Hfile.
      destruct Hi5 as [->| ->]; rewrite ?lookup_delete_ne by congruence;
        apply Hframe; exact Hfile. }
    split; [|exact Hoff].
    unfold file_at. disk_step. apply Hoff. congruence. }
  destruct Hgeneral as (H1 & H2 & H3 & H4).
  split; [exact H1|]. split; [exact H2|]. split; [exact H3|]. split; [exact H4|].
  intros old new Hok Hold Hreg Hnew Hnewreg Hne Hbak.
  assert (Hok' : forall n c,
             match c with SysCreate _ => False | _ => True end -> sys_fault d n c = None).
  { intros n c Hc. apply Hok. destruct c; try discriminate. destruct Hc. }
  assert (Hcreate : forall n, sys_fault d n (SysCreate (realpath d backupPath)) = None).
  { intros n. apply Hok. congruence. }
  unfold installBinary.
  rewrite (os_Executable_run d (Hok' _ SysExecutable I)). fold executable. fold backupPath.
  rewrite (copyFile_run executable backupPath (tick d) old)
    by (try (apply Hok'; exact I); try apply Hcreate; assumption).
  disk_step. rewrite (Hok' _ (SysCopy _ _) I), set_disk_tick.
  rewrite (proj2 (String.eqb_neq _ _) Hne).
  set (backup := {| ino_data := ino_data old; ino_mode := ino_mode old; ino_regular := true |}).
  assert (Hsrc2 : exists info,
             <[realpath d backupPath := backup]> (inodes d) !! realpath d "epubtrans"
             = Some info /\ ino_regular info = true).
  { destruct (String.eqb_spec (realpath d backupPath) (realpath d "epubtrans"))
      as [Heq|Hne'].
    - exists backup. rewrite <- Heq, lookup_insert_eq. split; reflexivity.
    - exists new. rewrite lookup_insert_ne by exact Hne'. split; [exact Hnew|exact Hnewreg]. }
  destruct Hsrc2 as (info & Hinfo & Hinforeg).
  rewrite (copyFile_busy_run "epubtrans" executable _ info e);
    [|unfold file_at; disk_step; exact Hinfo
     |exact Hinforeg
     |apply Hok'; exact I
     |apply Hok'; exact I
     |apply Hbusy].
  disk_step. rewrite set_disk_set_disk.
  rewrite (copyFile_busy_run backupPath executable _ backup e);
    [|unfold file_at; disk_step; apply lookup_insert_eq
     |reflexivity
     |apply Hok'; exact I
     |apply Hok'; exact I
     |apply Hbusy].
  disk_step. rewrite set_disk_set_disk.
  rewrite (os_Remove_run backupPath) by (apply Hok'; exact I).
  disk_step. split; [reflexivity|]. apply delete_insert_eq.
Qed.

Lemma installBinary_text_file_busy_witness :
  fst (installBinary busy_Disk)
  = Some (fmt_Errorf_w "failed to install new version: " (Some text_file_busy)) /\
  file_at (snd (installBinary busy_Disk)) "/usr/local/bin/epubtrans" = Some demo_old /\
  file_at (snd (installBinary busy_Disk)) "epubtrans" = Some demo_new /\
  file_at (snd (installBinary busy_Disk)) "/usr/local/bin/epubtrans.bak" = None.
Proof.
  assert (Hbusy : forall n,
             sys_fault busy_Disk n
               (SysCreate (realpath busy_Disk (executable_path busy_Disk)))
             = Some text_file_busy) by (intros n; reflexivity).
  assert (Hok : forall n c,
             c <> SysCreate (realpath busy_Disk (executable_path busy_Disk)) ->
             sys_fault busy_Disk n c = None).
  { intros n c Hc. destruct c; try reflexivity.
    cbn [busy_Disk demo_Disk sys_fault busy_on].
    destruct (String.eqb_spec file "/usr/local/bin/epubtrans") as [->|Hne];
      [|reflexivity].
    exfalso. apply Hc. reflexivity. }
  destruct (installBinary_text_file_busy busy_Disk text_file_busy Hbusy)
    as (_ & _ & Hexe & _ & Hrun).
  destruct (Hrun demo_old demo_new Hok) as [Herr Hfiles].
  - vm_compute. reflexivity.
  - reflexivity.
  - vm_compute. reflexivity.
  - reflexivity.
  - vm_compute. discriminate.
  - intros i Hi. vm_compute in Hi. discriminate.
  - split; [exact Herr|]. split; [exact Hexe|].
    unfold file_at. rewrite Hfiles. split; vm_compute; reflexivity.
Defined.

(** ** Guidelines without verbs, and empty segments *)

Lemma doPrintf_plain (f : string) (args : list string) (argNum : nat) (reordered : bool) :
  strings_Contains f "%" = false ->
  doPrintf f SLit args argNum reordered = f +:+ fmt_extra args argNum reordered.
Proof.
  induction f as [|c f IH]; intros Hfree; [reflexivity|].
  cbn [strings_Contains String.prefix] in Hfree.
  apply orb_false_iff in Hfree as [Hc Hfree].
  cbn [doPrintf]. destruct (Ascii.eqb_spec c "%") as [->|Hne].
  - destruct f; discriminate.
  - change (String c f +:+ fmt_extra args argNum reordered)
      with (String c (f +:+ fmt_extra args argNum reordered)).
    f_equal. apply IH, Hfree.
Qed.

(** X20.  Guidelines that are not empty and hold no [%] are not used as
    they are: [createTranslationSystem] formats them with three operands
    no verb consumes, so the system instruction is the guidelines
    followed by [fmt]'s diagnostic [%!(EXTRA string=<source>,
    string=<target>, string=<book>)]. *)
Theorem createTranslationSystem_plain_guidelines :
  forall (promptLib : gmap string string) (source target guidelines bookName : string),
    guidelines <> "" ->
    strings_Contains guidelines "%" = false ->
    createTranslationSystem promptLib source target guidelines bookName
    = guidelines +:+ extra_operands source target bookName.
Proof.
  intros promptLib source target guidelines bookName Hne Hfree.
  unfold createTranslationSystem. rewrite (eqb_empty_false _ Hne).
  unfold Sprintf. rewrite (doPrintf_plain _ _ _ _ Hfree). f_equal.
  unfold extra_operands. cbv -[String.append].
  rewrite !string_append_assoc. reflexivity.
Qed.

Lemma createTranslationSystem_plain_guidelines_witness :
  "Translate faithfully." <> "" /\
  strings_Contains "Translate faithfully." "%" = false /\
  createTranslationSystem ∅ "english" "vietnamese" "Translate faithfully." "Book"
  = "Translate faithfully." +:+ extra_operands "english" "vietnamese" "Book".
Proof.
  assert (H1 : "Translate faithfully." <> "") by discriminate.
  assert (H2 : strings_Contains "Translate faithfully." "%" = false)
    by (vm_compute; reflexivity).
  exact (conj H1 (conj H2 (createTranslationSystem_plain_guidelines ∅ "english"
                             "vietnamese" "Translate faithfully." "Book" H1 H2))).
Defined.

(** X21.  A segment that is in the document but empty is answered like
    a missing one: when the last element that carries the requested
    content id has an empty inner HTML, or one that cannot be rendered,
    the endpoint answers 404 [Translation ID not found] and leaves the
    world as it was, so no translator is built and the backend is not
    asked, even when an earlier element with the same id has content. *)
Theorem ai_translate_empty_segment_not_found :
  forall (codec : JSONCodec) (libs : WebLibs) (promptLib : gmap string string)
         (contentDirPath bookTitle body : string) (w : World)
         (req : TranslateAIRequest) (content : string) (doc : list Node) (s : Node),
    BodyParser body = inl req ->
    os_ReadFile (path_Join contentDirPath (FilePath req)) w = inl content ->
    NewDocumentFromReader content = inl doc ->
    last (List.filter (has_id "data-content-id" (ContentID req))
            (Find doc "data-content-id")) = Some s ->
    Html_or_empty s = "" ->
    ai_translate promptLib contentDirPath bookTitle body w
    = (Return (json_response 404 "error" "Translation ID not found"), w).
Proof.
  intros codec libs promptLib contentDirPath bookTitle body w req content doc s
         Hbody Hread Hparse Hlast Hempty.
  unfold ai_translate. rewrite Hbody, Hread, Hparse.
  rewrite content_by_attr_last, Hlast, Hempty. reflexivity.
Qed.

Lemma ai_translate_empty_segment_not_found_witness :
  @ai_translate null_codec empty_segment_libs ∅ "content" "Book" "be formal" serving_world
  = (Return (json_response 404 "error" "Translation ID not found"), serving_world).
Proof.
  apply (ai_translate_empty_segment_not_found null_codec empty_segment_libs ∅
           "content" "Book" "be formal" serving_world
           {| FilePath := "ch1.xhtml"; TranslationID := "t1"; ContentID := "c1";
              Instructions := "be formal" |}
           "<html/>" empty_segment_doc
           (ElementNode "p" [("data-content-id", "c1")] [])).
  - reflexivity.
  - vm_compute. reflexivity.
  - reflexivity.
  - vm_compute. reflexivity.
  - vm_compute. reflexivity.
Defined.

(** ** cmd/upgrade.go: unpacking the download *)

Lemma extract_loop_skip (skipped : list TarEntry) (tr : list (TarEntry + error)) (d : Disk) :
  List.Forall (fun h => is_binary h = false) skipped ->
  extract_loop (map inl skipped ++ tr)%list d = extract_loop tr d.
Proof.
  induction 1 as [|h skipped Hh _ IH]; [reflexivity|].
  cbn [map app extract_loop]. unfold is_binary in Hh. rewrite Hh. exact IH.
Qed.

Lemma filepath_Base_epubtrans : filepath_Base "epubtrans" = "epubtrans".
Proof. vm_compute. reflexivity. Qed.

(** X22.  With no system call failing, [extractTarGz] unpacks the first
    entry that is a regular file named exactly [epubtrans], to the file
    [epubtrans] of the working directory with mode 0755, touches no other
    file and reads no further entry.  When [Next] reaches the end of the
    archive without such an entry, it returns nil all the same, with
    nothing written. *)
Theorem extractTarGz_exact_entry :
  forall (libs : ArchiveLibs) (tarGzPath : string) (d : Disk) (info : Inode)
         (tr : list (TarEntry + error)) (skipped : list TarEntry),
    (forall n c, sys_fault d n c = None) ->
    file_at d tarGzPath = Some info ->
    gzip_NewReader (ino_data info) = inl tr ->
    List.Forall (fun h => is_binary h = false) skipped ->
    (tr = map inl skipped -> extractTarGz tarGzPath d = (None, tick d)) /\
    (forall (header : TarEntry) (rest : list (TarEntry + error)),
       tr = (map inl skipped ++ inl header :: rest)%list ->
       is_binary header = true ->
       entry_err header = None ->
       (forall i, file_at d "epubtrans" = Some i -> ino_regular i = true) ->
       exists d',
         extractTarGz tarGzPath d = (None, d') /\
         file_at d' "epubtrans"
         = Some {| ino_data := entry_data header; ino_mode := 493; ino_regular := true |} /\
         forall file, file <> realpath d "epubtrans" -> inodes d' !! file = inodes d !! file).
Proof.
  intros libs tarGzPath d info tr skipped Hnf Hfile Hgz Hskip.
  assert (Hrun : extractTarGz tarGzPath d = extract_loop tr (tick d)).
  { unfold extractTarGz, os_Open, syscall. rewrite Hnf. disk_step.
    unfold file_at in Hfile. rewrite Hfile.
    unfold read_data. disk_step. rewrite Hfile, Hgz. reflexivity. }
  rewrite Hrun. split.
  - intros ->. rewrite <- (app_nil_r (map inl skipped)).
    rewrite extract_loop_skip by exact Hskip. reflexivity.
  - intros header rest -> Hbin Herr Hdir.
    rewrite extract_loop_skip by exact Hskip.
    cbn [extract_loop]. unfold is_binary in Hbin. rewrite Hbin.
    apply andb_true_iff in Hbin as [_ Hname]. apply String.eqb_eq in Hname.
    rewrite Hname, filepath_Base_epubtrans.
    unfold os_Create, io_Copy_entry, os_Chmod, syscall, write_data.
    disk_step. rewrite Hnf. disk_step.
    unfold file_at in Hdir.
    destruct (inodes d !! realpath d "epubtrans") as [old|] eqn:Hold.
    + rewrite (Hdir old eq_refl). disk_step. rewrite Hnf. disk_step.
      rewrite lookup_insert_eq, Herr. disk_step. rewrite Hnf. disk_step.
      rewrite lookup_insert_eq, !insert_insert_eq.
      eexists. split; [reflexivity|]. unfold file_at. disk_step.
      split; [apply lookup_insert_eq|].
      intros file Hne. apply lookup_insert_ne. congruence.
    + disk_step. rewrite Hnf. disk_step.
      rewrite lookup_insert_eq, Herr. disk_step. rewrite Hnf. disk_step.
      rewrite lookup_insert_eq, !insert_insert_eq.
      eexists. split; [reflexivity|]. unfold file_at. disk_step.
      split; [apply lookup_insert_eq|].
      intros file Hne. apply lookup_insert_ne. congruence.
Qed.

Lemma extractTarGz_exact_entry_witness :
  exists d',
    @extractTarGz demo_archive "/tmp/epubtrans_1.tar.gz" demo_tar_Disk = (None, d') /\
    file_at d' "epubtrans"
    = Some {| ino_data := entry_data demo_binary; ino_mode := 493; ino_regular := true |}.
Proof.
  destruct (extractTarGz_exact_entry demo_archive "/tmp/epubtrans_1.tar.gz" demo_tar_Disk
              demo_download [inl demo_readme; inl demo_binary] [demo_readme])
    as [_ Hfound].
  - intros n c. reflexivity.
  - vm_compute. reflexivity.
  - reflexivity.
  - constructor; [vm_compute; reflexivity|constructor].
  - destruct (Hfound demo_binary [] eq_refl eq_refl eq_refl) as (d' & Hrun & Hfile & _).
    + intros i Hi. vm_compute in Hi. injection Hi as <-. reflexivity.
    + exists d'. split; [exact Hrun|exact Hfile].
Defined.
